(** * LuckyTriple: the request handlers of [src/backend/server.js]

    A shallow embedding of the Express handlers and of the Mongoose
    collections they read and write, followed by the properties of the
    wager settlement, the withdrawal workflow, the deposit webhook, the
    signup and the admin operations.

    Conventions of the model.
    - A JavaScript number is the rational ([Q]) that a finite double is;
      the two zeros are one.  The handlers that compute an amount come
      twice.  First with [+], [-] and [*] exact: this reading carries the
      properties of the validation, of the order of the checks and of what
      is written where, which rest on comparisons and copies.  Then, under
      names that end in [64], with [+], [-] and [*] as JavaScript computes
      them, rounded to the nearest double, ties to even: this reading
      carries the properties that state an amount.  [NaN] and the
      infinities are no numbers of the model: they are told apart as
      results of [parseFloat], and a handler that would store one has no
      result ([None]).
    - A JavaScript string is a [string] of 8-bit characters; [toLowerCase]
      and the white space skipped by [parseFloat] are the ASCII ones.
    - A collection is a finite map from [_id] to document; [findOne] on
      [GameSettings] sees at most one document.
    - A request body is typed: an absent field is [None]; a field is a
      number or a string where the handler itself parses it.
    - [Date.now()], [Math.random()], [bcrypt.hash] and the verification of
      the bearer token are inputs of the handlers; one request sees one
      instant [now].
    - Writes to the database succeed; the SMS client never throws and
      touches no collection, so it is left out. *)

From Stdlib Require Import QArith Qround ZArith String Ascii List Bool Lia Lqa
  Sorted Permutation.
From Stdlib Require SpecFloat.
From stdpp Require Import base option list gmap strings.
Import ListNotations.

Local Open Scope Z_scope.

(** ** Numbers *)

Definition Qltb (x y : Q) : bool := negb (Qle_bool y x).

(** [Math.floor(x)] *)
Definition Math_floor (x : Q) : Z := Qfloor x.

(** Leading decimal digit of a positive integer. *)
Fixpoint leading_digit (fuel : nat) (z : Z) : Z :=
  match fuel with
  | O => z
  | S f => if z <? 10 then z else leading_digit f (z / 10)
  end.

(** Leading significant digit of [n / d] when [0 < n < d]. *)
Fixpoint leading_digit_small (fuel : nat) (n d : Z) : Z :=
  match fuel with
  | O => n / d
  | S f => if d <=? n then n / d else leading_digit_small f (10 * n) d
  end.

(** [parseInt(x)] on a number [x]: the number is first printed, then the
    digits before the first character that is not a digit are read.
    Numbers with [10^-6 <= |x| < 10^21] (and zero) print in plain decimal
    notation, so the result is [x] truncated towards zero; the others
    print as [d.ddde+N] or [d.ddde-N], so the result is the leading
    digit. *)
Definition parseInt (x : Q) : Z :=
  let n := Qnum x in
  let d := Zpos (Qden x) in
  let a := Z.abs n in
  if n =? 0 then 0
  else if (d <=? a * 10 ^ 6) && (a <? d * 10 ^ 21) then Z.quot n d
  else if d * 10 ^ 21 <=? a
       then Z.sgn n * leading_digit (S (Z.to_nat (Z.log2 a))) (a / d)
       else Z.sgn n * leading_digit_small (S (Z.to_nat (Z.log2 d))) a d.

(** The results of [parseFloat]. *)
Inductive jsnumber : Type :=
  | Num (q : Q)
  | NaN
  | Infinity (negative : bool).

Definition is_ws (c : ascii) : bool :=
  let n := nat_of_ascii c in
  (Nat.eqb n 32 || (Nat.leb 9 n && Nat.leb n 13))%bool.

Fixpoint skip_ws (s : string) : string :=
  match s with
  | String c r => if is_ws c then skip_ws r else s
  | EmptyString => s
  end.

Definition digit_of (c : ascii) : option Z :=
  let n := nat_of_ascii c in
  if (Nat.leb 48 n && Nat.leb n 57)%bool then Some (Z.of_nat n - 48) else None.

(** Reads the longest prefix of decimal digits: its value on top of
    [acc], the number of digits read after [cnt], and the rest. *)
Fixpoint read_digits (s : string) (acc : Z) (cnt : nat) : Z * nat * string :=
  match s with
  | String c r =>
      match digit_of c with
      | Some v => read_digits r (10 * acc + v) (S cnt)
      | None => (acc, cnt, s)
      end
  | EmptyString => (acc, cnt, s)
  end.

Definition read_sign (s : string) : bool * string :=
  match s with
  | String "-" r => (true, r)
  | String "+" r => (false, r)
  | _ => (false, s)
  end.

(** The exponent part [e[+-]ddd], read only when a digit follows. *)
Definition read_exponent (s : string) : Z :=
  match s with
  | String c r =>
      if (Ascii.eqb c "e" || Ascii.eqb c "E")%bool then
        let '(neg, r1) := read_sign r in
        let '(v, cnt, _) := read_digits r1 0 0 in
        match cnt with
        | O => 0
        | S _ => if neg then - v else v
        end
      else 0
  | EmptyString => 0
  end.

(** [m * 10^e] as a rational in lowest terms. *)
Definition scale10 (m e : Z) : Q :=
  if 0 <=? e then inject_Z (m * 10 ^ e)
  else Qred (Qmake m (Z.to_pos (10 ^ (- e)))).

(** [parseFloat(s)] on a string: leading white space, a sign, then the
    longest prefix that is a decimal literal ([Infinity], digits with an
    optional fraction and exponent).  The number is the exact value of the
    literal; [parseFloat64] below rounds it to a double. *)
Definition parseFloat_string (s : string) : jsnumber :=
  let '(neg, r0) := read_sign (skip_ws s) in
  if String.prefix "Infinity" r0 then Infinity neg
  else
    let '(ip, ni, r1) := read_digits r0 0 0 in
    let '(m, nf, r2) :=
      match r1 with
      | String "." r => read_digits r ip 0
      | _ => (ip, O, r1)
      end in
    match (ni + nf)%nat with
    | O => NaN
    | S _ =>
        let e := read_exponent r2 in
        let q := scale10 m (e - Z.of_nat nf) in
        Num (if neg then Qopp q else q)
    end.

(** A body field that the handler parses: a JSON number or a string. *)
Inductive numstr : Type :=
  | NumV (q : Q)
  | StrV (s : string).

(** [parseFloat(v)]; a finite number prints and parses back to itself. *)
Definition parseFloat (v : option numstr) : jsnumber :=
  match v with
  | None => NaN
  | Some (NumV q) => Num q
  | Some (StrV s) => parseFloat_string s
  end.

(** ** Strings *)

Definition lower_ascii (c : ascii) : ascii :=
  let n := nat_of_ascii c in
  if (Nat.leb 65 n && Nat.leb n 90)%bool then ascii_of_nat (n + 32) else c.

Fixpoint toLowerCase (s : string) : string :=
  match s with
  | EmptyString => EmptyString
  | String c r => String (lower_ascii c) (toLowerCase r)
  end.

(** [s.includes(t)] *)
Fixpoint includes (s t : string) : bool :=
  (String.prefix t s ||
   match s with
   | EmptyString => false
   | String _ r => includes r t
   end)%bool.

(** ** Database models *)

Abbreviation ObjectId := positive.

Module User.
(** [userSchema]; [balance] defaults to 0 and [isAdmin] to false. *)
Record t : Type := mk {
  email : string;
  password : string;
  phone : string;
  balance : Q;
  isAdmin : bool;
  createdAt : Z;
  lastLogin : option Z
}.

Definition default_balance : Q := 0%Q.

Definition set_balance (u : t) (b : Q) : t :=
  mk (email u) (password u) (phone u) b (isAdmin u) (createdAt u) (lastLogin u).

(** A document as a query with a field selection returns it: a field
    that was deselected is absent. *)
Record doc : Type := mkdoc {
  d_id : ObjectId;
  d_email : string;
  d_password : option string;
  d_phone : string;
  d_balance : Q;
  d_isAdmin : bool;
  d_createdAt : Z;
  d_lastLogin : option Z
}.

(** [.select('-password')] *)
Definition select_minus_password (p : ObjectId * t) : doc :=
  mkdoc (fst p) (email (snd p)) None (phone (snd p)) (balance (snd p))
        (isAdmin (snd p)) (createdAt (snd p)) (lastLogin (snd p)).
End User.

Module Transaction.
Inductive type_enum : Type := deposit | withdrawal | bet | win | credit.
Inductive status_enum : Type := pending | completed | approved | rejected.

Inductive reference_value : Type :=
  | WTH (timestamp : Z) (user : ObjectId)   (* `WTH_${Date.now()}_${user._id}` *)
  | Text (s : string).

(** [transactionSchema] ([paymentDetails] is never written). *)
Record t : Type := mk {
  userId : ObjectId;
  type : type_enum;
  amount : Q;
  status : status_enum;
  reference : option reference_value;
  createdAt : Z;
  processedAt : option Z;
  processedBy : option ObjectId
}.

Definition is_pending (s : status_enum) : bool :=
  match s with pending => true | _ => false end.
End Transaction.

Module GameHistory.
(** [gameHistorySchema] *)
Record t : Type := mk {
  userId : ObjectId;
  betAmount : Q;
  guesses : list Q;
  winningNumbers : list Z;
  matches : nat;
  profit : Q;
  balanceBefore : Q;
  balanceAfter : Q;
  createdAt : Z
}.
End GameHistory.

Module GameSettings.
(** The nested object [payoutMultipliers] as it is written: a key that
    the writer left out is absent. *)
Record multipliers : Type := mkmult {
  threeMatches : option Q;
  twoMatches : option Q;
  oneMatch : option Q
}.

(** A stored [gameSettingsSchema] document. *)
Record stored : Type := mkstored {
  s_houseFee : Q;
  s_maxBet : Q;
  s_minBet : Q;
  s_payoutMultipliers : multipliers;
  s_updatedAt : Z;
  s_updatedBy : option ObjectId
}.

(** A document as a handler reads it: every path of the schema has a
    value. *)
Record t : Type := mk {
  houseFee : Q;
  maxBet : Q;
  minBet : Q;
  threeMatchesMultiplier : Q;   (* payoutMultipliers.threeMatches *)
  twoMatchesMultiplier : Q;     (* payoutMultipliers.twoMatches *)
  oneMatchMultiplier : Q;       (* payoutMultipliers.oneMatch *)
  updatedAt : Z;
  updatedBy : option ObjectId
}.

(** The defaults of the schema. *)
Definition default_houseFee : Q := 10%Q.
Definition default_maxBet : Q := 1000%Q.
Definition default_minBet : Q := 1%Q.
Definition default_threeMatches : Q := 100%Q.
Definition default_twoMatches : Q := 10%Q.
Definition default_oneMatch : Q := 2%Q.

(** [new GameSettings()] / [GameSettings.create({})] *)
Definition fresh (now : Z) : stored :=
  mkstored default_houseFee default_maxBet default_minBet
    (mkmult (Some default_threeMatches) (Some default_twoMatches)
            (Some default_oneMatch))
    now None.

(** Loading a stored document: a path that is missing takes the default
    of the schema. *)
Definition hydrate (s : stored) : t :=
  let pm := s_payoutMultipliers s in
  mk (s_houseFee s) (s_maxBet s) (s_minBet s)
     (default default_threeMatches (threeMatches pm))
     (default default_twoMatches (twoMatches pm))
     (default default_oneMatch (oneMatch pm))
     (s_updatedAt s) (s_updatedBy s).

(** The nested object of a loaded document. *)
Definition payoutMultipliers (s : t) : multipliers :=
  mkmult (Some (threeMatchesMultiplier s)) (Some (twoMatchesMultiplier s))
         (Some (oneMatchMultiplier s)).
End GameSettings.

(** ** The database *)

Record State : Type := mkState {
  users : gmap positive User.t;
  transactions : gmap positive Transaction.t;
  gamehistories : gmap positive GameHistory.t;
  gamesettings : option GameSettings.stored
}.

Definition set_users (st : State) (u : gmap positive User.t) : State :=
  mkState u (transactions st) (gamehistories st) (gamesettings st).

Definition set_transactions (st : State) (t : gmap positive Transaction.t) : State :=
  mkState (users st) t (gamehistories st) (gamesettings st).

Definition set_gamehistories (st : State) (h : gmap positive GameHistory.t) : State :=
  mkState (users st) (transactions st) h (gamesettings st).

Definition set_gamesettings (st : State) (s : option GameSettings.stored) : State :=
  mkState (users st) (transactions st) (gamehistories st) s.

(** The [_id] of a new document: one that the collection does not hold. *)
Definition new_id {A : Type} (m : gmap positive A) : positive := fresh (dom m).

(** [Model.create(doc)] / [new Model(doc).save()] *)
Definition create {A : Type} (d : A) (m : gmap positive A) : gmap positive A :=
  <[new_id m := d]> m.

(** [Model.findById(id)]; an [id] that is [undefined] finds nothing. *)
Definition findById {A : Type} (i : option positive) (m : gmap positive A)
  : option (positive * A) :=
  match i with
  | Some i => match m !! i with Some d => Some (i, d) | None => None end
  | None => None
  end.

(** [User.findOne({ email })] *)
Definition findOne_email (e : string) (m : gmap positive User.t)
  : option (positive * User.t) :=
  List.find (fun p => String.eqb (User.email (snd p)) e) (map_to_list m).

(** [GameSettings.findOne()], and [GameSettings.create({})] when there is
    none. *)
Definition load_settings (now : Z) (st : State) : GameSettings.t * State :=
  match gamesettings st with
  | Some s => (GameSettings.hydrate s, st)
  | None =>
      let s := GameSettings.fresh now in
      (GameSettings.hydrate s, set_gamesettings st (Some s))
  end.

(** ** Requests and responses *)

(** The payload of a verified token. *)
Record Claims : Type := mkClaims {
  id : ObjectId;
  email : string;
  isAdmin : bool
}.

(** The [Authorization] header as [jwt.verify] judges it. *)
Inductive Auth : Type :=
  | NoToken
  | InvalidToken
  | Bearer (user : Claims).

Inductive Body : Type :=
  | Failure (error : string)
      (* { success: false, error } *)
  | FailureBetRange (minBet maxBet : Q)
      (* error: `Bet must be between GHS ${minBet} and GHS ${maxBet}` *)
  | Message (message : string)
      (* { success: true, message } *)
  | SignedUp (_id : ObjectId) (email phone : string) (balance : Q)
             (isAdmin : bool) (token : Claims)
  | WithdrawalRequested (message : string) (_id : ObjectId)
                        (transaction : Transaction.t)
  | Played (winningNumbers : list Z) (matches : nat) (profit newBalance : Q)
           (message : string)
  | Users (users : list User.doc)
  | Credited (message : string) (newBalance : Q)
  | SettingsUpdated (message : string) (settings : GameSettings.stored).

Record Response : Type := mkResponse {
  status : nat;
  body : Body
}.

Definition json (b : Body) : Response := mkResponse 200 b.
Definition fail (code : nat) (error : string) : Response :=
  mkResponse code (Failure error).

(** [!s] is false only for a present, non-empty string. *)
Definition truthy_string (s : option string) : bool :=
  match s with
  | Some (String _ _) => true
  | _ => false
  end.

(** [!x] is false only for a present, non-zero number. *)
Definition truthy_number (x : option Q) : bool :=
  match x with
  | Some q => negb (Qeq_bool q 0)
  | None => false
  end.

(** ** Middleware *)

(** [authenticateToken]: the claims of the token, or the response that
    ends the request. *)
Definition authenticateToken (a : Auth) : Response + Claims :=
  match a with
  | NoToken => inl (fail 401 "Access token required")
  | InvalidToken => inl (fail 403 "Invalid or expired token")
  | Bearer user => inr user
  end.

(** [authenticateToken] followed by [requireAdmin]. *)
Definition requireAdmin (a : Auth) : Response + Claims :=
  match authenticateToken a with
  | inl r => inl r
  | inr user =>
      if isAdmin user then inr user
      else inl (fail 403 "Admin access required")
  end.

(** ** POST /api/auth/signup *)

Record SignupRequest : Type := mkSignup {
  su_email : option string;
  su_password : option string;
  su_phone : option string
}.

Definition signup (req : SignupRequest) (hashedPassword : string) (now : Z)
    (st : State) : Response * State :=
  if negb (truthy_string (su_email req)) || negb (truthy_string (su_password req))
     || negb (truthy_string (su_phone req))
  then (fail 400 "All fields are required", st)
  else
    let email := default "" (su_email req) in
    let phone := default "" (su_phone req) in
    match findOne_email email (users st) with
    | Some _ => (fail 400 "Email already exists", st)
    | None =>
        let user :=
          User.mk email hashedPassword phone User.default_balance
            (includes (toLowerCase email) "admin") now None in
        let _id := new_id (users st) in
        let st' := set_users st (<[_id := user]> (users st)) in
        (json (SignedUp _id (User.email user) (User.phone user)
                 (User.balance user) (User.isAdmin user)
                 (mkClaims _id (User.email user) (User.isAdmin user))),
         st')
    end.

(** ** POST /api/payments/webhook *)

Record WebhookRequest : Type := mkWebhook {
  wh_status : option string;
  wh_amount : option numstr;
  (* [metadata], and inside it [user_id] *)
  wh_metadata : option (option ObjectId)
}.

(** The result is [None] when the credited value is [NaN] or infinite: the
    balance then leaves the numbers of this model.  The credit is exact
    here; [webhook64] below credits on doubles. *)
Definition webhook (req : WebhookRequest) (st : State)
  : option (Response * State) :=
  if bool_decide (wh_status req = Some "completed") then
    match wh_metadata req with
    | None => Some (fail 500 "Callback processing failed", st)
    | Some user_id =>
        match findById user_id (users st) with
        | None => Some (fail 404 "User not found", st)
        | Some (_id, user) =>
            match parseFloat (wh_amount req) with
            | Num numAmount =>
                let user' :=
                  User.set_balance user (User.balance user + numAmount)%Q in
                Some (json (Message "Payment processed"),
                      set_users st (<[_id := user']> (users st)))
            | _ => None
            end
        end
    end
  else if bool_decide (wh_status req = Some "failed") then
    Some (json (Message "Payment failed"), st)
  else
    Some (json (Message "Payment processing"), st).

(** ** POST /api/withdrawals/request *)

Definition request_withdrawal (a : Auth) (amount : option Q) (now : Z)
    (st : State) : Response * State :=
  match authenticateToken a with
  | inl r => (r, st)
  | inr claims =>
      let user := users st !! id claims in
      match amount with
      | Some amount =>
          if negb (truthy_number (Some amount)) || Qle_bool amount 0
          then (fail 400 "Invalid amount", st)
          else
            match user with
            | None => (fail 500 "Failed to submit withdrawal request", st)
            | Some user =>
                if Qltb (User.balance user) amount
                then (fail 400 "Insufficient balance", st)
                else
                  let transaction :=
                    Transaction.mk (id claims) Transaction.withdrawal amount
                      Transaction.pending
                      (Some (Transaction.WTH now (id claims))) now None None in
                  let _id := new_id (transactions st) in
                  (json (WithdrawalRequested
                     "Withdrawal request submitted. You will receive an SMS when processed."
                     _id transaction),
                   set_transactions st (<[_id := transaction]> (transactions st)))
            end
      | None => (fail 400 "Invalid amount", st)
      end
  end.

(** ** POST /api/game/play *)

(** The loop [guesses.forEach((guess, i) => { if (parseInt(guess) ===
    winningNumbers[i]) matches++; })], from index [i] on. *)
Fixpoint forEach_matches (guesses : list Q) (winningNumbers : list Z)
    (i : nat) (matches : nat) : nat :=
  match guesses with
  | [] => matches
  | guess :: rest =>
      let matches' :=
        match winningNumbers !! i with
        | Some w => if parseInt guess =? w then S matches else matches
        | None => matches
        end in
      forEach_matches rest winningNumbers (S i) matches'
  end.

Definition winAmount_of (bet : Q) (settings : GameSettings.t) (matches : nat) : Q :=
  if Nat.eqb matches 3 then (bet * GameSettings.threeMatchesMultiplier settings)%Q
  else if Nat.eqb matches 2 then (bet * GameSettings.twoMatchesMultiplier settings)%Q
  else if Nat.eqb matches 1 then (bet * GameSettings.oneMatchMultiplier settings)%Q
  else 0%Q.

Record PlayRequest : Type := mkPlay {
  pl_bet : option Q;
  pl_guesses : option (list Q)
}.

(** The settlement of a validated wager: the draw, the balance, the
    game history and the ledger.  [random0], [random1], [random2] are the
    three results of [Math.random()].  The amounts are exact here;
    [settle_wager64] below is the same settlement on doubles. *)
Definition settle_wager (claims : Claims) (user : User.t) (bet : Q)
    (guesses : list Q) (settings : GameSettings.t) (random0 random1 random2 : Q)
    (now : Z) (st1 : State) : Response * State :=
  let winningNumbers :=
    [ Math_floor (random0 * 10); Math_floor (random1 * 10);
      Math_floor (random2 * 10) ]%Q in
  let matches := forEach_matches guesses winningNumbers 0 0 in
  let winAmount := winAmount_of bet settings matches in
  let profit := (winAmount - bet)%Q in
  let balanceBefore := User.balance user in
  let user' := User.set_balance user (User.balance user + profit)%Q in
  let st2 := set_users st1 (<[id claims := user']> (users st1)) in
  let gameHistory :=
    GameHistory.mk (id claims) bet guesses winningNumbers matches profit
      balanceBefore (User.balance user') now in
  let st3 := set_gamehistories st2 (create gameHistory (gamehistories st2)) in
  let st4 :=
    set_transactions st3
      (create (Transaction.mk (id claims) Transaction.bet bet
                 Transaction.completed None now (Some now) None)
              (transactions st3)) in
  let st5 :=
    if Qltb 0 winAmount then
      set_transactions st4
        (create (Transaction.mk (id claims) Transaction.win winAmount
                   Transaction.completed None now (Some now) None)
                (transactions st4))
    else st4 in
  (json (Played winningNumbers matches profit (User.balance user')
           (if Nat.ltb 0 matches then "You won!" else "Better luck next time!")),
   st5).

Definition play (a : Auth) (req : PlayRequest) (random0 random1 random2 : Q)
    (now : Z) (st : State) : Response * State :=
  match authenticateToken a with
  | inl r => (r, st)
  | inr claims =>
      let user := users st !! id claims in
      match pl_bet req, pl_guesses req with
      | Some bet, Some guesses =>
          if negb (truthy_number (Some bet)) || Qle_bool bet 0
             || negb (Nat.eqb (length guesses) 3)
          then (fail 400 "Invalid game parameters", st)
          else
            let '(settings, st1) := load_settings now st in
            if Qltb bet (GameSettings.minBet settings)
               || Qltb (GameSettings.maxBet settings) bet
            then (mkResponse 400
                    (FailureBetRange (GameSettings.minBet settings)
                                     (GameSettings.maxBet settings)), st1)
            else
              match user with
              | None => (fail 500 "Game error occurred", st1)
              | Some user =>
                  if Qltb (User.balance user) bet
                  then (fail 400 "Insufficient balance", st1)
                  else settle_wager claims user bet guesses settings
                         random0 random1 random2 now st1
              end
      | _, _ => (fail 400 "Invalid game parameters", st)
      end
  end.

(** ** GET /api/admin/users *)

(** [.sort({ createdAt: -1 })] *)
Fixpoint insert_desc (d : User.doc) (l : list User.doc) : list User.doc :=
  match l with
  | [] => [d]
  | x :: r =>
      if User.d_createdAt x <=? User.d_createdAt d then d :: l
      else x :: insert_desc d r
  end.

Definition sort_createdAt_desc (l : list User.doc) : list User.doc :=
  foldr insert_desc [] l.

(** [User.find({ isAdmin: false }).select('-password').sort({ createdAt: -1 })] *)
Definition find_users (m : gmap positive User.t) : list User.doc :=
  sort_createdAt_desc
    (map User.select_minus_password
       (List.filter (fun p => negb (User.isAdmin (snd p))) (map_to_list m))).

Definition admin_users (a : Auth) (st : State) : Response * State :=
  match requireAdmin a with
  | inl r => (r, st)
  | inr _ => (json (Users (find_users (users st))), st)
  end.

(** ** POST /api/admin/credit-user

    The credit is exact here; [credit_user64] below credits on doubles. *)

Record CreditRequest : Type := mkCredit {
  cr_userId : option ObjectId;
  cr_amount : option Q;
  cr_reason : option string
}.

Definition credit_user (a : Auth) (req : CreditRequest) (now : Z) (st : State)
  : Response * State :=
  match requireAdmin a with
  | inl r => (r, st)
  | inr claims =>
      match cr_userId req, cr_amount req with
      | Some userId, Some amount =>
          if negb (truthy_number (Some amount)) || Qle_bool amount 0
          then (fail 400 "Invalid parameters", st)
          else
            match users st !! userId with
            | None => (fail 404 "User not found", st)
            | Some user =>
                let user' := User.set_balance user (User.balance user + amount)%Q in
                let st1 := set_users st (<[userId := user']> (users st)) in
                let reference :=
                  if truthy_string (cr_reason req)
                  then default "" (cr_reason req) else "Admin credit" in
                let st2 :=
                  set_transactions st1
                    (create (Transaction.mk userId Transaction.credit amount
                               Transaction.completed
                               (Some (Transaction.Text reference)) now (Some now)
                               (Some (id claims)))
                            (transactions st1)) in
                (json (Credited "User credited successfully" (User.balance user')),
                 st2)
            end
      | _, _ => (fail 400 "Invalid parameters", st)
      end
  end.

(** ** POST /api/admin/approve-withdrawal

    The debit is exact here; [approve_withdrawal64] below debits on
    doubles. *)

Definition approve_withdrawal (a : Auth) (transactionId : option ObjectId)
    (now : Z) (st : State) : Response * State :=
  match requireAdmin a with
  | inl r => (r, st)
  | inr claims =>
      match findById transactionId (transactions st) with
      | None => (fail 404 "Transaction not found", st)
      | Some (_id, transaction) =>
          if negb (Transaction.is_pending (Transaction.status transaction))
          then (fail 400 "Transaction already processed", st)
          else
            (* [.populate('userId')] *)
            match users st !! Transaction.userId transaction with
            | None => (fail 500 "Failed to approve withdrawal", st)
            | Some user =>
                if Qltb (User.balance user) (Transaction.amount transaction)
                then (fail 400 "User has insufficient balance", st)
                else
                  let user' :=
                    User.set_balance user
                      (User.balance user - Transaction.amount transaction)%Q in
                  let st1 :=
                    set_users st
                      (<[Transaction.userId transaction := user']> (users st)) in
                  let transaction' :=
                    Transaction.mk (Transaction.userId transaction)
                      (Transaction.type transaction)
                      (Transaction.amount transaction) Transaction.approved
                      (Transaction.reference transaction)
                      (Transaction.createdAt transaction) (Some now)
                      (Some (id claims)) in
                  (json (Message "Withdrawal approved successfully"),
                   set_transactions st1
                     (<[_id := transaction']> (transactions st1)))
            end
      end
  end.

(** ** POST /api/admin/reject-withdrawal *)

Definition reject_withdrawal (a : Auth) (transactionId : option ObjectId)
    (reason : option string) (now : Z) (st : State) : Response * State :=
  match requireAdmin a with
  | inl r => (r, st)
  | inr claims =>
      match findById transactionId (transactions st) with
      | None => (fail 404 "Transaction not found", st)
      | Some (_id, transaction) =>
          if negb (Transaction.is_pending (Transaction.status transaction))
          then (fail 400 "Transaction already processed", st)
          else
            let reference :=
              if truthy_string reason then default "" reason
              else "Rejected by admin" in
            let transaction' :=
              Transaction.mk (Transaction.userId transaction)
                (Transaction.type transaction)
                (Transaction.amount transaction) Transaction.rejected
                (Some (Transaction.Text reference))
                (Transaction.createdAt transaction) (Some now)
                (Some (id claims)) in
            (json (Message "Withdrawal rejected"),
             set_transactions st (<[_id := transaction']> (transactions st)))
      end
  end.

(** ** PUT /api/admin/game-settings *)

Record SettingsRequest : Type := mkSettings {
  gs_houseFee : option Q;
  gs_maxBet : option Q;
  gs_minBet : option Q;
  gs_payoutMultipliers : option GameSettings.multipliers
}.

(** The assignments of the handler on the loaded document [settings].
    Assigning an object to the nested path [payoutMultipliers] overwrites
    the nested object as a whole (Mongoose merges only on request). *)
Definition assign_settings (req : SettingsRequest) (user : ObjectId) (now : Z)
    (settings : GameSettings.t) : GameSettings.stored :=
  GameSettings.mkstored
    (match gs_houseFee req with
     | Some houseFee => houseFee
     | None => GameSettings.houseFee settings
     end)
    (match gs_maxBet req with
     | Some maxBet => maxBet
     | None => GameSettings.maxBet settings
     end)
    (match gs_minBet req with
     | Some minBet => minBet
     | None => GameSettings.minBet settings
     end)
    (match gs_payoutMultipliers req with
     | Some payoutMultipliers => payoutMultipliers
     | None => GameSettings.payoutMultipliers settings
     end)
    now (Some user).

Definition update_settings (a : Auth) (req : SettingsRequest) (now : Z)
    (st : State) : Response * State :=
  match requireAdmin a with
  | inl r => (r, st)
  | inr claims =>
      let settings :=
        match gamesettings st with
        | Some s => GameSettings.hydrate s
        | None => GameSettings.hydrate (GameSettings.fresh now)
        end in
      let settings' := assign_settings req (id claims) now settings in
      (json (SettingsUpdated "Game settings updated successfully" settings'),
       set_gamesettings st (Some settings'))
  end.

(** ** The service

    The handlers that write accounts, ledger, game history or settings.
    Of the others, login writes [lastLogin] only, the SMS handlers write
    the SMS log only, and the rest read. *)

Inductive Request : Type :=
  | PostSignup (req : SignupRequest) (hashedPassword : string)
  | PostWebhook (req : WebhookRequest)
  | PostWithdrawalRequest (a : Auth) (amount : option Q)
  | PostPlay (a : Auth) (req : PlayRequest) (random0 random1 random2 : Q)
  | GetAdminUsers (a : Auth)
  | PostCreditUser (a : Auth) (req : CreditRequest)
  | PostApproveWithdrawal (a : Auth) (transactionId : option ObjectId)
  | PostRejectWithdrawal (a : Auth) (transactionId : option ObjectId)
                         (reason : option string)
  | PutGameSettings (a : Auth) (req : SettingsRequest).

(** One request served at time [now]. *)
Definition handle (r : Request) (now : Z) (st : State)
  : option (Response * State) :=
  match r with
  | PostSignup req hashed => Some (signup req hashed now st)
  | PostWebhook req => webhook req st
  | PostWithdrawalRequest a amount => Some (request_withdrawal a amount now st)
  | PostPlay a req r0 r1 r2 => Some (play a req r0 r1 r2 now st)
  | GetAdminUsers a => Some (admin_users a st)
  | PostCreditUser a req => Some (credit_user a req now st)
  | PostApproveWithdrawal a t => Some (approve_withdrawal a t now st)
  | PostRejectWithdrawal a t reason => Some (reject_withdrawal a t reason now st)
  | PutGameSettings a req => Some (update_settings a req now st)
  end.

(** ** The SMS client *)

Definition is_digit (c : ascii) : bool :=
  let n := nat_of_ascii c in (Nat.leb 48 n && Nat.leb n 57)%bool.

(** [phone.replace(/\D/g, '')] *)
Fixpoint strip_non_digits (s : string) : string :=
  match s with
  | EmptyString => EmptyString
  | String c r =>
      if is_digit c then String c (strip_non_digits r) else strip_non_digits r
  end.

(** [s.startsWith('+')] *)
Definition startsWith_plus (s : string) : bool :=
  match s with
  | String "+" _ => true
  | _ => false
  end.

(** The number that [sendSMS] hands to the provider. *)
Definition formatPhone (phone : string) : string :=
  let formattedPhone := strip_non_digits phone in
  if startsWith_plus formattedPhone then formattedPhone
  else String "+" formattedPhone.

(** What [axios.post] does with one request: it resolves with the
    [data.data] of the provider, or it throws and [error.response?.data?.error]
    is read. *)
Inductive ProviderReply : Type :=
  | Resolved (message_id : option string) (cost : option Q) (status : option string)
  | Thrown (error : option string).

Record SmsResult : Type := mkSmsResult {
  sms_success : bool;
  sms_messageId : option string;
  sms_cost : option Q;
  sms_status : option string;
  sms_error : option string
}.

(** [payloqaAPI.sendSMS(phone, message)]; [post] is the request to the
    provider, with the recipient number and the message. *)
Definition sendSMS (post : string -> string -> ProviderReply)
    (phone message : string) : SmsResult :=
  match post (formatPhone phone) message with
  | Resolved message_id cost status =>
      mkSmsResult true message_id cost status None
  | Thrown error => mkSmsResult false None None None error
  end.

(** The loop of [sendBulkSMS]; the [n]-th request to the provider is
    [post n]. *)
Fixpoint bulk_results (post : nat -> string -> string -> ProviderReply)
    (n : nat) (phones : list string) (message : string) : list (string * bool) :=
  match phones with
  | [] => []
  | phone :: rest =>
      (phone, sms_success (sendSMS (post n) phone message))
        :: bulk_results post (S n) rest message
  end.

Record BulkResult : Type := mkBulk {
  bulk_total : nat;
  bulk_sent : nat;
  bulk_failed : Z;
  bulk_results_list : list (string * bool)
}.

(** [payloqaAPI.sendBulkSMS(phones, message)] *)
Definition sendBulkSMS (post : nat -> string -> string -> ProviderReply)
    (n : nat) (phones : list string) (message : string) : BulkResult :=
  let results := bulk_results post n phones message in
  let successCount := length (List.filter snd results) in
  mkBulk (length phones) successCount
         (Z.of_nat (length phones) - Z.of_nat successCount) results.

(** ** The [Authorization] header *)

(** [s.split(' ')] *)
Fixpoint split_space (s : string) : list string :=
  match s with
  | EmptyString => [EmptyString]
  | String c r =>
      match split_space r with
      | seg :: segs =>
          if Ascii.eqb c " " then EmptyString :: seg :: segs
          else String c seg :: segs
      | [] => []
      end
  end.

(** [authHeader && authHeader.split(' ')[1]] *)
Definition header_token (authHeader : option string) : option string :=
  match authHeader with
  | None => None
  | Some EmptyString => Some EmptyString
  | Some h => split_space h !! 1%nat
  end.

(** The judgement of [authenticateToken] on a header, [verify] being
    [jwt.verify] with the secret of the server. *)
Definition authenticate (verify : string -> option Claims)
    (authHeader : option string) : Auth :=
  let token := header_token authHeader in
  if negb (truthy_string token) then NoToken
  else
    match verify (default EmptyString token) with
    | Some user => Bearer user
    | None => InvalidToken
    end.

(** ** The bodies of the handlers below

    [Refused r] is the error response [r]; every other reply has
    status 200. *)

Record StatsRecord : Type := mkStats {
  totalUsers : nat;
  totalBalance : Q;
  totalDeposits : Q;
  totalWithdrawals : Q;
  totalBets : Q;
  totalWins : Q;
  pendingWithdrawals : nat;
  houseProfit : Q
}.

Inductive Reply : Type :=
  | Refused (r : Response)
  | LoggedIn (_id : ObjectId) (email phone : string) (balance : Q)
             (isAdmin : bool) (token : Claims)
  | MyWithdrawals (withdrawals : list (ObjectId * Transaction.t))
  | History (history : list (ObjectId * GameHistory.t))
  | Settings (settings : GameSettings.t)
  | SmsSentAll (count : nat) (details : BulkResult)
  | Stats (stats : StatsRecord).

(** ** POST /api/auth/login *)

Definition set_lastLogin (u : User.t) (t : Z) : User.t :=
  User.mk (User.email u) (User.password u) (User.phone u) (User.balance u)
          (User.isAdmin u) (User.createdAt u) (Some t).

(** [bcrypt_compare] is [bcrypt.compare(password, hash)]. *)
Definition login (bcrypt_compare : string -> string -> bool)
    (email password : string) (now : Z) (st : State) : Reply * State :=
  match findOne_email email (users st) with
  | None => (Refused (fail 400 "Invalid credentials"), st)
  | Some (_id, user) =>
      if negb (bcrypt_compare password (User.password user))
      then (Refused (fail 400 "Invalid credentials"), st)
      else
        let user' := set_lastLogin user now in
        (LoggedIn _id (User.email user') (User.phone user') (User.balance user')
           (User.isAdmin user')
           (mkClaims _id (User.email user') (User.isAdmin user')),
         set_users st (<[_id := user']> (users st)))
  end.

(** ** Sorted queries *)

(** [.sort({ createdAt: -1 })], [key] being the [createdAt] of a document. *)
Fixpoint insert_by {A : Type} (key : A -> Z) (d : A) (l : list A) : list A :=
  match l with
  | [] => [d]
  | x :: r => if key x <=? key d then d :: l else x :: insert_by key d r
  end.

Definition sort_desc {A : Type} (key : A -> Z) (l : list A) : list A :=
  foldr (insert_by key) [] l.

(** ** GET /api/withdrawals/my-withdrawals *)

Definition is_withdrawal (t : Transaction.t) : bool :=
  match Transaction.type t with
  | Transaction.withdrawal => true
  | _ => false
  end.

(** [Transaction.find({ userId, type: 'withdrawal' }).sort({ createdAt: -1 })] *)
Definition find_withdrawals_of (userId : ObjectId)
    (m : gmap positive Transaction.t) : list (ObjectId * Transaction.t) :=
  sort_desc (fun p => Transaction.createdAt (snd p))
    (List.filter
       (fun p => Pos.eqb (Transaction.userId (snd p)) userId && is_withdrawal (snd p))
       (map_to_list m)).

Definition my_withdrawals (a : Auth) (st : State) : Reply :=
  match authenticateToken a with
  | inl r => Refused r
  | inr claims => MyWithdrawals (find_withdrawals_of (id claims) (transactions st))
  end.

(** ** GET /api/game/history *)

(** [GameHistory.find({ userId }).sort({ createdAt: -1 }).limit(50)] *)
Definition find_history_of (userId : ObjectId)
    (m : gmap positive GameHistory.t) : list (ObjectId * GameHistory.t) :=
  firstn 50
    (sort_desc (fun p => GameHistory.createdAt (snd p))
       (List.filter (fun p => Pos.eqb (GameHistory.userId (snd p)) userId)
          (map_to_list m))).

Definition game_history (a : Auth) (st : State) : Reply :=
  match authenticateToken a with
  | inl r => Refused r
  | inr claims => History (find_history_of (id claims) (gamehistories st))
  end.

(** ** GET /api/game/settings *)

Definition get_settings (now : Z) (st : State) : Reply * State :=
  let '(settings, st') := load_settings now st in
  (Settings settings, st').

(** ** GET /api/admin/stats *)

(** [{ $match }, { $group: { _id: null, total: { $sum } } }] read as
    [result[0]?.total || 0]: the sum over the matching documents, 0 when
    there is none.  The sum is exact here, where [$sum] adds doubles in the
    order of the collection; the properties below are about the counts. *)
Definition aggregate_sum {A : Type} (matching : A -> bool) (value : A -> Q)
    (m : gmap positive A) : Q :=
  foldr Qplus 0%Q (map value (List.filter matching (map snd (map_to_list m)))).

(** [countDocuments(filter)] *)
Definition countDocuments {A : Type} (matching : A -> bool)
    (m : gmap positive A) : nat :=
  length (List.filter matching (map snd (map_to_list m))).

Definition tx_is (ty : Transaction.type_enum) (s : option Transaction.status_enum)
    (t : Transaction.t) : bool :=
  match Transaction.type t, ty with
  | Transaction.deposit, Transaction.deposit
  | Transaction.withdrawal, Transaction.withdrawal
  | Transaction.bet, Transaction.bet
  | Transaction.win, Transaction.win
  | Transaction.credit, Transaction.credit =>
      match s, Transaction.status t with
      | None, _ => true
      | Some Transaction.pending, Transaction.pending
      | Some Transaction.completed, Transaction.completed
      | Some Transaction.approved, Transaction.approved
      | Some Transaction.rejected, Transaction.rejected => true
      | _, _ => false
      end
  | _, _ => false
  end.

Definition compute_stats (st : State) : StatsRecord :=
  let not_admin := fun u => negb (User.isAdmin u) in
  let totalBets :=
    aggregate_sum (tx_is Transaction.bet None) Transaction.amount (transactions st) in
  let totalWins :=
    aggregate_sum (tx_is Transaction.win None) Transaction.amount (transactions st) in
  mkStats
    (countDocuments not_admin (users st))
    (aggregate_sum not_admin User.balance (users st))
    (aggregate_sum (tx_is Transaction.deposit (Some Transaction.completed))
       Transaction.amount (transactions st))
    (aggregate_sum (tx_is Transaction.withdrawal (Some Transaction.approved))
       Transaction.amount (transactions st))
    totalBets totalWins
    (countDocuments (tx_is Transaction.withdrawal (Some Transaction.pending))
       (transactions st))
    (totalBets - totalWins)%Q.

Definition admin_stats (a : Auth) (st : State) : Reply :=
  match requireAdmin a with
  | inl r => Refused r
  | inr _ => Stats (compute_stats st)
  end.

(** ** POST /api/admin/send-sms-all *)

Inductive SmsLogStatus : Type := sent | failed.

(** [smsLogSchema] *)
Record SMSLog : Type := mkSMSLog {
  log_phones : list string;
  log_message : string;
  log_status : SmsLogStatus;
  log_sentBy : ObjectId;
  log_response : BulkResult;
  log_createdAt : Z
}.

(** [smslogs] is the collection of SMS logs; the [n]-th request to the
    provider is [post n]. *)
Definition send_sms_all (post : nat -> string -> string -> ProviderReply)
    (n : nat) (a : Auth) (message : option string) (now : Z) (st : State)
    (smslogs : gmap positive SMSLog) : Reply * gmap positive SMSLog :=
  match requireAdmin a with
  | inl r => (Refused r, smslogs)
  | inr claims =>
      if negb (truthy_string message)
      then (Refused (fail 400 "Message is required"), smslogs)
      else
        let message := default EmptyString message in
        let found :=
          List.filter (fun u => negb (User.isAdmin u))
                      (map snd (map_to_list (users st))) in
        let phones := map User.phone found in
        if Nat.eqb (length phones) 0
        then (Refused (fail 400 "No users to send SMS to"), smslogs)
        else
          let smsResponse := sendBulkSMS post n phones message in
          (SmsSentAll (length phones) smsResponse,
           create (mkSMSLog phones message sent (id claims) smsResponse now)
                  smslogs)
  end.

(** ** IEEE 754 double arithmetic

    The handlers above read [+], [-] and [*] as exact.  JavaScript
    computes them on IEEE 754 doubles: the exact result, rounded to the
    nearest double, ties to even.  The definitions below round, with the
    rounding of the reference implementation of binary64 in the standard
    library ([SpecFloat], precision 53, largest exponent 1024); the
    handlers that follow are the handlers above with their arithmetic
    rounded.  A number of the model is finite: where a result is infinite
    (overflow) or [NaN], the operation has no result and the handler that
    needs it is outside the model ([None]). *)

(** The double nearest to the rational [x]. *)
Definition binary64 (x : Q) : SpecFloat.spec_float :=
  let q := Qred x in
  match Qnum q with
  | Z0 => SpecFloat.S754_zero false
  | Zpos n =>
      let '(m, e, l) :=
        SpecFloat.SFdiv_core_binary 53 1024 (Zpos n) 0 (Zpos (Qden q)) 0 in
      SpecFloat.binary_round_aux 53 1024 false m e l
  | Zneg n =>
      let '(m, e, l) :=
        SpecFloat.SFdiv_core_binary 53 1024 (Zpos n) 0 (Zpos (Qden q)) 0 in
      SpecFloat.binary_round_aux 53 1024 true m e l
  end.

(** The rational that a finite double is, in lowest terms. *)
Definition value64 (f : SpecFloat.spec_float) : option Q :=
  match f with
  | SpecFloat.S754_zero _ => Some 0%Q
  | SpecFloat.S754_finite s m e =>
      let n := if s then Zneg m else Zpos m in
      Some (if 0 <=? e then inject_Z (n * 2 ^ e)
            else Qred (Qmake n (Z.to_pos (2 ^ (- e)))))
  | _ => None
  end.

Definition round64 (x : Q) : option Q := value64 (binary64 x).

(** [x + y], [x - y] and [x * y] on doubles. *)
Definition add64 (x y : Q) : option Q := round64 (x + y).
Definition sub64 (x y : Q) : option Q := round64 (x - y).
Definition mul64 (x y : Q) : option Q := round64 (x * y).

(** [parseFloat(v)]: the double nearest to the decimal literal, an
    infinity when the literal is out of range. *)
Definition parseFloat64 (v : option numstr) : jsnumber :=
  match parseFloat v with
  | Num q =>
      match binary64 q with
      | SpecFloat.S754_infinity s => Infinity s
      | SpecFloat.S754_nan => NaN
      | f => match value64 f with Some d => Num d | None => NaN end
      end
  | other => other
  end.

(** The double that the decimal literal [s] denotes, 0 when it denotes
    none. *)
Definition literal (s : string) : Q :=
  match parseFloat64 (Some (StrV s)) with
  | Num d => d
  | _ => 0%Q
  end.

(** ** POST /api/game/play, in double arithmetic *)

Definition winAmount64 (bet : Q) (settings : GameSettings.t) (matches : nat)
  : option Q :=
  if Nat.eqb matches 3 then mul64 bet (GameSettings.threeMatchesMultiplier settings)
  else if Nat.eqb matches 2 then mul64 bet (GameSettings.twoMatchesMultiplier settings)
  else if Nat.eqb matches 1 then mul64 bet (GameSettings.oneMatchMultiplier settings)
  else Some 0%Q.

Definition settle_wager64 (claims : Claims) (user : User.t) (bet : Q)
    (guesses : list Q) (settings : GameSettings.t) (random0 random1 random2 : Q)
    (now : Z) (st1 : State) : option (Response * State) :=
  match mul64 random0 10, mul64 random1 10, mul64 random2 10 with
  | Some x0, Some x1, Some x2 =>
      let winningNumbers := [ Math_floor x0; Math_floor x1; Math_floor x2 ] in
      let matches := forEach_matches guesses winningNumbers 0 0 in
      match winAmount64 bet settings matches with
      | Some winAmount =>
          match sub64 winAmount bet with
          | Some profit =>
              let balanceBefore := User.balance user in
              match add64 (User.balance user) profit with
              | Some balance =>
                  let user' := User.set_balance user balance in
                  let st2 :=
                    set_users st1 (<[id claims := user']> (users st1)) in
                  let gameHistory :=
                    GameHistory.mk (id claims) bet guesses winningNumbers matches
                      profit balanceBefore (User.balance user') now in
                  let st3 :=
                    set_gamehistories st2
                      (create gameHistory (gamehistories st2)) in
                  let st4 :=
                    set_transactions st3
                      (create (Transaction.mk (id claims) Transaction.bet bet
                                 Transaction.completed None now (Some now) None)
                              (transactions st3)) in
                  let st5 :=
                    if Qltb 0 winAmount then
                      set_transactions st4
                        (create (Transaction.mk (id claims) Transaction.win
                                   winAmount Transaction.completed None now
                                   (Some now) None)
                                (transactions st4))
                    else st4 in
                  Some (json (Played winningNumbers matches profit
                                (User.balance user')
                                (if Nat.ltb 0 matches then "You won!"
                                 else "Better luck next time!")),
                        st5)
              | None => None
              end
          | None => None
          end
      | None => None
      end
  | _, _, _ => None
  end.

Definition play64 (a : Auth) (req : PlayRequest) (random0 random1 random2 : Q)
    (now : Z) (st : State) : option (Response * State) :=
  match authenticateToken a with
  | inl r => Some (r, st)
  | inr claims =>
      let user := users st !! id claims in
      match pl_bet req, pl_guesses req with
      | Some bet, Some guesses =>
          if negb (truthy_number (Some bet)) || Qle_bool bet 0
             || negb (Nat.eqb (length guesses) 3)
          then Some (fail 400 "Invalid game parameters", st)
          else
            let '(settings, st1) := load_settings now st in
            if Qltb bet (GameSettings.minBet settings)
               || Qltb (GameSettings.maxBet settings) bet
            then Some (mkResponse 400
                         (FailureBetRange (GameSettings.minBet settings)
                                          (GameSettings.maxBet settings)), st1)
            else
              match user with
              | None => Some (fail 500 "Game error occurred", st1)
              | Some user =>
                  if Qltb (User.balance user) bet
                  then Some (fail 400 "Insufficient balance", st1)
                  else settle_wager64 claims user bet guesses settings
                         random0 random1 random2 now st1
              end
      | _, _ => Some (fail 400 "Invalid game parameters", st)
      end
  end.

(** ** POST /api/payments/webhook, in double arithmetic *)

Definition webhook64 (req : WebhookRequest) (st : State)
  : option (Response * State) :=
  if bool_decide (wh_status req = Some "completed") then
    match wh_metadata req with
    | None => Some (fail 500 "Callback processing failed", st)
    | Some user_id =>
        match findById user_id (users st) with
        | None => Some (fail 404 "User not found", st)
        | Some (_id, user) =>
            match parseFloat64 (wh_amount req) with
            | Num numAmount =>
                match add64 (User.balance user) numAmount with
                | Some balance =>
                    Some (json (Message "Payment processed"),
                          set_users st
                            (<[_id := User.set_balance user balance]> (users st)))
                | None => None
                end
            | _ => None
            end
        end
    end
  else if bool_decide (wh_status req = Some "failed") then
    Some (json (Message "Payment failed"), st)
  else
    Some (json (Message "Payment processing"), st).

(** ** POST /api/admin/credit-user, in double arithmetic *)

Definition credit_user64 (a : Auth) (req : CreditRequest) (now : Z) (st : State)
  : option (Response * State) :=
  match requireAdmin a with
  | inl r => Some (r, st)
  | inr claims =>
      match cr_userId req, cr_amount req with
      | Some userId, Some amount =>
          if negb (truthy_number (Some amount)) || Qle_bool amount 0
          then Some (fail 400 "Invalid parameters", st)
          else
            match users st !! userId with
            | None => Some (fail 404 "User not found", st)
            | Some user =>
                match add64 (User.balance user) amount with
                | Some balance =>
                    let user' := User.set_balance user balance in
                    let st1 := set_users st (<[userId := user']> (users st)) in
                    let reference :=
                      if truthy_string (cr_reason req)
                      then default "" (cr_reason req) else "Admin credit" in
                    let st2 :=
                      set_transactions st1
                        (create (Transaction.mk userId Transaction.credit amount
                                   Transaction.completed
                                   (Some (Transaction.Text reference)) now
                                   (Some now) (Some (id claims)))
                                (transactions st1)) in
                    Some (json (Credited "User credited successfully"
                                  (User.balance user')), st2)
                | None => None
                end
            end
      | _, _ => Some (fail 400 "Invalid parameters", st)
      end
  end.

(** ** POST /api/admin/approve-withdrawal, in double arithmetic *)

Definition approve_withdrawal64 (a : Auth) (transactionId : option ObjectId)
    (now : Z) (st : State) : option (Response * State) :=
  match requireAdmin a with
  | inl r => Some (r, st)
  | inr claims =>
      match findById transactionId (transactions st) with
      | None => Some (fail 404 "Transaction not found", st)
      | Some (_id, transaction) =>
          if negb (Transaction.is_pending (Transaction.status transaction))
          then Some (fail 400 "Transaction already processed", st)
          else
            match users st !! Transaction.userId transaction with
            | None => Some (fail 500 "Failed to approve withdrawal", st)
            | Some user =>
                if Qltb (User.balance user) (Transaction.amount transaction)
                then Some (fail 400 "User has insufficient balance", st)
                else
                  match sub64 (User.balance user)
                              (Transaction.amount transaction) with
                  | Some balance =>
                      let user' := User.set_balance user balance in
                      let st1 :=
                        set_users st
                          (<[Transaction.userId transaction := user']> (users st)) in
                      let transaction' :=
                        Transaction.mk (Transaction.userId transaction)
                          (Transaction.type transaction)
                          (Transaction.amount transaction) Transaction.approved
                          (Transaction.reference transaction)
                          (Transaction.createdAt transaction) (Some now)
                          (Some (id claims)) in
                      Some (json (Message "Withdrawal approved successfully"),
                            set_transactions st1
                              (<[_id := transaction']> (transactions st1)))
                  | None => None
                  end
            end
      end
  end.

(** ** The service in double arithmetic *)

(** One request served at time [now], as [handle], with the handlers in
    double arithmetic where an amount is computed. *)
Definition handle64 (r : Request) (now : Z) (st : State)
  : option (Response * State) :=
  match r with
  | PostSignup req hashed => Some (signup req hashed now st)
  | PostWebhook req => webhook64 req st
  | PostWithdrawalRequest a amount => Some (request_withdrawal a amount now st)
  | PostPlay a req r0 r1 r2 => play64 a req r0 r1 r2 now st
  | GetAdminUsers a => Some (admin_users a st)
  | PostCreditUser a req => credit_user64 a req now st
  | PostApproveWithdrawal a t => approve_withdrawal64 a t now st
  | PostRejectWithdrawal a t reason => Some (reject_withdrawal a t reason now st)
  | PutGameSettings a req => Some (update_settings a req now st)
  end.

(** The requests that write to the accounts, the ledger, the game records
    or the game settings: those of [handle64], the login, which stamps
    [lastLogin], and the reading of the game settings, which stores the
    defaults when there is no document.  The remaining routes read, or
    write the SMS log only. *)
Inductive AnyRequest : Type :=
  | PostLogin (bcrypt_compare : string -> string -> bool) (email password : string)
  | GetGameSettings
  | Handled (r : Request).

(** The database after the request. *)
Definition serve (r : AnyRequest) (now : Z) (st : State) : option State :=
  match r with
  | PostLogin bcrypt_compare email password =>
      Some (snd (login bcrypt_compare email password now st))
  | GetGameSettings => Some (snd (get_settings now st))
  | Handled r => snd <$> handle64 r now st
  end.

(** * Properties *)

(** A response of the form [{ success: false, error }] with an error
    status. *)
Definition is_error (r : Response) : Prop :=
  (400 <= status r)%nat /\
  match body r with
  | Failure _ | FailureBetRange _ _ => True
  | _ => False
  end.

(** The multiplier table of the wager: [multiplier[0] = 0], the others are
    the configured ones. *)
Definition multiplier (settings : GameSettings.t) (matchCount : nat) : Q :=
  match matchCount with
  | 1%nat => GameSettings.oneMatchMultiplier settings
  | 2%nat => GameSettings.twoMatchesMultiplier settings
  | 3%nat => GameSettings.threeMatchesMultiplier settings
  | _ => 0%Q
  end.


(** The moves of the status of a ledger entry that the withdrawal workflow
    allows: none, or from pending to approved or to rejected. *)
Definition status_step (s s' : Transaction.status_enum) : Prop :=
  s' = s \/
  (s = Transaction.pending /\
   (s' = Transaction.approved \/ s' = Transaction.rejected)).

(** The response to an approve or reject of a transaction that was
    processed before. *)
Definition conflict : Response := fail 400 "Transaction already processed".

(** ** Example data *)

Definition alice : User.t :=
  User.mk "alice@example.com" "$2a$10$N9qo8uLOickgx2ZMRZoMye" "0244000000"
    50%Q false 0 None.

Definition root : User.t :=
  User.mk "admin@example.com" "$2a$10$7EqJtq98hPqEX7fNZaFWoO" "0200000000"
    0%Q true 0 None.

Definition alice_token : Auth := Bearer (mkClaims 1 "alice@example.com" false).
Definition root_token : Auth := Bearer (mkClaims 2 "admin@example.com" true).

(** Two accounts, no transaction, no settings document yet. *)
Definition example_db : State :=
  mkState (<[2%positive := root]> {[1%positive := alice]}) ∅ ∅ None.

(** A pending withdrawal of 20 by the first account at time 3. *)
Definition pending_withdrawal : Transaction.t :=
  Transaction.mk 1 Transaction.withdrawal 20%Q Transaction.pending
    (Some (Transaction.WTH 3 1)) 3 None None.

Definition withdrawal_db : State :=
  mkState (users example_db) {[5%positive := pending_withdrawal]} ∅ None.

(** A pending withdrawal of 80, more than the balance of 50. *)
Definition overdrawn_db : State :=
  mkState (users example_db)
    {[5%positive :=
        Transaction.mk 1 Transaction.withdrawal 80%Q Transaction.pending
          (Some (Transaction.WTH 3 1)) 3 None None]} ∅ None.

(** Settings whose multiplier for two matches was raised to 20. *)
Definition tuned_settings : GameSettings.stored :=
  GameSettings.mkstored 10%Q 1000%Q 1%Q
    (GameSettings.mkmult (Some 100%Q) (Some 20%Q) (Some 2%Q)) 0 None.

Definition tuned_db : State :=
  mkState (users example_db) ∅ ∅ (Some tuned_settings).

(** The body [{ payoutMultipliers: { oneMatch: 5 } }]. *)
Definition only_oneMatch : SettingsRequest :=
  mkSettings None None None (Some (GameSettings.mkmult None None (Some 5%Q))).

(** Strings of decimal digits, and strings without a space. *)
Fixpoint all_digits (s : string) : bool :=
  match s with
  | EmptyString => true
  | String c r => is_digit c && all_digits r
  end.

Fixpoint no_space (s : string) : bool :=
  match s with
  | EmptyString => true
  | String c r => negb (Ascii.eqb c " ") && no_space r
  end.

(** A provider that accepts the numbers of the first network and refuses
    the others. *)
Definition example_post (n : nat) (number message : string) : ProviderReply :=
  if String.prefix "+23324" number
  then Resolved (Some "msg") (Some (3 # 100)) (Some "queued")
  else Thrown (Some "INVALID_PHONE_NUMBER").

(** A verifier that knows one token. *)
Definition example_verify (token : string) : option Claims :=
  if String.eqb token "eyJhbGciOi.alice" then Some (mkClaims 1 "alice@example.com" false)
  else None.

(** A second pending withdrawal of the first account, of 40. *)
Definition second_withdrawal : Transaction.t :=
  Transaction.mk 1 Transaction.withdrawal 40%Q Transaction.pending
    (Some (Transaction.WTH 4 1)) 4 None None.

Definition two_withdrawals_db : State :=
  mkState (users example_db)
    (<[6%positive := second_withdrawal]> {[5%positive := pending_withdrawal]})
    ∅ None.



(** The kinds of ledger entries that the handlers write. *)
Definition written_entry (t : Transaction.t) : Prop :=
  (Transaction.type t = Transaction.withdrawal /\
   Transaction.status t = Transaction.pending) \/
  (Transaction.status t = Transaction.completed /\
   (Transaction.type t = Transaction.bet \/
    Transaction.type t = Transaction.win \/
    Transaction.type t = Transaction.credit)).

(** [x] is the value of a double. *)
Definition double (x : Q) : Prop := exists d, round64 d = Some d /\ (d == x)%Q.

(** ** Example data in cents *)

Definition bob : User.t :=
  User.mk "bob@example.com" "$2a$10$Xl0yhvzLIaJCDdKBS0Lld." "0244111111"
    (literal "0.8") false 0 None.

Definition carol : User.t :=
  User.mk "carol@example.com" "$2a$10$CwTycUXWue0Thq9StjUM0u" "0244222222"
    (literal "0.7") false 0 None.

(** Two pending withdrawals of the first account, of 0.1 and of
    0.7000000000000001. *)
Definition dime : Transaction.t :=
  Transaction.mk 1 Transaction.withdrawal (literal "0.1") Transaction.pending
    (Some (Transaction.WTH 3 1)) 3 None None.

Definition rest : Transaction.t :=
  Transaction.mk 1 Transaction.withdrawal (literal "0.7000000000000001")
    Transaction.pending (Some (Transaction.WTH 4 1)) 4 None None.

Definition cents_db : State :=
  mkState (<[3%positive := carol]> (<[2%positive := root]> {[1%positive := bob]}))
    (<[6%positive := rest]> {[5%positive := dime]}) ∅ None.

(** The first account of [example_db] with a balance of 50.1. *)
Definition change_db : State :=
  set_users example_db
    (<[1%positive := User.set_balance alice (literal "50.1")]> (users example_db)).

(** The comparison of passwords that accepts the hash of the first
    account. *)
Definition example_compare (password hash : string) : bool :=
  String.eqb hash "$2a$10$N9qo8uLOickgx2ZMRZoMye".

(** Splits [Some (h st) = Some (resp, st')] into the two components. *)
Ltac handled H :=
  injection H as H;
  let Hr := fresh "Hr" in
  let Hs := fresh "Hs" in
  pose proof (f_equal fst H) as Hr; pose proof (f_equal snd H) as Hs;
  simpl in Hr, Hs; clear H; subst.

(** ** Numbers and identifiers *)

Lemma Qltb_lt (x y : Q) : Qltb x y = true <-> (x < y)%Q.
Proof.
  unfold Qltb. rewrite negb_true_iff, <- not_true_iff_false, Qle_bool_iff.
  split; [apply Qnot_le_lt | apply Qlt_not_le].
Qed.

Lemma Qltb_ge (x y : Q) : Qltb x y = false <-> (y <= x)%Q.
Proof.
  unfold Qltb. rewrite negb_false_iff. apply Qle_bool_iff.
Qed.

Lemma new_id_fresh {A : Type} (m : gmap positive A) : m !! new_id m = None.
Proof.
  apply not_elem_of_dom. unfold new_id. apply is_fresh.
Qed.

Lemma lookup_create_old {A : Type} (d : A) (m : gmap positive A) (j : positive) (x : A) :
  m !! j = Some x -> create d m !! j = Some x.
Proof.
  intros H. unfold create. rewrite lookup_insert_ne; [exact H |].
  intros E. rewrite <- E, new_id_fresh in H. discriminate.
Qed.

(** ** Double arithmetic *)

(** Rounding sees the value of a rational, not its representation. *)
Lemma round64_Qeq (x y : Q) : (x == y)%Q -> round64 x = round64 y.
Proof.
  intros H. unfold round64, binary64. rewrite (Qred_complete x y H). reflexivity.
Qed.

Lemma mul64_zero (x : Q) : mul64 x 0 = Some 0%Q.
Proof.
  unfold mul64. rewrite (round64_Qeq (x * 0) 0) by ring. reflexivity.
Qed.

(** An operation whose exact result is a double is exact. *)
Lemma round64_double (x y : Q) : double x -> round64 x = Some y -> (y == x)%Q.
Proof.
  intros (d & Hd & Heq) Hx. rewrite <- (round64_Qeq _ _ Heq), Hd in Hx.
  injection Hx as <-. exact Heq.
Qed.

(** Rounding keeps the sign. *)
Lemma value64_sign (sx : bool) (m e : Z) (l : SpecFloat.location) (y : Q) :
  value64 (SpecFloat.binary_round_aux 53 1024 sx m e l) = Some y ->
  if sx then (y <= 0)%Q else (0 <= y)%Q.
Proof.
  unfold SpecFloat.binary_round_aux.
  destruct (SpecFloat.shr_fexp 53 1024 m e l) as [mrs' e'].
  destruct (SpecFloat.shr_fexp 53 1024 _ e' SpecFloat.loc_Exact) as [mrs'' e''].
  destruct (SpecFloat.shr_m mrs'') as [|p|p]; simpl.
  - intros [= <-]. destruct sx; apply Qle_refl.
  - destruct (e'' <=? 1024 - 53); simpl; [|discriminate].
    intros [= <-].
    destruct (0 <=? e'') eqn:He.
    + apply Z.leb_le in He.
      pose proof (Z.pow_nonneg 2 e'' ltac:(lia)) as Hp.
      destruct sx; unfold Qle, inject_Z; simpl; nia.
    + destruct sx; rewrite Qred_correct; unfold Qle; simpl; lia.
  - discriminate.
Qed.

Lemma round64_nonneg (x y : Q) : (0 <= x)%Q -> round64 x = Some y -> (0 <= y)%Q.
Proof.
  intros Hx. unfold round64, binary64.
  assert (Hn : 0 <= Qnum (Qred x)).
  { pose proof (Qred_correct x) as Hr. rewrite <- Hr in Hx.
    unfold Qle in Hx. simpl in Hx. lia. }
  destruct (Qnum (Qred x)) as [|n|n]; [| |lia].
  - intros [= <-]. apply Qle_refl.
  - destruct (SpecFloat.SFdiv_core_binary _ _ _ _ _ _) as [[m e] l].
    apply (value64_sign false).
Qed.

(** A difference of a number and a smaller one is not negative. *)
Lemma sub64_nonneg (x y d : Q) : (y <= x)%Q -> sub64 x y = Some d -> (0 <= d)%Q.
Proof.
  intros Hle. apply round64_nonneg. lra.
Qed.

(** Rounding commutes with the change of sign. *)
Lemma value64_opp (m e : Z) (l : SpecFloat.location) :
  value64 (SpecFloat.binary_round_aux 53 1024 true m e l)
  = Qopp <$> value64 (SpecFloat.binary_round_aux 53 1024 false m e l).
Proof.
  unfold SpecFloat.binary_round_aux.
  destruct (SpecFloat.shr_fexp 53 1024 m e l) as [mrs' e'].
  destruct (SpecFloat.shr_fexp 53 1024 _ e' SpecFloat.loc_Exact) as [mrs'' e''].
  destruct (SpecFloat.shr_m mrs'') as [|p|p]; simpl; try reflexivity.
  destruct (e'' <=? 1024 - 53); simpl; [|reflexivity].
  f_equal. destruct (0 <=? e'').
  - unfold Qopp, inject_Z. simpl. f_equal. lia.
  - change (Z.neg p # Z.to_pos (2 ^ (- e'')))
      with (- (Z.pos p # Z.to_pos (2 ^ (- e''))))%Q.
    apply Qred_opp.
Qed.

Lemma round64_opp (x : Q) : round64 (- x) = Qopp <$> round64 x.
Proof.
  unfold round64, binary64. rewrite Qred_opp.
  destruct (Qred x) as [n d]. simpl.
  destruct n as [|n|n]; simpl.
  - reflexivity.
  - destruct (SpecFloat.SFdiv_core_binary _ _ _ _ _ _) as [[m e] l].
    apply value64_opp.
  - destruct (SpecFloat.SFdiv_core_binary _ _ _ _ _ _) as [[m e] l].
    rewrite value64_opp.
    destruct (value64 _) as [v|]; simpl; [|reflexivity].
    f_equal. destruct v as [a b]. unfold Qopp. simpl. f_equal. lia.
Qed.

(** The rounding at work: 0.1 is not a double, and the double next to it
    is a little above; halfway between two doubles the one with the even
    significand is taken; beyond the largest double there is no result;
    below the smallest one the result is zero. *)
Example round64_examples :
  round64 (1 # 10) = Some (3602879701896397 # 36028797018963968) /\
  round64 (inject_Z (2 ^ 53 + 1)) = Some (inject_Z (2 ^ 53)) /\
  round64 (inject_Z (2 ^ 53 + 3)) = Some (inject_Z (2 ^ 53 + 4)) /\
  round64 (inject_Z ((2 ^ 53 - 1) * 2 ^ 971))
  = Some (inject_Z ((2 ^ 53 - 1) * 2 ^ 971)) /\
  round64 (inject_Z (2 ^ 1024)) = None /\
  round64 (1 # 2 ^ 1074) = Some (1 # 2 ^ 1074) /\
  round64 (1 # 2 ^ 1075) = Some 0%Q /\
  round64 (3 # 2 ^ 1075) = Some (1 # 2 ^ 1073).
Proof. repeat split; vm_compute; reflexivity. Qed.

(** The literals of the examples below. *)
Example parseFloat64_examples :
  parseFloat64 (Some (StrV "25.50")) = Num (51 # 2) /\
  parseFloat64 (Some (StrV "0.1")) = Num (3602879701896397 # 36028797018963968) /\
  parseFloat64 (Some (StrV "1e400")) = Infinity false /\
  parseFloat64 (Some (StrV "-1e400")) = Infinity true /\
  parseFloat64 (Some (StrV "1e-400")) = Num 0 /\
  parseFloat64 (Some (StrV "abc")) = NaN /\
  parseFloat64 (Some (NumV (1 # 4))) = Num (1 # 4).
Proof. repeat split; vm_compute; reflexivity. Qed.

(** ** The wager *)


Lemma forEach_matches_bound (guesses : list Q) (ws : list Z) (i m : nat) :
  (forEach_matches guesses ws i m <= m + length guesses)%nat.
Proof.
  revert i m. induction guesses as [|g rest IH]; intros i m; simpl; [lia |].
  destruct (ws !! i) as [w|]; [destruct (parseInt g =? w) |];
    (etransitivity; [apply IH | lia]).
Qed.

(** A request that [play] answers with status 200 went through every check
    and was settled. *)
Lemma play_settled a req r0 r1 r2 now st resp st' :
  play a req r0 r1 r2 now st = (resp, st') -> status resp = 200%nat ->
  exists claims user bet guesses,
    a = Bearer claims /\ users st !! id claims = Some user /\
    pl_bet req = Some bet /\ pl_guesses req = Some guesses /\
    length guesses = 3%nat /\
    (0 < bet)%Q /\
    (GameSettings.minBet (fst (load_settings now st)) <= bet)%Q /\
    (bet <= GameSettings.maxBet (fst (load_settings now st)))%Q /\
    (bet <= User.balance user)%Q /\
    settle_wager claims user bet guesses (fst (load_settings now st))
      r0 r1 r2 now (snd (load_settings now st)) = (resp, st').
Proof.
  unfold play. intros H Hs.
  destruct a as [| |claims]; simpl in H;
    try (injection H as <- <-; discriminate Hs).
  destruct (pl_bet req) as [bet|]; [|injection H as <- <-; discriminate Hs].
  destruct (pl_guesses req) as [guesses|]; [|injection H as <- <-; discriminate Hs].
  destruct (_ || _ || _) eqn:Hv in H; [injection H as <- <-; discriminate Hs|].
  apply orb_false_elim in Hv as [Hv Hlen]. apply orb_false_elim in Hv as [_ Hpos].
  destruct (load_settings now st) as [settings st1] eqn:Hl. simpl.
  destruct (_ || _) eqn:Hr in H; [injection H as <- <-; discriminate Hs|].
  apply orb_false_elim in Hr as [Hmin Hmax].
  destruct (users st !! id claims) as [user|] eqn:Hu;
    [|injection H as <- <-; discriminate Hs].
  destruct (Qltb (User.balance user) bet) eqn:Hb;
    [injection H as <- <-; discriminate Hs|].
  exists claims, user, bet, guesses.
  repeat split; try assumption.
  - apply negb_false_iff, Nat.eqb_eq in Hlen. exact Hlen.
  - apply Qnot_le_lt. intros Hle. apply Qle_bool_iff in Hle. congruence.
  - apply Qltb_ge. exact Hmin.
  - apply Qltb_ge. exact Hmax.
  - apply Qltb_ge. exact Hb.
Qed.

Lemma load_settings_users now st : users (snd (load_settings now st)) = users st.
Proof. unfold load_settings. destruct (gamesettings st); reflexivity. Qed.

Lemma load_settings_transactions now st :
  transactions (snd (load_settings now st)) = transactions st.
Proof. unfold load_settings. destruct (gamesettings st); reflexivity. Qed.



(** Whatever the request, [play] either answers with an error and leaves
    accounts and ledger as they were, or answers with status 200. *)
Lemma play_error_or_settled a req r0 r1 r2 now st :
  (is_error (fst (play a req r0 r1 r2 now st)) /\
   users (snd (play a req r0 r1 r2 now st)) = users st /\
   transactions (snd (play a req r0 r1 r2 now st)) = transactions st) \/
  status (fst (play a req r0 r1 r2 now st)) = 200%nat.
Proof.
  unfold play.
  destruct a as [| |claims]; simpl;
    try (left; repeat split; simpl; lia).
  destruct (pl_bet req) as [bet|]; [|left; repeat split; simpl; lia].
  destruct (pl_guesses req) as [guesses|]; [|left; repeat split; simpl; lia].
  destruct (_ || _ || _); [left; repeat split; simpl; lia|].
  pose proof (load_settings_users now st) as Hu.
  pose proof (load_settings_transactions now st) as Ht.
  destruct (load_settings now st) as [settings st1]. simpl in Hu, Ht.
  destruct (_ || _); [left; repeat split; simpl; (lia || assumption)|].
  destruct (users st !! id claims) as [user|];
    [|left; repeat split; simpl; (lia || assumption)].
  destruct (Qltb (User.balance user) bet);
    [left; repeat split; simpl; (lia || assumption)|].
  right. reflexivity.
Qed.

(** *** The wager in double arithmetic *)

(** The wager in double arithmetic refuses what the wager in exact
    arithmetic refuses, with the same answer and the same database: every
    refusal is decided by comparisons, before any amount is computed.  A
    wager that is not refused is settled. *)
Lemma play64_cases a req r0 r1 r2 now st :
  (status (fst (play a req r0 r1 r2 now st)) <> 200%nat /\
   play64 a req r0 r1 r2 now st = Some (play a req r0 r1 r2 now st)) \/
  (exists claims user bet guesses,
     a = Bearer claims /\ users st !! id claims = Some user /\
     pl_bet req = Some bet /\ pl_guesses req = Some guesses /\
     play64 a req r0 r1 r2 now st
     = settle_wager64 claims user bet guesses (fst (load_settings now st))
         r0 r1 r2 now (snd (load_settings now st))).
Proof.
  unfold play64, play.
  destruct a as [| |claims]; simpl; try (left; split; [discriminate | reflexivity]).
  destruct (pl_bet req) as [bet|]; [|left; split; [discriminate | reflexivity]].
  destruct (pl_guesses req) as [guesses|];
    [|left; split; [discriminate | reflexivity]].
  destruct (_ || _ || _); [left; split; [discriminate | reflexivity]|].
  destruct (load_settings now st) as [settings st1]. simpl.
  destruct (_ || _); [left; split; [discriminate | reflexivity]|].
  destruct (users st !! id claims) as [user|] eqn:Hu;
    [|left; split; [discriminate | reflexivity]].
  destruct (Qltb (User.balance user) bet);
    [left; split; [discriminate | reflexivity]|].
  right. exists claims, user, bet, guesses.
  repeat (split; [first [reflexivity | assumption]|]). reflexivity.
Qed.

(** A request that [play64] answers with status 200 went through every
    check and was settled. *)
Lemma play64_settled a req r0 r1 r2 now st resp st' :
  play64 a req r0 r1 r2 now st = Some (resp, st') -> status resp = 200%nat ->
  exists claims user bet guesses,
    a = Bearer claims /\ users st !! id claims = Some user /\
    pl_bet req = Some bet /\ pl_guesses req = Some guesses /\
    length guesses = 3%nat /\
    (0 < bet)%Q /\
    (GameSettings.minBet (fst (load_settings now st)) <= bet)%Q /\
    (bet <= GameSettings.maxBet (fst (load_settings now st)))%Q /\
    (bet <= User.balance user)%Q /\
    settle_wager64 claims user bet guesses (fst (load_settings now st))
      r0 r1 r2 now (snd (load_settings now st)) = Some (resp, st').
Proof.
  unfold play64. intros H Hs.
  destruct a as [| |claims]; simpl in H;
    try (injection H as <- <-; discriminate Hs).
  destruct (pl_bet req) as [bet|]; [|injection H as <- <-; discriminate Hs].
  destruct (pl_guesses req) as [guesses|]; [|injection H as <- <-; discriminate Hs].
  destruct (_ || _ || _) eqn:Hv in H; [injection H as <- <-; discriminate Hs|].
  apply orb_false_elim in Hv as [Hv Hlen]. apply orb_false_elim in Hv as [_ Hpos].
  destruct (load_settings now st) as [settings st1] eqn:Hl. simpl.
  destruct (_ || _) eqn:Hr in H; [injection H as <- <-; discriminate Hs|].
  apply orb_false_elim in Hr as [Hmin Hmax].
  destruct (users st !! id claims) as [user|] eqn:Hu;
    [|injection H as <- <-; discriminate Hs].
  destruct (Qltb (User.balance user) bet) eqn:Hb;
    [injection H as <- <-; discriminate Hs|].
  exists claims, user, bet, guesses.
  repeat split; try assumption.
  - apply negb_false_iff, Nat.eqb_eq in Hlen. exact Hlen.
  - apply Qnot_le_lt. intros Hle. apply Qle_bool_iff in Hle. congruence.
  - apply Qltb_ge. exact Hmin.
  - apply Qltb_ge. exact Hmax.
  - apply Qltb_ge. exact Hb.
Qed.

(** The answer of a settlement is the payload of a played wager. *)
Lemma settle_wager64_played claims user bet guesses settings r0 r1 r2 now st1 resp st' :
  settle_wager64 claims user bet guesses settings r0 r1 r2 now st1 = Some (resp, st') ->
  exists ws matches profit newBalance message,
    resp = json (Played ws matches profit newBalance message).
Proof.
  unfold settle_wager64. intros H.
  destruct (mul64 r0 10) as [x0|]; [|discriminate].
  destruct (mul64 r1 10) as [x1|]; [|discriminate].
  destruct (mul64 r2 10) as [x2|]; [|discriminate].
  destruct (winAmount64 _ _ _) as [winAmount|]; [|discriminate].
  destruct (sub64 winAmount bet) as [p|]; [|discriminate].
  destruct (add64 (User.balance user) p) as [b|]; [|discriminate].
  injection H as <- _. eauto 6.
Qed.

(** What a settlement computes and stores. *)
Lemma settle_wager64_inv claims user bet guesses settings r0 r1 r2 now st1
    ws matches profit newBalance message st' :
  settle_wager64 claims user bet guesses settings r0 r1 r2 now st1
  = Some (json (Played ws matches profit newBalance message), st') ->
  exists x0 x1 x2 winAmount,
    mul64 r0 10 = Some x0 /\ mul64 r1 10 = Some x1 /\ mul64 r2 10 = Some x2 /\
    ws = [Math_floor x0; Math_floor x1; Math_floor x2] /\
    matches = forEach_matches guesses ws 0 0 /\
    winAmount64 bet settings matches = Some winAmount /\
    sub64 winAmount bet = Some profit /\
    add64 (User.balance user) profit = Some newBalance /\
    message = (if Nat.ltb 0 matches then "You won!" else "Better luck next time!") /\
    let st2 :=
      set_users st1 (<[id claims := User.set_balance user newBalance]> (users st1)) in
    let st3 :=
      set_gamehistories st2
        (create (GameHistory.mk (id claims) bet guesses ws matches profit
                   (User.balance user) newBalance now) (gamehistories st2)) in
    let st4 :=
      set_transactions st3
        (create (Transaction.mk (id claims) Transaction.bet bet
                   Transaction.completed None now (Some now) None)
                (transactions st3)) in
    st' = if Qltb 0 winAmount then
            set_transactions st4
              (create (Transaction.mk (id claims) Transaction.win winAmount
                         Transaction.completed None now (Some now) None)
                      (transactions st4))
          else st4.
Proof.
  unfold settle_wager64. intros H.
  destruct (mul64 r0 10) as [x0|]; [|discriminate].
  destruct (mul64 r1 10) as [x1|]; [|discriminate].
  destruct (mul64 r2 10) as [x2|]; [|discriminate].
  destruct (winAmount64 _ _ _) as [winAmount|] eqn:Hw; [|discriminate].
  destruct (sub64 winAmount bet) as [p|] eqn:Hp; [|discriminate].
  destruct (add64 (User.balance user) p) as [b|] eqn:Hb; [|discriminate].
  injection H as Hws Hm Hpr Hnb Hmsg Hst. simpl in Hnb.
  subst ws. subst matches. subst p. subst b.
  exists x0, x1, x2, winAmount.
  repeat split; try reflexivity; try assumption.
  - symmetry. exact Hmsg.
  - symmetry. exact Hst.
Qed.

Lemma winAmount64_multiplier bet settings matches :
  (matches <= 3)%nat ->
  winAmount64 bet settings matches = mul64 bet (multiplier settings matches).
Proof.
  intros H. unfold winAmount64, multiplier.
  destruct matches as [|[|[|[|k]]]]; simpl; try reflexivity; [|lia].
  symmetry. apply mul64_zero.
Qed.

(** C1 as stated fails: a bet of 1.1 with three matches at the multiplier
    100, on a balance of 50, is settled with a profit of
    108.90000000000002, which is not bet * multiplier - bet, and with a new
    balance of 158.90000000000003, which is not the old balance plus the
    profit: the handler computes on doubles, and each of its three
    operations is rounded here. *)
Lemma play64_profit_inexact :
  exists profit newBalance st',
    users example_db !! 1%positive = Some alice /\
    User.balance alice = 50%Q /\
    multiplier (fst (load_settings 7 example_db)) 3 = 100%Q /\
    play64 alice_token (mkPlay (Some (literal "1.1")) (Some [4%Q; 1%Q; 9%Q]))
      (literal "0.45") (literal "0.13") (literal "0.93") 7 example_db
    = Some (json (Played [4; 1; 9] 3 profit newBalance "You won!"), st') /\
    users st' !! 1%positive = Some (User.set_balance alice newBalance) /\
    profit = literal "108.90000000000002" /\
    newBalance = literal "158.90000000000003" /\
    ~ (profit == literal "1.1" * 100 - literal "1.1")%Q /\
    ~ (newBalance == 50 + profit)%Q.
Proof.
  exists (literal "108.90000000000002"), (literal "158.90000000000003").
  eexists.
  split; [reflexivity|]. split; [reflexivity|]. split; [reflexivity|].
  split; [vm_compute; reflexivity|]. split; [vm_compute; reflexivity|].
  split; [reflexivity|]. split; [reflexivity|].
  split; vm_compute; discriminate.
Qed.

(** C1, amended: for every wager that the game-play handler settles,
    profit = bet * multiplier[matchCount] - bet with multiplier[0] = 0, and
    the new balance of the account, both in the response and in the
    database, is the old balance plus the profit, where the three
    operations are those of the handler, on doubles: each gives the double
    nearest to its exact result, and so the exact result whenever that is
    a double. *)
Theorem play64_profit_and_balance a req r0 r1 r2 now st
    winningNumbers matches profit newBalance message st' :
  play64 a req r0 r1 r2 now st
    = Some (json (Played winningNumbers matches profit newBalance message), st') ->
  exists claims user bet payout,
    a = Bearer claims /\ users st !! id claims = Some user /\
    pl_bet req = Some bet /\
    let m := multiplier (fst (load_settings now st)) matches in
    mul64 bet m = Some payout /\
    sub64 payout bet = Some profit /\
    multiplier (fst (load_settings now st)) 0 = 0%Q /\
    add64 (User.balance user) profit = Some newBalance /\
    users st' !! id claims = Some (User.set_balance user newBalance) /\
    (double (bet * m) -> double (bet * m - bet) ->
       (profit == bet * m - bet)%Q) /\
    (double (User.balance user + profit) ->
       (newBalance == User.balance user + profit)%Q).
Proof.
  intros H.
  destruct (play64_settled _ _ _ _ _ _ _ _ _ H eq_refl)
    as (claims & user & bet & guesses & -> & Hu & Hb & Hg & Hlen & _ & _ & _ & _ & Hs).
  destruct (settle_wager64_inv _ _ _ _ _ _ _ _ _ _ _ _ _ _ _ _ Hs)
    as (x0 & x1 & x2 & payout & _ & _ & _ & Hws & Hm & Hw & Hp & Hn & _ & Hst).
  exists claims, user, bet, payout.
  pose proof (forEach_matches_bound guesses winningNumbers 0 0) as Hbound.
  rewrite <- Hm, Hlen in Hbound.
  rewrite winAmount64_multiplier in Hw by exact Hbound.
  repeat (split; [first [assumption | reflexivity]|]).
  split; [|split].
  - rewrite Hst. destruct (Qltb 0 payout); simpl; apply lookup_insert_eq.
  - intros Hd1 Hd2.
    pose proof (round64_double _ _ Hd1 Hw) as Hpay.
    assert (Hd3 : double (payout - bet)).
    { destruct Hd2 as (d & Hd & Heq). exists d. split; [exact Hd|].
      rewrite Heq, Hpay. reflexivity. }
    rewrite (round64_double _ _ Hd3 Hp), Hpay. reflexivity.
  - intros Hd. exact (round64_double _ _ Hd Hn).
Qed.

(** A balance of 50, a bet of 1.1 and three matches at the multiplier 100:
    the payout is 110.00000000000001, the profit 108.90000000000002 and
    the new balance 158.90000000000003. *)
Lemma play64_profit_and_balance_witness :
  exists st',
    play64 alice_token (mkPlay (Some (literal "1.1")) (Some [4%Q; 1%Q; 9%Q]))
      (literal "0.45") (literal "0.13") (literal "0.93") 7 example_db
    = Some (json (Played [4; 1; 9] 3 (literal "108.90000000000002")
                    (literal "158.90000000000003") "You won!"), st') /\
    mul64 (literal "1.1") 100 = Some (literal "110.00000000000001") /\
    sub64 (literal "110.00000000000001") (literal "1.1")
    = Some (literal "108.90000000000002") /\
    add64 50 (literal "108.90000000000002") = Some (literal "158.90000000000003") /\
    users st' !! 1%positive
    = Some (User.set_balance alice (literal "158.90000000000003")).
Proof.
  eexists. split; [vm_compute; reflexivity|].
  destruct (play64_profit_and_balance alice_token
              (mkPlay (Some (literal "1.1")) (Some [4%Q; 1%Q; 9%Q]))
              (literal "0.45") (literal "0.13") (literal "0.93") 7 example_db
              [4; 1; 9] 3 (literal "108.90000000000002")
              (literal "158.90000000000003") "You won!" _
              ltac:(vm_compute; reflexivity))
    as (claims & user & bet & payout & Ha & Hu & Hb & Hpay & Hp & _ & Hn & Hst & _).
  injection Ha as <-. injection Hb as <-.
  change (users example_db !! 1%positive) with (Some alice) in Hu.
  injection Hu as <-.
  assert (E : payout = literal "110.00000000000001").
  { vm_compute in Hpay. injection Hpay as <-. vm_compute. reflexivity. }
  subst payout.
  split; [exact Hpay|]. split; [exact Hp|]. split; [exact Hn | exact Hst].
Defined.

(** The example of the specification is settled exactly: a bet of 10 with
    two matches at the multiplier 10, on a balance of 50, gives a profit
    of 90 and a balance of 140. *)
Example play64_exact :
  exists st',
    play64 alice_token (mkPlay (Some 10%Q) (Some [4%Q; 4%Q; 4%Q]))
      (literal "0.45") (literal "0.41") (literal "0.93") 7 example_db
    = Some (json (Played [4; 4; 9] 2 90%Q 140%Q "You won!"), st') /\
    (90 == 10 * 10 - 10)%Q /\ (140 == 50 + 90)%Q.
Proof.
  eexists. split; [vm_compute; reflexivity|]. split; reflexivity.
Qed.





(** C3: a game-play request whose bet is below minBet, above maxBet, or
    above the current balance of the account is answered with an error,
    and no balance changes. *)
Theorem play_rejects_invalid_bet a req r0 r1 r2 now st bet :
  pl_bet req = Some bet ->
  (bet < GameSettings.minBet (fst (load_settings now st)))%Q \/
  (GameSettings.maxBet (fst (load_settings now st)) < bet)%Q \/
  (exists claims user,
      a = Bearer claims /\ users st !! id claims = Some user /\
      (User.balance user < bet)%Q) ->
  is_error (fst (play a req r0 r1 r2 now st)) /\
  users (snd (play a req r0 r1 r2 now st)) = users st.
Proof.
  intros Hb Hbad.
  destruct (play_error_or_settled a req r0 r1 r2 now st) as [(He & Hu & _)|Hs];
    [split; assumption|].
  exfalso.
  destruct (play_settled a req r0 r1 r2 now st _ _ (surjective_pairing _) Hs)
    as (claims & user & bet' & guesses & Ha & Hu & Hb' & _ & _ & _ & Hmin & Hmax & Hbal & _).
  rewrite Hb in Hb'. injection Hb' as <-.
  destruct Hbad as [Hlt|[Hgt|(claims' & user' & Ha' & Hu' & Hlt)]].
  - apply (Qlt_not_le _ _ Hlt Hmin).
  - apply (Qlt_not_le _ _ Hgt Hmax).
  - rewrite Ha in Ha'. injection Ha' as <-.
    rewrite Hu in Hu'. injection Hu' as <-.
    apply (Qlt_not_le _ _ Hlt Hbal).
Qed.

(** A bet of 60 against a balance of 50, within the default bounds. *)
Lemma play_rejects_invalid_bet_witness :
  is_error (fst (play alice_token (mkPlay (Some 60%Q) (Some [4%Q; 4%Q; 4%Q]))
                   (45 # 100) (41 # 100) (93 # 100) 7 example_db)) /\
  users (snd (play alice_token (mkPlay (Some 60%Q) (Some [4%Q; 4%Q; 4%Q]))
                (45 # 100) (41 # 100) (93 # 100) 7 example_db))
  = users example_db.
Proof.
  apply (play_rejects_invalid_bet alice_token
           (mkPlay (Some 60%Q) (Some [4%Q; 4%Q; 4%Q]))
           (45 # 100) (41 # 100) (93 # 100) 7 example_db 60%Q).
  - reflexivity.
  - right. right. exists (mkClaims 1 "alice@example.com" false), alice.
    split; [reflexivity|]. split; [reflexivity|]. reflexivity.
Defined.



(** ** The withdrawal workflow *)

Lemma requireAdmin_inl a r : requireAdmin a = inl r -> is_error r.
Proof.
  unfold requireAdmin. destruct a as [| |c]; simpl.
  - intros [= <-]. split; simpl; [lia | exact I].
  - intros [= <-]. split; simpl; [lia | exact I].
  - destruct (isAdmin c); [discriminate|]. intros [= <-].
    split; simpl; [lia | exact I].
Qed.

Lemma is_error_fail code e : (400 <= code)%nat -> is_error (fail code e).
Proof. intros H. split; [exact H | exact I]. Qed.

(** C4: approving a pending transaction of an account whose current
    balance is less than the amount fails with an error; the transaction
    stays pending and the balance is unchanged, as is the whole database. *)
Theorem approve_insufficient_balance a tid now st t user :
  transactions st !! tid = Some t ->
  Transaction.status t = Transaction.pending ->
  users st !! Transaction.userId t = Some user ->
  (User.balance user < Transaction.amount t)%Q ->
  is_error (fst (approve_withdrawal a (Some tid) now st)) /\
  snd (approve_withdrawal a (Some tid) now st) = st /\
  transactions (snd (approve_withdrawal a (Some tid) now st)) !! tid = Some t /\
  users (snd (approve_withdrawal a (Some tid) now st)) !! Transaction.userId t
    = Some user /\
  (forall claims, a = Bearer claims -> isAdmin claims = true ->
     fst (approve_withdrawal a (Some tid) now st)
     = fail 400 "User has insufficient balance").
Proof.
  intros Ht Hp Hu Hlt.
  assert (Hst : snd (approve_withdrawal a (Some tid) now st) = st /\
                is_error (fst (approve_withdrawal a (Some tid) now st)) /\
                forall claims, a = Bearer claims -> isAdmin claims = true ->
                  fst (approve_withdrawal a (Some tid) now st)
                  = fail 400 "User has insufficient balance").
  { unfold approve_withdrawal.
    destruct (requireAdmin a) as [r|claims] eqn:Ha; simpl.
    - split; [reflexivity|]. split; [exact (requireAdmin_inl _ _ Ha)|].
      intros c -> Hc. unfold requireAdmin in Ha. simpl in Ha.
      rewrite Hc in Ha. discriminate.
    - rewrite Ht, Hp. simpl. rewrite Hu.
      apply Qltb_lt in Hlt. rewrite Hlt. simpl.
      split; [reflexivity|]. split; [apply is_error_fail; lia|]. reflexivity. }
  destruct Hst as (Hs & He & Hr).
  rewrite Hs. repeat split; try assumption; apply He.
Qed.

Lemma approve_insufficient_balance_witness :
  is_error (fst (approve_withdrawal root_token (Some 5%positive) 9 overdrawn_db)) /\
  snd (approve_withdrawal root_token (Some 5%positive) 9 overdrawn_db)
    = overdrawn_db.
Proof.
  pose proof (approve_insufficient_balance root_token 5%positive 9 overdrawn_db
                (Transaction.mk 1 Transaction.withdrawal 80%Q Transaction.pending
                   (Some (Transaction.WTH 3 1)) 3 None None)
                alice eq_refl eq_refl eq_refl eq_refl) as (He & Hs & _).
  split; [exact He | exact Hs].
Defined.

Lemma status_step_refl s : status_step s s.
Proof. left. reflexivity. Qed.

Lemma settle_wager_keeps_entries claims user bet guesses settings r0 r1 r2 now st1
    (tid : positive) (t : Transaction.t) :
  transactions st1 !! tid = Some t ->
  transactions (snd (settle_wager claims user bet guesses settings r0 r1 r2 now st1))
    !! tid = Some t.
Proof.
  intros H. unfold settle_wager. simpl.
  destruct (Qltb 0 _); simpl; repeat apply lookup_create_old; exact H.
Qed.

Lemma play_keeps_entries a req r0 r1 r2 now st (tid : positive) (t : Transaction.t) :
  transactions st !! tid = Some t ->
  transactions (snd (play a req r0 r1 r2 now st)) !! tid = Some t.
Proof.
  intros H.
  destruct (play_error_or_settled a req r0 r1 r2 now st) as [(_ & _ & Ht)|Hs].
  - rewrite Ht. exact H.
  - destruct (play_settled a req r0 r1 r2 now st _ _ (surjective_pairing _) Hs)
      as (claims & user & bet & guesses & _ & _ & _ & _ & _ & _ & _ & _ & _ & Heq).
    apply (f_equal snd) in Heq. simpl in Heq. rewrite <- Heq.
    apply settle_wager_keeps_entries.
    rewrite load_settings_transactions. exact H.
Qed.

(** What [approve_withdrawal] does to an entry of the ledger. *)
Lemma approve_withdrawal_entry a tid' now st (tid : positive) (t : Transaction.t) :
  transactions st !! tid = Some t ->
  exists t',
    transactions (snd (approve_withdrawal a tid' now st)) !! tid = Some t' /\
    (t' = t \/
     (tid' = Some tid /\ Transaction.status t = Transaction.pending /\
      Transaction.status t' = Transaction.approved /\
      status (fst (approve_withdrawal a tid' now st)) = 200%nat)) /\
    Transaction.type t' = Transaction.type t /\
    Transaction.amount t' = Transaction.amount t.
Proof.
  intros H. unfold approve_withdrawal.
  destruct (requireAdmin a) as [r|claims]; simpl; [eauto 6|].
  destruct tid' as [i|]; simpl; [|eauto 6].
  destruct (transactions st !! i) as [ti|] eqn:Hi; simpl; [|eauto 6].
  destruct (Transaction.status ti) eqn:Hst; simpl; eauto 6.
  destruct (users st !! Transaction.userId ti) as [user|]; simpl; [|eauto 6].
  destruct (Qltb _ _); simpl; [eauto 6|].
  destruct (decide (i = tid)) as [->|Hne].
  - rewrite lookup_insert_eq. rewrite H in Hi. injection Hi as <-.
    eexists. split; [reflexivity|]. split; [|split; reflexivity].
    right. repeat split; assumption.
  - rewrite lookup_insert_ne by exact Hne. eauto 6.
Qed.

(** What [reject_withdrawal] does to an entry of the ledger. *)
Lemma reject_withdrawal_entry a tid' reason now st (tid : positive) (t : Transaction.t) :
  transactions st !! tid = Some t ->
  exists t',
    transactions (snd (reject_withdrawal a tid' reason now st)) !! tid = Some t' /\
    (t' = t \/
     (tid' = Some tid /\ Transaction.status t = Transaction.pending /\
      Transaction.status t' = Transaction.rejected /\
      status (fst (reject_withdrawal a tid' reason now st)) = 200%nat)) /\
    Transaction.type t' = Transaction.type t /\
    Transaction.amount t' = Transaction.amount t.
Proof.
  intros H. unfold reject_withdrawal.
  destruct (requireAdmin a) as [r|claims]; simpl; [eauto 6|].
  destruct tid' as [i|]; simpl; [|eauto 6].
  destruct (transactions st !! i) as [ti|] eqn:Hi; simpl; [|eauto 6].
  destruct (Transaction.status ti) eqn:Hst; simpl; eauto 6.
  destruct (decide (i = tid)) as [->|Hne].
  - rewrite lookup_insert_eq. rewrite H in Hi. injection Hi as <-.
    eexists. split; [reflexivity|]. split; [|split; reflexivity].
    right. repeat split; assumption.
  - rewrite lookup_insert_ne by exact Hne. eauto 6.
Qed.

(** An approve or a reject of a transaction that is not pending: the
    conflict response for an admin, an error in any case, and no change. *)
Lemma approve_withdrawal_conflict a tid now st t :
  transactions st !! tid = Some t ->
  Transaction.status t <> Transaction.pending ->
  is_error (fst (approve_withdrawal a (Some tid) now st)) /\
  snd (approve_withdrawal a (Some tid) now st) = st /\
  (forall claims, requireAdmin a = inr claims ->
     fst (approve_withdrawal a (Some tid) now st) = conflict).
Proof.
  intros H Hn. unfold approve_withdrawal.
  destruct (requireAdmin a) as [r|claims] eqn:Ha; simpl.
  - split; [exact (requireAdmin_inl _ _ Ha)|]. split; [reflexivity|]. discriminate.
  - rewrite H.
    destruct (Transaction.status t); try contradiction; simpl;
      (split; [apply is_error_fail; lia | split; reflexivity]).
Qed.

Lemma reject_withdrawal_conflict a tid reason now st t :
  transactions st !! tid = Some t ->
  Transaction.status t <> Transaction.pending ->
  is_error (fst (reject_withdrawal a (Some tid) reason now st)) /\
  snd (reject_withdrawal a (Some tid) reason now st) = st /\
  (forall claims, requireAdmin a = inr claims ->
     fst (reject_withdrawal a (Some tid) reason now st) = conflict).
Proof.
  intros H Hn. unfold reject_withdrawal.
  destruct (requireAdmin a) as [r|claims] eqn:Ha; simpl.
  - split; [exact (requireAdmin_inl _ _ Ha)|]. split; [reflexivity|]. discriminate.
  - rewrite H.
    destruct (Transaction.status t); try contradiction; simpl;
      (split; [apply is_error_fail; lia | split; reflexivity]).
Qed.

(** Every request keeps every entry of the ledger, and changes its status
    only as an accepted approve (to approved) or reject (to rejected) of
    that entry, which was pending. *)
Lemma handle_entry r now st resp st' (tid : positive) (t : Transaction.t) :
  handle r now st = Some (resp, st') ->
  transactions st !! tid = Some t ->
  exists t',
    transactions st' !! tid = Some t' /\
    (t' = t \/
     (Transaction.status t = Transaction.pending /\ status resp = 200%nat /\
      ((exists a, r = PostApproveWithdrawal a (Some tid)) /\
         Transaction.status t' = Transaction.approved \/
       (exists a reason, r = PostRejectWithdrawal a (Some tid) reason) /\
         Transaction.status t' = Transaction.rejected))) /\
    Transaction.type t' = Transaction.type t /\
    Transaction.amount t' = Transaction.amount t.
Proof.
  intros Hh Ht. destruct r; simpl in Hh.
  - handled Hh. unfold signup.
    destruct (_ || _ || _); simpl; [eauto 6|].
    destruct (findOne_email _ _); simpl; eauto 6.
  - unfold webhook in Hh.
    repeat (case_match; simplify_eq); simpl; eauto 6.
  - handled Hh. unfold request_withdrawal.
    destruct (authenticateToken a); simpl; [eauto 6|].
    destruct amount as [amount|]; simpl; [|eauto 6].
    destruct (_ || _); simpl; [eauto 6|].
    destruct (users st !! _) as [user|]; simpl; [|eauto 6].
    destruct (Qltb _ _); simpl; [eauto 6|].
    exists t. split; [|eauto 6].
    apply (lookup_create_old _ _ _ _ Ht).
  - handled Hh. exists t.
    split; [apply play_keeps_entries; exact Ht | eauto 6].
  - handled Hh. unfold admin_users.
    destruct (requireAdmin a); simpl; eauto 6.
  - handled Hh. unfold credit_user.
    destruct (requireAdmin a); simpl; [eauto 6|].
    destruct (cr_userId req) as [userId|]; simpl; [|eauto 6].
    destruct (cr_amount req) as [amount|]; simpl; [|eauto 6].
    destruct (_ || _); simpl; [eauto 6|].
    destruct (users st !! _) as [user|]; simpl; [|eauto 6].
    exists t. split; [|eauto 6].
    apply (lookup_create_old _ _ _ _ Ht).
  - handled Hh.
    destruct (approve_withdrawal_entry a transactionId now st tid t Ht)
      as (t' & Hl & [->|(-> & Hp & Ha & Hs)] & Hty & Ham).
    + eauto 6.
    + exists t'. split; [exact Hl|]. split; [|split; assumption].
      right. split; [exact Hp|]. split; [exact Hs|].
      left. split; [eexists; reflexivity | exact Ha].
  - handled Hh.
    destruct (reject_withdrawal_entry a transactionId reason now st tid t Ht)
      as (t' & Hl & [->|(-> & Hp & Ha & Hs)] & Hty & Ham).
    + eauto 6.
    + exists t'. split; [exact Hl|]. split; [|split; assumption].
      right. split; [exact Hp|]. split; [exact Hs|].
      right. split; [do 2 eexists; reflexivity | exact Ha].
  - handled Hh. unfold update_settings.
    destruct (requireAdmin a); simpl; eauto 6.
Qed.

Lemma approve_withdrawal_accepted a tid now st :
  status (fst (approve_withdrawal a (Some tid) now st)) = 200%nat ->
  exists t',
    transactions (snd (approve_withdrawal a (Some tid) now st)) !! tid = Some t' /\
    Transaction.status t' = Transaction.approved.
Proof.
  unfold approve_withdrawal.
  destruct (requireAdmin a) as [r|claims] eqn:Ha; simpl.
  - intros Hs. destruct (requireAdmin_inl _ _ Ha) as [Hc _]. lia.
  - destruct (transactions st !! tid) as [t|]; simpl; [|discriminate].
    destruct (Transaction.is_pending (Transaction.status t)); simpl; [|discriminate].
    destruct (users st !! Transaction.userId t) as [user|]; simpl; [|discriminate].
    destruct (Qltb _ _); simpl; [discriminate|].
    intros _. rewrite lookup_insert_eq. eexists. split; reflexivity.
Qed.

Lemma reject_withdrawal_accepted a tid reason now st :
  status (fst (reject_withdrawal a (Some tid) reason now st)) = 200%nat ->
  exists t',
    transactions (snd (reject_withdrawal a (Some tid) reason now st)) !! tid = Some t' /\
    Transaction.status t' = Transaction.rejected.
Proof.
  unfold reject_withdrawal.
  destruct (requireAdmin a) as [r|claims] eqn:Ha; simpl.
  - intros Hs. destruct (requireAdmin_inl _ _ Ha) as [Hc _]. lia.
  - destruct (transactions st !! tid) as [t|]; simpl; [|discriminate].
    destruct (Transaction.is_pending (Transaction.status t)); simpl; [|discriminate].
    intros _. rewrite lookup_insert_eq. eexists. split; reflexivity.
Qed.

(** An approve and a reject of an entry that is not pending, by an admin. *)
Lemma second_attempt_conflict a reason now st tid t claims :
  transactions st !! tid = Some t ->
  Transaction.status t <> Transaction.pending ->
  requireAdmin a = inr claims ->
  handle (PostApproveWithdrawal a (Some tid)) now st = Some (conflict, st) /\
  handle (PostRejectWithdrawal a (Some tid) reason) now st = Some (conflict, st).
Proof.
  intros Ht Hn Ha. simpl.
  destruct (approve_withdrawal_conflict a tid now st t Ht Hn) as (_ & Hs1 & Hr1).
  destruct (reject_withdrawal_conflict a tid reason now st t Ht Hn) as (_ & Hs2 & Hr2).
  split; f_equal.
  - rewrite (surjective_pairing (approve_withdrawal _ _ _ _)).
    rewrite Hs1, (Hr1 _ Ha). reflexivity.
  - rewrite (surjective_pairing (reject_withdrawal _ _ _ _ _)).
    rewrite Hs2, (Hr2 _ Ha). reflexivity.
Qed.

(** C5: whatever the request, an entry of the ledger stays in the ledger
    and its status either stays or moves from pending to approved or to
    rejected, and it moves only by an accepted approve or reject of that
    entry; an approve or reject of an entry that is not pending is
    answered with the conflict error and changes nothing, so approved and
    rejected are terminal; and after an accepted approve or reject, a
    second approve or reject of the same id is answered with the conflict
    error and leaves the database, balances included, unchanged. *)
Theorem withdrawal_lifecycle r now st resp st' (tid : positive) (t : Transaction.t) :
  handle r now st = Some (resp, st') ->
  transactions st !! tid = Some t ->
  exists t',
    transactions st' !! tid = Some t' /\
    Transaction.type t' = Transaction.type t /\
    Transaction.amount t' = Transaction.amount t /\
    status_step (Transaction.status t) (Transaction.status t') /\
    (Transaction.status t' <> Transaction.status t ->
       Transaction.status t = Transaction.pending /\ status resp = 200%nat /\
       ((exists a, r = PostApproveWithdrawal a (Some tid)) /\
          Transaction.status t' = Transaction.approved \/
        (exists a reason, r = PostRejectWithdrawal a (Some tid) reason) /\
          Transaction.status t' = Transaction.rejected)) /\
    (Transaction.status t <> Transaction.pending ->
       t' = t /\
       forall a reason,
         r = PostApproveWithdrawal a (Some tid) \/
         r = PostRejectWithdrawal a (Some tid) reason ->
         is_error resp /\ st' = st /\
         forall claims, requireAdmin a = inr claims -> resp = conflict) /\
    (forall a reason,
       r = PostApproveWithdrawal a (Some tid) \/
       r = PostRejectWithdrawal a (Some tid) reason ->
       status resp = 200%nat ->
       Transaction.status t = Transaction.pending /\
       Transaction.status t' <> Transaction.pending /\
       forall a2 reason2 now2 claims,
         requireAdmin a2 = inr claims ->
         handle (PostApproveWithdrawal a2 (Some tid)) now2 st' = Some (conflict, st') /\
         handle (PostRejectWithdrawal a2 (Some tid) reason2) now2 st'
           = Some (conflict, st')).
Proof.
  intros Hh Ht.
  destruct (handle_entry r now st resp st' tid t Hh Ht)
    as (t' & Hl & Hcase & Hty & Ham).
  exists t'. split; [exact Hl|]. split; [exact Hty|]. split; [exact Ham|].
  assert (Hstep : status_step (Transaction.status t) (Transaction.status t')).
  { destruct Hcase as [->|(Hp & _ & [[_ Hs]|[_ Hs]])].
    - apply status_step_refl.
    - right. split; [exact Hp | left; exact Hs].
    - right. split; [exact Hp | right; exact Hs]. }
  split; [exact Hstep|].
  assert (Hterminal : Transaction.status t <> Transaction.pending -> t' = t).
  { intros Hn. destruct Hcase as [->|(Hp & _)]; [reflexivity | contradiction]. }
  split; [|split].
  - intros Hne. destruct Hcase as [->|Hc]; [contradiction | exact Hc].
  - intros Hn. split; [exact (Hterminal Hn)|].
    intros a reason [->| ->]; simpl in Hh; handled Hh.
    + destruct (approve_withdrawal_conflict a tid now st t Ht Hn) as (He & Hs & Hr).
      auto.
    + destruct (reject_withdrawal_conflict a tid reason now st t Ht Hn) as (He & Hs & Hr).
      auto.
  - intros a reason Hr Hok.
    assert (Hdone : Transaction.status t' = Transaction.approved \/
                    Transaction.status t' = Transaction.rejected).
    { destruct Hr as [->| ->]; simpl in Hh; handled Hh.
      - destruct (approve_withdrawal_accepted a tid now st Hok) as (t2 & Hl2 & Hs2).
        rewrite Hl in Hl2. injection Hl2 as <-. left. exact Hs2.
      - destruct (reject_withdrawal_accepted a tid reason now st Hok) as (t2 & Hl2 & Hs2).
        rewrite Hl in Hl2. injection Hl2 as <-. right. exact Hs2. }
    assert (Hnp : Transaction.status t' <> Transaction.pending).
    { destruct Hdone as [E|E]; rewrite E; discriminate. }
    split; [|split; [exact Hnp|]].
    + assert (Hconf : Transaction.status t <> Transaction.pending -> False).
      { intros Hn. destruct Hr as [->| ->]; simpl in Hh; handled Hh.
        - destruct (approve_withdrawal_conflict a tid now st t Ht Hn) as ([Hc _] & _).
          lia.
        - destruct (reject_withdrawal_conflict a tid reason now st t Ht Hn)
            as ([Hc _] & _).
          lia. }
      destruct (Transaction.status t); try reflexivity;
        exfalso; apply Hconf; discriminate.
    + intros a2 reason2 now2 claims Ha2.
      exact (second_attempt_conflict a2 reason2 now2 st' tid t' claims Hl Hnp Ha2).
Qed.

(** An admin approves the pending withdrawal of 20: the status moves to
    approved, and a second approve or reject is a conflict. *)
Lemma withdrawal_lifecycle_witness :
  exists t',
    transactions (snd (approve_withdrawal root_token (Some 5%positive) 9 withdrawal_db))
      !! 5%positive = Some t' /\
    Transaction.status t' = Transaction.approved /\
    handle (PostRejectWithdrawal root_token (Some 5%positive) None) 11
           (snd (approve_withdrawal root_token (Some 5%positive) 9 withdrawal_db))
    = Some (conflict,
            snd (approve_withdrawal root_token (Some 5%positive) 9 withdrawal_db)).
Proof.
  destruct (withdrawal_lifecycle
              (PostApproveWithdrawal root_token (Some 5%positive)) 9 withdrawal_db
              (fst (approve_withdrawal root_token (Some 5%positive) 9 withdrawal_db))
              (snd (approve_withdrawal root_token (Some 5%positive) 9 withdrawal_db))
              5%positive pending_withdrawal eq_refl eq_refl)
    as (t' & Hl & _ & _ & _ & Hmove & _ & Hsecond).
  exists t'. split; [exact Hl|].
  destruct (Hsecond root_token None (or_introl eq_refl) eq_refl) as (_ & _ & Hc).
  split.
  - destruct Hmove as (_ & _ & [[_ Hs]|[[a [reason E]] _]]).
    + vm_compute in Hl. injection Hl as <-. discriminate.
    + exact Hs.
    + discriminate E.
  - exact (proj2 (Hc root_token None 11 (mkClaims 2 "admin@example.com" true) eq_refl)).
Defined.

(** ** The deposit webhook *)

(** C6 as stated fails: a completed webhook call with the amount 0.1 for
    an account with a balance of 0.7 stores 0.7999999999999999, so that
    the balance is not credited by exactly the number in the amount field,
    be it the double that [parseFloat] reads or the decimal 1/10: the
    handler adds on doubles, and this sum is rounded. *)
Lemma webhook64_credit_inexact :
  exists amount balance st',
    users cents_db !! 3%positive = Some carol /\
    parseFloat64 (Some (StrV "0.1")) = Num amount /\
    webhook64 (mkWebhook (Some "completed") (Some (StrV "0.1"))
                 (Some (Some 3%positive))) cents_db
    = Some (json (Message "Payment processed"), st') /\
    users st' !! 3%positive = Some (User.set_balance carol balance) /\
    User.balance carol = literal "0.7" /\
    balance = literal "0.7999999999999999" /\
    ~ (balance == User.balance carol + amount)%Q /\
    ~ (balance == User.balance carol + (1 # 10))%Q.
Proof.
  exists (literal "0.1"), (literal "0.7999999999999999"). eexists.
  split; [reflexivity|]. split; [vm_compute; reflexivity|].
  split; [vm_compute; reflexivity|]. split; [vm_compute; reflexivity|].
  split; [reflexivity|]. split; [reflexivity|].
  split; vm_compute; discriminate.
Qed.

(** C6, amended: a webhook call with status completed for an existing
    account and an amount that [parseFloat] reads as a finite number
    (25.5 for the string 25.50) replaces the balance by the double nearest
    to the balance plus that number, the sum of the handler, which is the
    sum itself whenever that is a double; a call with any other status,
    failed included, is acknowledged and changes nothing; and replaying a
    completed call credits the amount a second time. *)
Theorem webhook64_credit req st :
  (wh_status req <> Some "completed" ->
     exists m, webhook64 req st = Some (json (Message m), st)) /\
  (forall uid user amount balance,
     wh_status req = Some "completed" ->
     wh_metadata req = Some (Some uid) ->
     users st !! uid = Some user ->
     parseFloat64 (wh_amount req) = Num amount ->
     add64 (User.balance user) amount = Some balance ->
     let st1 := set_users st (<[uid := User.set_balance user balance]> (users st)) in
     webhook64 req st = Some (json (Message "Payment processed"), st1) /\
     (forall j, j <> uid -> users st1 !! j = users st !! j) /\
     (double (User.balance user + amount) ->
        (balance == User.balance user + amount)%Q) /\
     (forall balance2,
        add64 balance amount = Some balance2 ->
        webhook64 req st1
        = Some (json (Message "Payment processed"),
                set_users st
                  (<[uid := User.set_balance user balance2]> (users st))))) /\
  parseFloat64 (Some (StrV "25.50")) = Num (51 # 2) /\
  (51 # 2 == 25 + 1 / 2)%Q.
Proof.
  split; [|split; [|split]]; try reflexivity.
  - intros Hn. unfold webhook64. rewrite bool_decide_eq_false_2 by exact Hn.
    destruct (bool_decide _); eexists; reflexivity.
  - intros uid user amount balance Hs Hm Hu Ha Hb st1.
    assert (Hfirst : webhook64 req st = Some (json (Message "Payment processed"), st1)).
    { unfold webhook64. rewrite bool_decide_eq_true_2 by exact Hs.
      rewrite Hm. simpl. rewrite Hu, Ha, Hb. reflexivity. }
    split; [exact Hfirst|]. split; [|split].
    + intros j Hj. subst st1. simpl. apply lookup_insert_ne. congruence.
    + intros Hd. exact (round64_double _ _ Hd Hb).
    + intros balance2 Hb2.
      unfold webhook64. rewrite bool_decide_eq_true_2 by exact Hs.
      rewrite Hm. subst st1. simpl. rewrite lookup_insert_eq, Ha.
      cbn [User.set_balance User.balance]. rewrite Hb2.
      unfold set_users. simpl. rewrite insert_insert_eq. reflexivity.
Qed.

(** The example of the specification: the amount 25.50 on a balance of 50
    gives 75.5, exactly, and 101 after the replay. *)
Lemma webhook64_credit_witness :
  webhook64 (mkWebhook (Some "completed") (Some (StrV "25.50")) (Some (Some 1%positive)))
            example_db
  = Some (json (Message "Payment processed"),
          set_users example_db
            (<[1%positive := User.set_balance alice (151 # 2)]> (users example_db))) /\
  (151 # 2 == 50 + (51 # 2))%Q /\
  webhook64 (mkWebhook (Some "completed") (Some (StrV "25.50")) (Some (Some 1%positive)))
            (set_users example_db
               (<[1%positive := User.set_balance alice (151 # 2)]> (users example_db)))
  = Some (json (Message "Payment processed"),
          set_users example_db
            (<[1%positive := User.set_balance alice 101]> (users example_db))).
Proof.
  destruct (proj1 (proj2 (webhook64_credit
              (mkWebhook (Some "completed") (Some (StrV "25.50"))
                 (Some (Some 1%positive))) example_db))
              1%positive alice (51 # 2) (151 # 2)
              eq_refl eq_refl eq_refl eq_refl eq_refl)
    as (H1 & _ & Hexact & H2).
  split; [exact H1|]. split; [|exact (H2 101%Q eq_refl)].
  apply Hexact. exists (151 # 2)%Q. split; reflexivity.
Defined.

(** An amount beyond the largest double is read as [Infinity]; the
    balance that the handler then stores is not a number of the model. *)
Example webhook64_overflow :
  parseFloat64 (Some (StrV "1e400")) = Infinity false /\
  webhook64 (mkWebhook (Some "completed") (Some (StrV "1e400")) (Some (Some 1%positive)))
            example_db = None.
Proof. split; vm_compute; reflexivity. Qed.

(** ** Signup *)

Lemma append_cons (c : ascii) (t post : string) :
  String.append (String c t) post = String c (String.append t post).
Proof. reflexivity. Qed.

Lemma prefix_append (t s : string) :
  String.prefix t s = true <-> exists post, s = String.append t post.
Proof.
  revert s. induction t as [|c t IH]; intros s.
  - split; [intros _; exists s; reflexivity | intros _; destruct s; reflexivity].
  - destruct s as [|b s]; simpl.
    + split; [discriminate | intros [post E]; rewrite append_cons in E; discriminate].
    + destruct (ascii_dec c b) as [->|Hne].
      * rewrite IH. split; intros [post E]; exists post;
          rewrite append_cons in *; congruence.
      * split; [discriminate|].
        intros [post E]. rewrite append_cons in E. congruence.
Qed.

(** [includes] is the substring test. *)
Lemma includes_substring (s t : string) :
  includes s t = true <->
  exists pre post, s = String.append pre (String.append t post).
Proof.
  induction s as [|c s IH].
  - cbn [includes]. rewrite orb_false_r, prefix_append. split.
    + intros [post E]. exists EmptyString, post. exact E.
    + intros [pre [post E]]. destruct pre as [|c' pre].
      * exists post. exact E.
      * rewrite append_cons in E. discriminate.
  - cbn [includes]. rewrite orb_true_iff, prefix_append, IH. split.
    + intros [[post E]|[pre [post E]]].
      * exists EmptyString, post. exact E.
      * exists (String c pre), post. rewrite append_cons. congruence.
    + intros [pre [post E]]. destruct pre as [|c' pre].
      * left. exists post. exact E.
      * right. exists pre, post. rewrite append_cons in E. congruence.
Qed.

Lemma truthy_string_Some (s : string) :
  s <> EmptyString -> truthy_string (Some s) = true.
Proof. destruct s; [contradiction | reflexivity]. Qed.

Lemma findOne_email_None (e : string) (m : gmap positive User.t) :
  (forall i u, m !! i = Some u -> User.email u <> e) ->
  findOne_email e m = None.
Proof.
  intros H. unfold findOne_email.
  destruct (List.find _ _) as [[i u]|] eqn:F; [|reflexivity].
  apply List.find_some in F as [Hin Heq]. simpl in Heq.
  apply String.eqb_eq in Heq.
  apply list_elem_of_In, elem_of_map_to_list in Hin.
  exfalso. exact (H i u Hin Heq).
Qed.

(** C7: a signup with email, password and phone present and an email that
    no account has creates one account, whose balance is 0 and whose admin
    flag is true exactly when the lowercased email contains the substring
    admin. *)
Theorem signup_creates_account req hashedPassword now st e p ph :
  su_email req = Some e -> su_password req = Some p -> su_phone req = Some ph ->
  e <> EmptyString -> p <> EmptyString -> ph <> EmptyString ->
  (forall i u, users st !! i = Some u -> User.email u <> e) ->
  exists _id user,
    users st !! _id = None /\
    snd (signup req hashedPassword now st)
      = set_users st (<[_id := user]> (users st)) /\
    User.email user = e /\ User.phone user = ph /\
    User.password user = hashedPassword /\
    User.balance user = 0%Q /\
    (User.isAdmin user = true <->
       exists pre post,
         toLowerCase e = String.append pre (String.append "admin" post)) /\
    fst (signup req hashedPassword now st)
      = json (SignedUp _id e ph 0%Q (User.isAdmin user)
                (mkClaims _id e (User.isAdmin user))).
Proof.
  intros He Hp Hph Hne Hnp Hnph Hfree.
  exists (new_id (users st)),
    (User.mk e hashedPassword ph 0%Q (includes (toLowerCase e) "admin") now None).
  unfold signup. rewrite He, Hp, Hph.
  rewrite !truthy_string_Some by assumption. cbn [negb orb].
  change (default EmptyString (Some e)) with e.
  change (default EmptyString (Some ph)) with ph.
  rewrite (findOne_email_None _ _ Hfree).
  split; [apply new_id_fresh|]. cbn [fst snd].
  repeat split; try reflexivity.
  - cbn [User.isAdmin]. apply includes_substring.
  - cbn [User.isAdmin]. apply includes_substring.
Qed.

Lemma signup_creates_account_witness :
  exists _id user,
    users example_db !! _id = None /\
    snd (signup (mkSignup (Some "Bob.Admin@example.com") (Some "secret")
                   (Some "0244111111")) "$2a$10$hash" 4 example_db)
      = set_users example_db (<[_id := user]> (users example_db)) /\
    User.balance user = 0%Q /\ User.isAdmin user = true.
Proof.
  destruct (signup_creates_account
              (mkSignup (Some "Bob.Admin@example.com") (Some "secret")
                 (Some "0244111111")) "$2a$10$hash" 4 example_db
              "Bob.Admin@example.com" "secret" "0244111111"
              eq_refl eq_refl eq_refl
              ltac:(discriminate) ltac:(discriminate) ltac:(discriminate))
    as (_id & user & Hf & Hs & _ & _ & _ & Hb & Hadm & _).
  - intros i u Hu E.
    destruct (decide (i = 2%positive)) as [->|H2].
    + vm_compute in Hu. injection Hu as <-. discriminate E.
    + destruct (decide (i = 1%positive)) as [->|H1].
      * vm_compute in Hu. injection Hu as <-. discriminate E.
      * unfold example_db in Hu. simpl in Hu.
        rewrite lookup_insert_ne, lookup_singleton_ne in Hu by congruence.
        discriminate Hu.
  - exists _id, user. repeat split; try assumption.
    apply Hadm. exists "bob.", "@example.com". reflexivity.
Defined.

(** ** Admin operations *)

(** C9 as stated fails: on an update of the game settings with only
    [payoutMultipliers.oneMatch] in the body, the multiplier for two
    matches, which the request does not supply and which was 20, is absent
    from the saved document, and the next reader sees the default 10. *)
Lemma update_settings_drops_multiplier :
  GameSettings.twoMatches <$> gs_payoutMultipliers only_oneMatch = Some None /\
  GameSettings.twoMatchesMultiplier (GameSettings.hydrate tuned_settings) = 20%Q /\
  exists new,
    gamesettings (snd (update_settings root_token only_oneMatch 9 tuned_db))
      = Some new /\
    GameSettings.twoMatches (GameSettings.s_payoutMultipliers new) = None /\
    GameSettings.twoMatchesMultiplier (GameSettings.hydrate new) = 10%Q /\
    ~ (GameSettings.twoMatchesMultiplier (GameSettings.hydrate new)
       == GameSettings.twoMatchesMultiplier (GameSettings.hydrate tuned_settings))%Q.
Proof.
  split; [reflexivity|]. split; [reflexivity|].
  eexists. split; [reflexivity|]. split; [reflexivity|]. split; [reflexivity|].
  discriminate.
Qed.

(** C9, amended: an update of the game settings by an admin changes
    houseFee, maxBet and minBet exactly when the body supplies them;
    without payoutMultipliers in the body the three multipliers keep their
    values, and with it the supplied object replaces the stored one as a
    whole; updatedAt and updatedBy are stamped; accounts, ledger and game
    history are untouched. *)
Theorem update_settings_partial a req now st claims :
  requireAdmin a = inr claims ->
  let old :=
    match gamesettings st with
    | Some s => GameSettings.hydrate s
    | None => GameSettings.hydrate (GameSettings.fresh now)
    end in
  exists new,
    snd (update_settings a req now st) = set_gamesettings st (Some new) /\
    fst (update_settings a req now st)
      = json (SettingsUpdated "Game settings updated successfully" new) /\
    GameSettings.s_houseFee new
      = default (GameSettings.houseFee old) (gs_houseFee req) /\
    GameSettings.s_maxBet new = default (GameSettings.maxBet old) (gs_maxBet req) /\
    GameSettings.s_minBet new = default (GameSettings.minBet old) (gs_minBet req) /\
    GameSettings.s_payoutMultipliers new
      = default (GameSettings.payoutMultipliers old) (gs_payoutMultipliers req) /\
    (gs_payoutMultipliers req = None ->
       GameSettings.threeMatchesMultiplier (GameSettings.hydrate new)
         = GameSettings.threeMatchesMultiplier old /\
       GameSettings.twoMatchesMultiplier (GameSettings.hydrate new)
         = GameSettings.twoMatchesMultiplier old /\
       GameSettings.oneMatchMultiplier (GameSettings.hydrate new)
         = GameSettings.oneMatchMultiplier old) /\
    GameSettings.s_updatedAt new = now /\
    GameSettings.s_updatedBy new = Some (id claims).
Proof.
  intros Ha old. unfold update_settings. rewrite Ha. fold old.
  eexists. split; [reflexivity|]. split; [reflexivity|].
  unfold assign_settings. cbn [GameSettings.s_houseFee GameSettings.s_maxBet
    GameSettings.s_minBet GameSettings.s_payoutMultipliers
    GameSettings.s_updatedAt GameSettings.s_updatedBy].
  destruct (gs_houseFee req), (gs_maxBet req), (gs_minBet req);
    (repeat split; try reflexivity);
    destruct (gs_payoutMultipliers req); try reflexivity; discriminate.
Qed.

(** An admin raises maxBet to 5000 and nothing else. *)
Lemma update_settings_partial_witness :
  exists new,
    snd (update_settings root_token (mkSettings None (Some 5000%Q) None None) 9 tuned_db)
      = set_gamesettings tuned_db (Some new) /\
    GameSettings.s_maxBet new = 5000%Q /\
    GameSettings.s_minBet new = 1%Q /\
    GameSettings.s_payoutMultipliers new
      = GameSettings.mkmult (Some 100%Q) (Some 20%Q) (Some 2%Q).
Proof.
  destruct (update_settings_partial root_token
              (mkSettings None (Some 5000%Q) None None) 9 tuned_db
              (mkClaims 2 "admin@example.com" true) eq_refl)
    as (new & Hs & _ & _ & Hmax & Hmin & Hpm & _).
  exists new. repeat split; assumption.
Defined.

Lemma insert_desc_In (d x : User.doc) (l : list User.doc) :
  In x (insert_desc d l) <-> x = d \/ In x l.
Proof.
  induction l as [|y l IH]; simpl.
  - intuition congruence.
  - destruct (User.d_createdAt y <=? User.d_createdAt d); simpl.
    + intuition congruence.
    + rewrite IH. intuition congruence.
Qed.

Lemma sort_createdAt_desc_In (x : User.doc) (l : list User.doc) :
  In x (sort_createdAt_desc l) <-> In x l.
Proof.
  unfold sort_createdAt_desc. induction l as [|y l IH]; simpl; [reflexivity|].
  rewrite insert_desc_In, IH. intuition congruence.
Qed.

(** The documents that [find_users] returns. *)
Lemma find_users_In (m : gmap positive User.t) (d : User.doc) :
  In d (find_users m) <->
  exists i u,
    m !! i = Some u /\ User.isAdmin u = false /\
    d = User.select_minus_password (i, u).
Proof.
  unfold find_users. rewrite sort_createdAt_desc_In, in_map_iff. split.
  - intros [[i u] [<- Hin]]. apply filter_In in Hin as [Hin Hadm].
    apply list_elem_of_In, elem_of_map_to_list in Hin.
    exists i, u. simpl in Hadm. apply negb_true_iff in Hadm. auto.
  - intros (i & u & Hl & Hadm & ->). exists (i, u). split; [reflexivity|].
    apply filter_In. split.
    + apply list_elem_of_In, elem_of_map_to_list. exact Hl.
    + simpl. rewrite Hadm. reflexivity.
Qed.

(** C10: the listing of users leaves the database as it is; for an admin
    it returns exactly the accounts whose admin flag is false, so no admin
    account appears in it, and no returned document carries the password
    hash; anyone else gets an error. *)
Theorem admin_users_listing a st :
  snd (admin_users a st) = st /\
  (forall r, requireAdmin a = inl r ->
     fst (admin_users a st) = r /\ is_error r) /\
  (forall claims, requireAdmin a = inr claims ->
     exists listed,
       fst (admin_users a st) = json (Users listed) /\
       (forall d, In d listed ->
          User.d_isAdmin d = false /\ User.d_password d = None /\
          exists u, users st !! User.d_id d = Some u /\ User.isAdmin u = false /\
                    d = User.select_minus_password (User.d_id d, u)) /\
       (forall i u, users st !! i = Some u -> User.isAdmin u = false ->
          In (User.select_minus_password (i, u)) listed) /\
       (forall i u, users st !! i = Some u -> User.isAdmin u = true ->
          forall d, In d listed -> User.d_id d <> i)).
Proof.
  unfold admin_users. destruct (requireAdmin a) as [r|claims] eqn:Ha; simpl.
  - split; [reflexivity|]. split; [|discriminate].
    intros r' [= <-]. split; [reflexivity | exact (requireAdmin_inl _ _ Ha)].
  - split; [reflexivity|]. split; [discriminate|].
    intros _ _. exists (find_users (users st)). split; [reflexivity|].
    split; [|split].
    + intros d Hd. apply find_users_In in Hd as (i & u & Hl & Hadm & ->).
      simpl. rewrite Hadm. split; [reflexivity|]. split; [reflexivity|].
      exists u. auto.
    + intros i u Hl Hadm. apply find_users_In. eauto.
    + intros i u Hl Hadm d Hd E.
      apply find_users_In in Hd as (j & v & Hl' & Hadm' & ->).
      simpl in E. subst j. rewrite Hl in Hl'. injection Hl' as <-. congruence.
Qed.

(** * Further properties of the handlers *)

(** ** The SMS client *)

Lemma strip_non_digits_all_digits (s : string) :
  all_digits (strip_non_digits s) = true.
Proof.
  induction s as [|c s IH]; simpl; [reflexivity|].
  destruct (is_digit c) eqn:E; simpl; [rewrite E|]; exact IH.
Qed.

Lemma strip_non_digits_fixed (s : string) :
  all_digits s = true -> strip_non_digits s = s.
Proof.
  induction s as [|c s IH]; simpl; [reflexivity|].
  intros H. apply andb_true_iff in H as [Hc Hs].
  rewrite Hc, (IH Hs). reflexivity.
Qed.

Lemma all_digits_no_plus (s : string) :
  all_digits s = true -> startsWith_plus s = false.
Proof.
  destruct s as [|c s]; [reflexivity|]. simpl. intros H.
  apply andb_true_iff in H as [Hc _].
  destruct c as [[] [] [] [] [] [] [] []]; try reflexivity; discriminate Hc.
Qed.

(** X1: the number that [sendSMS] sends is a plus sign followed by the
    decimal digits of the phone, in their order and nothing else; a phone
    that is already a plus sign followed by digits goes through unchanged,
    so formatting twice is formatting once. *)
Theorem formatPhone_normal (phone : string) :
  formatPhone phone = String "+" (strip_non_digits phone) /\
  all_digits (strip_non_digits phone) = true /\
  (forall digits, all_digits digits = true ->
     formatPhone (String "+" digits) = String "+" digits) /\
  formatPhone (formatPhone phone) = formatPhone phone.
Proof.
  assert (Hf : forall p, formatPhone p = String "+" (strip_non_digits p)).
  { intros p. unfold formatPhone.
    rewrite (all_digits_no_plus _ (strip_non_digits_all_digits p)). reflexivity. }
  assert (Hplus : forall digits, all_digits digits = true ->
            formatPhone (String "+" digits) = String "+" digits).
  { intros digits Hd. rewrite Hf. simpl. rewrite (strip_non_digits_fixed _ Hd).
    reflexivity. }
  split; [apply Hf|]. split; [apply strip_non_digits_all_digits|]. split.
  - exact Hplus.
  - rewrite (Hf phone). apply Hplus. apply strip_non_digits_all_digits.
Qed.

Lemma bulk_results_lookup post n phones message (i : nat) :
  bulk_results post n phones message !! i
  = (fun phone => (phone, sms_success (sendSMS (post (n + i)%nat) phone message)))
      <$> phones !! i.
Proof.
  revert n i. induction phones as [|p phones IH]; intros n i; [reflexivity|].
  destruct i as [|i]; simpl.
  - rewrite Nat.add_0_r. reflexivity.
  - rewrite IH. replace (S n + i)%nat with (n + S i)%nat by lia. reflexivity.
Qed.

Lemma bulk_results_phones post n phones message :
  map fst (bulk_results post n phones message) = phones.
Proof.
  revert n. induction phones as [|p phones IH]; intros n; simpl;
    [reflexivity | rewrite IH; reflexivity].
Qed.

Lemma filter_split_length {A : Type} (f : A -> bool) (l : list A) :
  (length (List.filter f l) + length (List.filter (fun x => negb (f x)) l)
   = length l)%nat.
Proof.
  induction l as [|x l IH]; simpl; [reflexivity|].
  destruct (f x); simpl; lia.
Qed.

(** X2: [sendBulkSMS] makes one request per phone, in the order of the
    list, and reports one result per phone; [sent] is the number of
    requests that succeeded and [failed] the number of those that did not,
    so [sent + failed = total]. *)
Theorem sendBulkSMS_counts post n phones message :
  let r := sendBulkSMS post n phones message in
  bulk_total r = length phones /\
  map fst (bulk_results_list r) = phones /\
  (forall i, bulk_results_list r !! i
             = (fun phone =>
                  (phone, sms_success (sendSMS (post (n + i)%nat) phone message)))
                 <$> phones !! i) /\
  bulk_sent r = length (List.filter snd (bulk_results_list r)) /\
  bulk_failed r
    = Z.of_nat (length (List.filter (fun x => negb (snd x)) (bulk_results_list r))) /\
  Z.of_nat (bulk_sent r) + bulk_failed r = Z.of_nat (bulk_total r).
Proof.
  cbn zeta. unfold sendBulkSMS.
  cbn [bulk_total bulk_sent bulk_failed bulk_results_list].
  pose proof (filter_split_length snd (bulk_results post n phones message)) as Hsplit.
  assert (Hlen : length (bulk_results post n phones message) = length phones).
  { rewrite <- (bulk_results_phones post n phones message) at 2.
    rewrite length_map. reflexivity. }
  rewrite Hlen in Hsplit.
  split; [reflexivity|]. split; [apply bulk_results_phones|].
  split; [apply bulk_results_lookup|]. split; [reflexivity|].
  split; lia.
Qed.

(** ** The [Authorization] header *)

Lemma split_space_nonempty (s : string) : split_space s <> [].
Proof.
  induction s as [|c s IH]; simpl; [discriminate|].
  destruct (split_space s); [contradiction|].
  destruct (Ascii.eqb c " "); discriminate.
Qed.

Lemma split_space_no_space (s : string) :
  no_space s = true -> split_space s = [s].
Proof.
  induction s as [|c s IH]; simpl; [reflexivity|].
  intros H. apply andb_true_iff in H as [Hc Hs].
  rewrite (IH Hs). apply negb_true_iff in Hc. rewrite Hc. reflexivity.
Qed.

Lemma split_space_append (a b : string) :
  no_space a = true ->
  split_space (String.append a (String " " b)) = a :: split_space b.
Proof.
  induction a as [|c a IH]; intros H.
  - change (String.append EmptyString (String " " b)) with (String " " b).
    simpl. destruct (split_space b) eqn:E; [|reflexivity].
    exfalso. exact (split_space_nonempty b E).
  - simpl in H. apply andb_true_iff in H as [Hc Ha].
    rewrite append_cons. simpl. rewrite (IH Ha).
    apply negb_true_iff in Hc. rewrite Hc. reflexivity.
Qed.

(** X3: the token that [authenticateToken] verifies is the second of the
    words of the header that single spaces separate, whatever the first
    word is; a header that is absent or has no space is answered as a
    missing token, and so is one whose second word is empty. *)
Theorem authenticate_second_word verify (scheme token : string) :
  no_space scheme = true -> no_space token = true ->
  (forall rest,
     authenticate verify
       (Some (String.append scheme (String " " (String.append token (String " " rest)))))
     = authenticate verify (Some (String.append scheme (String " " token)))) /\
  authenticate verify (Some (String.append scheme (String " " token)))
  = (if negb (truthy_string (Some token)) then NoToken
     else match verify token with
          | Some user => Bearer user
          | None => InvalidToken
          end) /\
  authenticate verify (Some scheme) = NoToken /\
  authenticate verify None = NoToken.
Proof.
  intros Hs Ht.
  assert (Htok : forall tail,
            (exists l, split_space tail = token :: l) ->
            header_token (Some (String.append scheme (String " " tail)))
            = Some token).
  { intros tail [l Hl]. unfold header_token.
    destruct (String.append scheme (String " " tail)) as [|c0 s0] eqn:E.
    - destruct scheme; rewrite ?append_cons in E; discriminate E.
    - rewrite <- E, (split_space_append _ _ Hs), Hl. reflexivity. }
  assert (H1 : header_token (Some (String.append scheme (String " " token)))
               = Some token).
  { apply Htok. exists []. apply split_space_no_space. exact Ht. }
  split; [|split; [|split]].
  - intros rest. unfold authenticate. rewrite H1.
    rewrite (Htok (String.append token (String " " rest))); [reflexivity|].
    exists (split_space rest). apply split_space_append. exact Ht.
  - unfold authenticate. rewrite H1. reflexivity.
  - unfold authenticate, header_token. destruct scheme as [|c s]; [reflexivity|].
    rewrite (split_space_no_space _ Hs). reflexivity.
  - reflexivity.
Qed.

Lemma authenticate_second_word_witness :
  authenticate example_verify (Some "Token eyJhbGciOi.alice")
  = Bearer (mkClaims 1 "alice@example.com" false) /\
  authenticate example_verify (Some "Bearer") = NoToken.
Proof.
  destruct (authenticate_second_word example_verify "Token" "eyJhbGciOi.alice"
              eq_refl eq_refl) as (_ & H & Hn & _).
  split; [exact H|]. 
  exact (proj1 (proj2 (proj2 (authenticate_second_word example_verify "Bearer" ""
                                eq_refl eq_refl)))).
Defined.

(** ** Authentication and the admin guard *)

Lemma requireAdmin_refuses a :
  match a with Bearer user => isAdmin user = false | _ => True end ->
  exists r, requireAdmin a = inl r /\
            (status r = 401%nat \/ status r = 403%nat) /\ is_error r.
Proof.
  destruct a as [| |user]; simpl; intros H.
  - eexists. split; [reflexivity|]. split; [left; reflexivity|].
    apply is_error_fail. lia.
  - eexists. split; [reflexivity|]. split; [right; reflexivity|].
    apply is_error_fail. lia.
  - unfold requireAdmin. simpl. rewrite H.
    eexists. split; [reflexivity|]. split; [right; reflexivity|].
    apply is_error_fail. lia.
Qed.

(** X4: a request to an admin route without a token, with a token that
    does not verify, or with the token of an account that is not an admin
    is answered with the same 401 or 403 error by every admin handler, and
    neither the database nor the SMS log changes and no SMS is sent. *)
Theorem admin_routes_guarded a st :
  match a with Bearer user => isAdmin user = false | _ => True end ->
  exists r,
    (status r = 401%nat \/ status r = 403%nat) /\ is_error r /\
    admin_users a st = (r, st) /\
    admin_stats a st = Refused r /\
    (forall req now, credit_user a req now st = (r, st)) /\
    (forall tid now, approve_withdrawal a tid now st = (r, st)) /\
    (forall tid reason now, reject_withdrawal a tid reason now st = (r, st)) /\
    (forall req now, update_settings a req now st = (r, st)) /\
    (forall post n message now smslogs,
       send_sms_all post n a message now st smslogs = (Refused r, smslogs)).
Proof.
  intros H. destruct (requireAdmin_refuses a H) as (r & Hr & Hs & He).
  exists r. split; [exact Hs|]. split; [exact He|].
  unfold admin_users, admin_stats, credit_user, approve_withdrawal,
    reject_withdrawal, update_settings, send_sms_all.
  rewrite Hr. repeat split.
Qed.

Lemma admin_routes_guarded_witness :
  exists r,
    status r = 403%nat /\
    (forall req now, credit_user alice_token req now example_db = (r, example_db)) /\
    (forall tid now, approve_withdrawal alice_token tid now withdrawal_db
                     = (r, withdrawal_db)).
Proof.
  destruct (admin_routes_guarded alice_token example_db eq_refl)
    as (r & Hs & _ & Hu & _ & Hc & _).
  destruct (admin_routes_guarded alice_token withdrawal_db eq_refl)
    as (r' & _ & _ & Hu' & _ & _ & Ha & _).
  exists r. injection Hu as <-. injection Hu' as <-.
  split; [reflexivity|]. split; [exact Hc | exact Ha].
Defined.

Lemma findOne_email_Some (e : string) (m : gmap positive User.t) i u :
  findOne_email e m = Some (i, u) -> m !! i = Some u /\ User.email u = e.
Proof.
  unfold findOne_email. intros F.
  apply List.find_some in F as [Hin Heq]. simpl in Heq.
  apply String.eqb_eq in Heq.
  apply list_elem_of_In, elem_of_map_to_list in Hin. auto.
Qed.

Lemma findOne_email_taken (e : string) (m : gmap positive User.t) i u :
  m !! i = Some u -> User.email u = e ->
  exists p, findOne_email e m = Some p.
Proof.
  intros Hl He. unfold findOne_email.
  destruct (List.find _ _) as [p|] eqn:F; [eauto|].
  exfalso.
  pose proof (List.find_none _ _ F (i, u)) as Hn. simpl in Hn.
  rewrite He, String.eqb_refl in Hn.
  assert (Hin : In (i, u) (map_to_list m))
    by (apply list_elem_of_In, elem_of_map_to_list; exact Hl).
  specialize (Hn Hin). discriminate.
Qed.

(** X5: a login either is refused, with the same 400 answer whether the
    email is unknown or the password wrong and without any change, or it
    stamps [lastLogin] on an account that has this email and whose hash
    matches the password, and changes nothing else: the balance, the admin
    flag and the hash of that account stay, and the token carries its id,
    email and admin flag. *)
Theorem login_outcomes bcrypt_compare email password now st :
  (fst (login bcrypt_compare email password now st)
     = Refused (fail 400 "Invalid credentials") /\
   snd (login bcrypt_compare email password now st) = st /\
   (forall i u, findOne_email email (users st) = Some (i, u) ->
      bcrypt_compare password (User.password u) = false)) \/
  (exists i u,
     users st !! i = Some u /\ User.email u = email /\
     bcrypt_compare password (User.password u) = true /\
     fst (login bcrypt_compare email password now st)
       = LoggedIn i email (User.phone u) (User.balance u) (User.isAdmin u)
           (mkClaims i email (User.isAdmin u)) /\
     snd (login bcrypt_compare email password now st)
       = set_users st (<[i := set_lastLogin u now]> (users st)) /\
     User.balance (set_lastLogin u now) = User.balance u /\
     User.isAdmin (set_lastLogin u now) = User.isAdmin u /\
     User.password (set_lastLogin u now) = User.password u).
Proof.
  unfold login.
  destruct (findOne_email email (users st)) as [[i u]|] eqn:F.
  - destruct (findOne_email_Some _ _ _ _ F) as [Hl He].
    destruct (bcrypt_compare password (User.password u)) eqn:C; simpl.
    + right. exists i, u. subst email. repeat split; assumption.
    + left. split; [reflexivity|]. split; [reflexivity|].
      intros i' u' [= <- <-]. exact C.
  - left. split; [reflexivity|]. split; [reflexivity|]. discriminate.
Qed.

(** ** Signup *)

Lemma signup_email_taken req hashedPassword now st i u :
  truthy_string (su_email req) = true ->
  truthy_string (su_password req) = true ->
  truthy_string (su_phone req) = true ->
  users st !! i = Some u -> Some (User.email u) = su_email req ->
  signup req hashedPassword now st = (fail 400 "Email already exists", st).
Proof.
  intros He Hp Hph Hl Hu. unfold signup. rewrite He, Hp, Hph. simpl.
  rewrite <- Hu. simpl.
  destruct (findOne_email_taken (User.email u) (users st) i u Hl eq_refl)
    as [p Hf].
  rewrite Hf. reflexivity.
Qed.

(** X6: a signup in which the email, the password or the phone is absent
    or empty is answered with 400 and creates nothing; so is a complete
    signup whose email an account already has. *)
Theorem signup_refused req hashedPassword now st :
  (su_email req = None \/ su_email req = Some EmptyString \/
   su_password req = None \/ su_password req = Some EmptyString \/
   su_phone req = None \/ su_phone req = Some EmptyString ->
   signup req hashedPassword now st = (fail 400 "All fields are required", st)) /\
  (forall i u,
     truthy_string (su_email req) = true ->
     truthy_string (su_password req) = true ->
     truthy_string (su_phone req) = true ->
     users st !! i = Some u -> Some (User.email u) = su_email req ->
     signup req hashedPassword now st = (fail 400 "Email already exists", st)).
Proof.
  split.
  - unfold signup.
    intros [H|[H|[H|[H|[H|H]]]]]; rewrite H; simpl;
      try reflexivity;
      destruct (truthy_string (su_email req)); simpl; try reflexivity;
      destruct (truthy_string (su_password req)); reflexivity.
  - intros i u. apply signup_email_taken.
Qed.

(** X7: after a signup that succeeded, a second signup with the same
    email, whatever its password and phone, is answered with 400 "Email
    already exists" and changes nothing. *)
Theorem signup_twice req hashedPassword now st req2 hashedPassword2 now2 :
  status (fst (signup req hashedPassword now st)) = 200%nat ->
  su_email req2 = su_email req ->
  truthy_string (su_password req2) = true ->
  truthy_string (su_phone req2) = true ->
  signup req2 hashedPassword2 now2 (snd (signup req hashedPassword now st))
  = (fail 400 "Email already exists", snd (signup req hashedPassword now st)).
Proof.
  intros Hok He Hp Hph.
  assert (Hcreated :
    truthy_string (su_email req) = true /\
    exists i u, users (snd (signup req hashedPassword now st)) !! i = Some u /\
                Some (User.email u) = su_email req).
  { revert Hok. unfold signup.
    destruct (truthy_string (su_email req)) eqn:E1; simpl; [|discriminate].
    destruct (truthy_string (su_password req)); simpl; [|discriminate].
    destruct (truthy_string (su_phone req)); simpl; [|discriminate].
    destruct (findOne_email _ _); simpl; [discriminate|].
    intros _. split; [reflexivity|].
    eexists _, _. split; [apply lookup_insert_eq|].
    destruct (su_email req); [reflexivity | discriminate E1]. }
  destruct Hcreated as (Ht & i & u & Hl & Hu).
  apply (signup_email_taken req2 hashedPassword2 now2
           (snd (signup req hashedPassword now st)) i u);
    try assumption; rewrite He; assumption.
Qed.

Lemma signup_twice_witness :
  signup (mkSignup (Some "bob@example.com") (Some "other") (Some "0244222222"))
         "$2a$10$other" 5
         (snd (signup (mkSignup (Some "bob@example.com") (Some "secret")
                         (Some "0244111111")) "$2a$10$hash" 4 example_db))
  = (fail 400 "Email already exists",
     snd (signup (mkSignup (Some "bob@example.com") (Some "secret")
                    (Some "0244111111")) "$2a$10$hash" 4 example_db)).
Proof.
  apply (signup_twice
           (mkSignup (Some "bob@example.com") (Some "secret") (Some "0244111111"))
           "$2a$10$hash" 4 example_db
           (mkSignup (Some "bob@example.com") (Some "other") (Some "0244222222"))
           "$2a$10$other" 5); reflexivity.
Defined.

(** ** Withdrawals *)

Lemma positive_amount_passes (q : Q) :
  (0 < q)%Q -> negb (truthy_number (Some q)) || Qle_bool q 0 = false.
Proof.
  intros H. apply orb_false_iff. split.
  - simpl. rewrite negb_involutive.
    destruct (Qeq_bool q 0) eqn:E; [|reflexivity].
    apply Qeq_bool_iff in E. rewrite E in H. discriminate H.
  - destruct (Qle_bool q 0) eqn:E; [|reflexivity].
    apply Qle_bool_iff in E. exfalso. exact (Qlt_not_le _ _ H E).
Qed.

Lemma nonpositive_amount_fails (q : Q) :
  (q <= 0)%Q -> negb (truthy_number (Some q)) || Qle_bool q 0 = true.
Proof.
  intros H. apply orb_true_iff. right. apply Qle_bool_iff. exact H.
Qed.

(** The answer of [request_withdrawal] to a verified account that asks for
    a positive amount. *)
Lemma request_withdrawal_positive claims user amount now st :
  users st !! id claims = Some user -> (0 < amount)%Q ->
  request_withdrawal (Bearer claims) (Some amount) now st
  = if Qltb (User.balance user) amount
    then (fail 400 "Insufficient balance", st)
    else
      (json (WithdrawalRequested
               "Withdrawal request submitted. You will receive an SMS when processed."
               (new_id (transactions st))
               (Transaction.mk (id claims) Transaction.withdrawal amount
                  Transaction.pending (Some (Transaction.WTH now (id claims)))
                  now None None)),
       set_transactions st
         (<[new_id (transactions st) :=
              Transaction.mk (id claims) Transaction.withdrawal amount
                Transaction.pending (Some (Transaction.WTH now (id claims)))
                now None None]> (transactions st))).
Proof.
  intros Hu Hpos. unfold request_withdrawal. cbn [authenticateToken].
  rewrite (positive_amount_passes _ Hpos), Hu. reflexivity.
Qed.

(** X8: a verified account that asks to withdraw a positive amount not
    above its balance gets one new ledger entry of type withdrawal, status
    pending, with that amount, its id and a reference built from the time
    and the id; the entry has a new id, and no balance and no other entry
    changes. *)
Theorem request_withdrawal_accepted claims user amount now st :
  users st !! id claims = Some user ->
  (0 < amount)%Q -> (amount <= User.balance user)%Q ->
  exists _id,
    transactions st !! _id = None /\
    request_withdrawal (Bearer claims) (Some amount) now st
    = (json (WithdrawalRequested
               "Withdrawal request submitted. You will receive an SMS when processed."
               _id
               (Transaction.mk (id claims) Transaction.withdrawal amount
                  Transaction.pending (Some (Transaction.WTH now (id claims)))
                  now None None)),
       set_transactions st
         (<[_id :=
              Transaction.mk (id claims) Transaction.withdrawal amount
                Transaction.pending (Some (Transaction.WTH now (id claims)))
                now None None]> (transactions st))) /\
    users (snd (request_withdrawal (Bearer claims) (Some amount) now st))
    = users st.
Proof.
  intros Hu Hpos Hle. exists (new_id (transactions st)).
  split; [apply new_id_fresh|].
  rewrite (request_withdrawal_positive claims user amount now st Hu Hpos).
  apply Qltb_ge in Hle. rewrite Hle. split; reflexivity.
Qed.

Lemma request_withdrawal_accepted_witness :
  exists _id,
    transactions example_db !! _id = None /\
    users (snd (request_withdrawal alice_token (Some 20%Q) 3 example_db))
    = users example_db.
Proof.
  destruct (request_withdrawal_accepted (mkClaims 1 "alice@example.com" false)
              alice 20%Q 3 example_db eq_refl eq_refl)
    as (_id & Hf & _ & Hu).
  - discriminate.
  - exists _id. split; [exact Hf | exact Hu].
Defined.

(** What a request with status 200 went through. *)
Lemma request_withdrawal_ok a amount now st :
  status (fst (request_withdrawal a amount now st)) = 200%nat ->
  exists claims user q,
    a = Bearer claims /\ amount = Some q /\ users st !! id claims = Some user /\
    (0 < q)%Q /\ (q <= User.balance user)%Q.
Proof.
  unfold request_withdrawal.
  destruct a as [| |claims]; simpl; try discriminate.
  destruct amount as [q|]; simpl; [|discriminate].
  destruct (negb (negb (Qeq_bool q 0)) || Qle_bool q 0) eqn:Hv; simpl;
    [discriminate|].
  apply orb_false_iff in Hv as [_ Hpos].
  destruct (users st !! id claims) as [user|] eqn:Hu; simpl; [|discriminate].
  destruct (Qltb (User.balance user) q) eqn:Hb; simpl; [discriminate|].
  intros _. exists claims, user, q.
  split; [reflexivity|]. split; [reflexivity|]. split; [exact Hu|]. split.
  - apply Qnot_le_lt. intros Hle. apply Qle_bool_iff in Hle. congruence.
  - apply Qltb_ge. exact Hb.
Qed.

(** X9: a withdrawal request places no hold: a request that was accepted
    leaves every balance as it was, so the same request is accepted again
    on the resulting database, whatever the amounts already pending. *)
Theorem request_withdrawal_no_hold a amount now st now2 :
  status (fst (request_withdrawal a amount now st)) = 200%nat ->
  users (snd (request_withdrawal a amount now st)) = users st /\
  status (fst (request_withdrawal a amount now2
                 (snd (request_withdrawal a amount now st)))) = 200%nat /\
  exists id1 id2 t1 t2,
    id1 <> id2 /\
    transactions (snd (request_withdrawal a amount now2
                         (snd (request_withdrawal a amount now st)))) !! id1
      = Some t1 /\
    transactions (snd (request_withdrawal a amount now2
                         (snd (request_withdrawal a amount now st)))) !! id2
      = Some t2 /\
    transactions st !! id1 = None /\ transactions st !! id2 = None /\
    Transaction.status t1 = Transaction.pending /\
    Transaction.status t2 = Transaction.pending /\
    Some (Transaction.amount t1) = amount /\
    Some (Transaction.amount t2) = amount.
Proof.
  intros Hok.
  destruct (request_withdrawal_ok a amount now st Hok)
    as (claims & user & q & -> & -> & Hu & Hpos & Hle).
  pose proof (request_withdrawal_positive claims user q now st Hu Hpos) as H1.
  pose proof Hle as Hle'. apply Qltb_ge in Hle'. rewrite Hle' in H1.
  rewrite H1. cbn [fst snd].
  set (t1 := Transaction.mk (id claims) Transaction.withdrawal q
               Transaction.pending (Some (Transaction.WTH now (id claims)))
               now None None) in *.
  set (st1 := set_transactions st (<[new_id (transactions st) := t1]> (transactions st))).
  pose proof (request_withdrawal_positive claims user q now2 st1 Hu Hpos) as H2.
  rewrite Hle' in H2. rewrite H2. cbn [fst snd].
  split; [reflexivity|]. split; [reflexivity|].
  set (t2 := Transaction.mk (id claims) Transaction.withdrawal q
               Transaction.pending (Some (Transaction.WTH now2 (id claims)))
               now2 None None) in *.
  exists (new_id (transactions st)), (new_id (transactions st1)), t1, t2.
  assert (Hne : new_id (transactions st) <> new_id (transactions st1)).
  { intros E. pose proof (new_id_fresh (transactions st1)) as Hf.
    rewrite <- E in Hf. unfold st1 in Hf. simpl in Hf.
    rewrite lookup_insert_eq in Hf. discriminate. }
  split; [exact Hne|].
  change (transactions (set_transactions st1
            (<[new_id (transactions st1) := t2]> (transactions st1))))
    with (<[new_id (transactions st1) := t2]> (transactions st1)).
  split.
  { rewrite lookup_insert_ne by (intros E; apply Hne; symmetry; exact E).
    unfold st1. simpl. apply lookup_insert_eq. }
  split; [apply lookup_insert_eq|].
  split; [apply new_id_fresh|].
  split.
  - destruct (transactions st !! new_id (transactions st1)) as [x|] eqn:Hx;
      [|reflexivity].
    assert (Hx1 : transactions st1 !! new_id (transactions st1) = Some x).
    { unfold st1. simpl. rewrite lookup_insert_ne by exact Hne. exact Hx. }
    rewrite new_id_fresh in Hx1. discriminate.
  - repeat split.
Qed.

Lemma request_withdrawal_no_hold_witness :
  users (snd (request_withdrawal alice_token (Some 40%Q) 3 example_db))
    = users example_db /\
  status (fst (request_withdrawal alice_token (Some 40%Q) 4
                 (snd (request_withdrawal alice_token (Some 40%Q) 3 example_db))))
    = 200%nat.
Proof.
  destruct (request_withdrawal_no_hold alice_token (Some 40%Q) 3 example_db 4
              eq_refl) as (Hu & Hs & _).
  split; [exact Hu | exact Hs].
Defined.

(** X10: a withdrawal request of a verified account is refused with 400
    and changes nothing when the amount is absent, zero or negative, and
    when it is above the balance of the account. *)
Theorem request_withdrawal_refused claims now st :
  request_withdrawal (Bearer claims) None now st = (fail 400 "Invalid amount", st) /\
  (forall amount, (amount <= 0)%Q ->
     request_withdrawal (Bearer claims) (Some amount) now st
     = (fail 400 "Invalid amount", st)) /\
  (forall amount user,
     users st !! id claims = Some user -> (0 < amount)%Q ->
     (User.balance user < amount)%Q ->
     request_withdrawal (Bearer claims) (Some amount) now st
     = (fail 400 "Insufficient balance", st)).
Proof.
  split; [reflexivity|]. split.
  - intros amount Hle. unfold request_withdrawal. cbn [authenticateToken].
    rewrite (nonpositive_amount_fails _ Hle). reflexivity.
  - intros amount user Hu Hpos Hlt.
    rewrite (request_withdrawal_positive claims user amount now st Hu Hpos).
    apply Qltb_lt in Hlt. rewrite Hlt. reflexivity.
Qed.

(** An approval that is refused in exact arithmetic is refused in double
    arithmetic, with the same answer and the same database. *)
Lemma approve_withdrawal64_refusal a tid now st :
  status (fst (approve_withdrawal a tid now st)) <> 200%nat ->
  approve_withdrawal64 a tid now st = Some (approve_withdrawal a tid now st).
Proof.
  unfold approve_withdrawal64, approve_withdrawal.
  destruct (requireAdmin a); [reflexivity|].
  destruct (findById tid (transactions st)) as [[j t]|]; [|reflexivity].
  destruct (negb _); [reflexivity|].
  destruct (users st !! Transaction.userId t) as [user|]; [|reflexivity].
  destruct (Qltb _ _); [reflexivity|].
  simpl. intros H. exfalso. apply H. reflexivity.
Qed.

(** The entry [t] as an approve stamps it, and the balance that is left. *)
Lemma approve_withdrawal64_admin a claims tid now st t user :
  requireAdmin a = inr claims ->
  transactions st !! tid = Some t ->
  Transaction.status t = Transaction.pending ->
  users st !! Transaction.userId t = Some user ->
  approve_withdrawal64 a (Some tid) now st
  = if Qltb (User.balance user) (Transaction.amount t)
    then Some (fail 400 "User has insufficient balance", st)
    else
      match sub64 (User.balance user) (Transaction.amount t) with
      | Some balance =>
          Some (json (Message "Withdrawal approved successfully"),
                mkState
                  (<[Transaction.userId t := User.set_balance user balance]>
                     (users st))
                  (<[tid :=
                       Transaction.mk (Transaction.userId t) (Transaction.type t)
                         (Transaction.amount t) Transaction.approved
                         (Transaction.reference t) (Transaction.createdAt t)
                         (Some now) (Some (id claims))]> (transactions st))
                  (gamehistories st) (gamesettings st))
      | None => None
      end.
Proof.
  intros Ha Ht Hp Hu. unfold approve_withdrawal64.
  rewrite Ha. cbn [findById]. rewrite Ht, Hp. cbn [Transaction.is_pending negb].
  rewrite Hu. destruct (Qltb _ _); [reflexivity|].
  destruct (sub64 _ _); reflexivity.
Qed.

(** X11: an admin who approves a pending entry whose amount the balance
    of its account covers replaces that balance by the double nearest to
    the balance minus the amount, which is not negative, and turns the
    entry into approved, stamped with the time and the id of the admin;
    amount, type, owner and reference of the entry stay, and so do all
    other accounts and entries. *)
Theorem approve_withdrawal64_debits a claims tid now st t user balance :
  requireAdmin a = inr claims ->
  transactions st !! tid = Some t ->
  Transaction.status t = Transaction.pending ->
  users st !! Transaction.userId t = Some user ->
  (Transaction.amount t <= User.balance user)%Q ->
  sub64 (User.balance user) (Transaction.amount t) = Some balance ->
  exists st',
    approve_withdrawal64 a (Some tid) now st
    = Some (json (Message "Withdrawal approved successfully"), st') /\
    users st' !! Transaction.userId t = Some (User.set_balance user balance) /\
    (0 <= balance)%Q /\
    transactions st' !! tid
    = Some (Transaction.mk (Transaction.userId t) (Transaction.type t)
              (Transaction.amount t) Transaction.approved
              (Transaction.reference t) (Transaction.createdAt t) (Some now)
              (Some (id claims))) /\
    (forall j, j <> Transaction.userId t -> users st' !! j = users st !! j) /\
    (forall j, j <> tid -> transactions st' !! j = transactions st !! j) /\
    gamehistories st' = gamehistories st /\ gamesettings st' = gamesettings st.
Proof.
  intros Ha Ht Hp Hu Hle Hb.
  rewrite (approve_withdrawal64_admin a claims tid now st t user Ha Ht Hp Hu).
  pose proof Hle as Hle'. apply Qltb_ge in Hle'. rewrite Hle', Hb.
  eexists. split; [reflexivity|].
  cbn [users transactions gamehistories gamesettings].
  split; [apply lookup_insert_eq|]. split; [exact (sub64_nonneg _ _ _ Hle Hb)|].
  split; [apply lookup_insert_eq|].
  split; [intros j Hj; apply lookup_insert_ne; congruence|].
  split; [intros j Hj; apply lookup_insert_ne; congruence|].
  split; reflexivity.
Qed.

(** A withdrawal of 0.1 from a balance of 0.8 leaves
    0.7000000000000001. *)
Lemma approve_withdrawal64_debits_witness :
  exists st',
    approve_withdrawal64 root_token (Some 5%positive) 9 cents_db
    = Some (json (Message "Withdrawal approved successfully"), st') /\
    users st' !! 1%positive
    = Some (User.set_balance bob (literal "0.7000000000000001")) /\
    (0 <= literal "0.7000000000000001")%Q.
Proof.
  destruct (approve_withdrawal64_debits root_token
              (mkClaims 2 "admin@example.com" true) 5%positive 9 cents_db
              dime bob (literal "0.7000000000000001")
              eq_refl eq_refl eq_refl eq_refl)
    as (st' & H & Hu & Hnn & _).
  - vm_compute. discriminate.
  - vm_compute. reflexivity.
  - exists st'. split; [exact H|]. split; [exact Hu | exact Hnn].
Defined.

(** X12: two pending entries of one account, the first within its
    balance: once the first is approved, the approval of the second goes
    through exactly when the balance that was stored, the rounded
    difference, covers it, and is otherwise refused with the database
    unchanged; the balance after the second approval is not negative. *)
Theorem approve_withdrawal64_twice a claims tid1 tid2 now now2 st t1 t2 user left :
  requireAdmin a = inr claims ->
  tid1 <> tid2 ->
  transactions st !! tid1 = Some t1 -> transactions st !! tid2 = Some t2 ->
  Transaction.status t1 = Transaction.pending ->
  Transaction.status t2 = Transaction.pending ->
  Transaction.userId t2 = Transaction.userId t1 ->
  users st !! Transaction.userId t1 = Some user ->
  (Transaction.amount t1 <= User.balance user)%Q ->
  sub64 (User.balance user) (Transaction.amount t1) = Some left ->
  exists st1,
    approve_withdrawal64 a (Some tid1) now st
    = Some (json (Message "Withdrawal approved successfully"), st1) /\
    users st1 !! Transaction.userId t1 = Some (User.set_balance user left) /\
    (forall final,
       (Transaction.amount t2 <= left)%Q ->
       sub64 left (Transaction.amount t2) = Some final ->
       exists st2,
         approve_withdrawal64 a (Some tid2) now2 st1
         = Some (json (Message "Withdrawal approved successfully"), st2) /\
         users st2 !! Transaction.userId t1 = Some (User.set_balance user final) /\
         (0 <= final)%Q) /\
    ((left < Transaction.amount t2)%Q ->
       approve_withdrawal64 a (Some tid2) now2 st1
       = Some (fail 400 "User has insufficient balance", st1)).
Proof.
  intros Ha Hne H1 H2 Hp1 Hp2 Hsame Hu Hle Hleft.
  pose proof (approve_withdrawal64_admin a claims tid1 now st t1 user Ha H1 Hp1 Hu)
    as Hfirst.
  pose proof Hle as Hle'. apply Qltb_ge in Hle'. rewrite Hle', Hleft in Hfirst.
  eexists. split; [exact Hfirst|].
  set (st1 := mkState _ _ _ _).
  assert (H2' : transactions st1 !! tid2 = Some t2).
  { subst st1. simpl. rewrite lookup_insert_ne by exact Hne. exact H2. }
  assert (Hu' : users st1 !! Transaction.userId t2
                = Some (User.set_balance user left)).
  { subst st1. rewrite Hsame. simpl. apply lookup_insert_eq. }
  pose proof (approve_withdrawal64_admin a claims tid2 now2 st1 t2
                (User.set_balance user left) Ha H2' Hp2 Hu') as Hsecond.
  cbn [User.set_balance User.balance] in Hsecond.
  split; [rewrite <- Hsame; exact Hu'|]. split.
  - intros final Hcov Hfinal. pose proof Hcov as Hcov'. apply Qltb_ge in Hcov'.
    rewrite Hcov', Hfinal in Hsecond. eexists. split; [exact Hsecond|].
    cbn [users]. split.
    + rewrite Hsame. rewrite lookup_insert_eq. reflexivity.
    + exact (sub64_nonneg _ _ _ Hcov Hfinal).
  - intros Hlt. apply Qltb_lt in Hlt. rewrite Hlt in Hsecond. exact Hsecond.
Qed.

(** Withdrawals of 0.1 and of 0.7000000000000001 against a balance of 0.8:
    the first leaves 0.8 - 0.1 = 0.7000000000000001, so the second is
    approved as well and leaves 0. *)
Lemma approve_withdrawal64_twice_witness :
  exists st1 st2,
    approve_withdrawal64 root_token (Some 5%positive) 9 cents_db
    = Some (json (Message "Withdrawal approved successfully"), st1) /\
    approve_withdrawal64 root_token (Some 6%positive) 10 st1
    = Some (json (Message "Withdrawal approved successfully"), st2) /\
    users st2 !! 1%positive = Some (User.set_balance bob 0).
Proof.
  destruct (approve_withdrawal64_twice root_token
              (mkClaims 2 "admin@example.com" true) 5%positive 6%positive 9 10
              cents_db dime rest bob (literal "0.7000000000000001")
              eq_refl ltac:(discriminate) eq_refl eq_refl eq_refl eq_refl
              eq_refl eq_refl ltac:(vm_compute; discriminate)
              ltac:(vm_compute; reflexivity))
    as (st1 & H1 & _ & Hcov & _).
  destruct (Hcov 0%Q ltac:(vm_compute; discriminate) ltac:(vm_compute; reflexivity))
    as (st2 & H2 & Hu & _).
  exists st1, st2. split; [exact H1|]. split; [exact H2 | exact Hu].
Defined.

(** X13: an admin who rejects a pending entry turns it into rejected,
    stamped with the time and the id of the admin, with the reason as
    reference, or "Rejected by admin" when the reason is absent or empty;
    no balance changes, and no other entry. *)
Theorem reject_withdrawal_marks a claims tid reason now st t :
  requireAdmin a = inr claims ->
  transactions st !! tid = Some t ->
  Transaction.status t = Transaction.pending ->
  reject_withdrawal a (Some tid) reason now st
  = (json (Message "Withdrawal rejected"),
     set_transactions st
       (<[tid :=
            Transaction.mk (Transaction.userId t) (Transaction.type t)
              (Transaction.amount t) Transaction.rejected
              (Some (Transaction.Text
                       (match reason with
                        | Some (String c r) => String c r
                        | _ => "Rejected by admin"
                        end)))
              (Transaction.createdAt t) (Some now) (Some (id claims))]>
          (transactions st))) /\
  users (snd (reject_withdrawal a (Some tid) reason now st)) = users st /\
  (forall j, j <> tid ->
     transactions (snd (reject_withdrawal a (Some tid) reason now st)) !! j
     = transactions st !! j).
Proof.
  intros Ha Ht Hp.
  assert (H : reject_withdrawal a (Some tid) reason now st
    = (json (Message "Withdrawal rejected"),
       set_transactions st
         (<[tid :=
              Transaction.mk (Transaction.userId t) (Transaction.type t)
                (Transaction.amount t) Transaction.rejected
                (Some (Transaction.Text
                         (match reason with
                          | Some (String c r) => String c r
                          | _ => "Rejected by admin"
                          end)))
                (Transaction.createdAt t) (Some now) (Some (id claims))]>
            (transactions st)))).
  { unfold reject_withdrawal. rewrite Ha. cbn [findById]. rewrite Ht, Hp.
    cbn [Transaction.is_pending negb].
    destruct reason as [[|c r]|]; reflexivity. }
  rewrite H. cbn [fst snd]. split; [reflexivity|]. split; [reflexivity|].
  intros j Hj. simpl. apply lookup_insert_ne. congruence.
Qed.

Lemma reject_withdrawal_marks_witness :
  users (snd (reject_withdrawal root_token (Some 5%positive) (Some "KYC") 9
                withdrawal_db))
  = users withdrawal_db.
Proof.
  exact (proj1 (proj2 (reject_withdrawal_marks root_token
                         (mkClaims 2 "admin@example.com" true) 5%positive
                         (Some "KYC") 9 withdrawal_db pending_withdrawal
                         eq_refl eq_refl eq_refl))).
Defined.

(** ** Credits *)

(** A credit that is refused in exact arithmetic is refused in double
    arithmetic, with the same answer and the same database. *)
Lemma credit_user64_refusal a req now st :
  status (fst (credit_user a req now st)) <> 200%nat ->
  credit_user64 a req now st = Some (credit_user a req now st).
Proof.
  unfold credit_user64, credit_user.
  destruct (requireAdmin a); [reflexivity|].
  destruct (cr_userId req) as [userId|]; [|reflexivity].
  destruct (cr_amount req) as [amount|]; [|reflexivity].
  destruct (_ || _); [reflexivity|].
  destruct (users st !! userId) as [user|]; [|reflexivity].
  simpl. intros H. exfalso. apply H. reflexivity.
Qed.

(** X14: an admin who credits an existing account with a positive amount
    replaces its balance by the double nearest to the balance plus the
    amount, answers with the new balance, and adds one completed ledger
    entry of type credit with the amount, the id of the admin and the
    reason, or "Admin credit" when the reason is absent or empty; nothing
    else changes. *)
Theorem credit_user64_credits a claims req now st userId amount user balance :
  requireAdmin a = inr claims ->
  cr_userId req = Some userId -> cr_amount req = Some amount ->
  (0 < amount)%Q -> users st !! userId = Some user ->
  add64 (User.balance user) amount = Some balance ->
  exists _id,
    transactions st !! _id = None /\
    credit_user64 a req now st
    = Some (json (Credited "User credited successfully" balance),
            mkState
              (<[userId := User.set_balance user balance]> (users st))
              (<[_id :=
                   Transaction.mk userId Transaction.credit amount
                     Transaction.completed
                     (Some (Transaction.Text
                              (match cr_reason req with
                               | Some (String c r) => String c r
                               | _ => "Admin credit"
                               end)))
                     now (Some now) (Some (id claims))]> (transactions st))
              (gamehistories st) (gamesettings st)).
Proof.
  intros Ha Hid Ham Hpos Hu Hb. exists (new_id (transactions st)).
  split; [apply new_id_fresh|].
  unfold credit_user64. rewrite Ha, Hid, Ham.
  rewrite (positive_amount_passes _ Hpos), Hu, Hb.
  destruct (cr_reason req) as [[|c r]|]; reflexivity.
Qed.

(** A credit of 0.1 on a balance of 0.7 answers 0.7999999999999999. *)
Lemma credit_user64_credits_witness :
  exists _id,
    transactions cents_db !! _id = None /\
    fst <$> credit_user64 root_token
              (mkCredit (Some 3%positive) (Some (literal "0.1")) None) 8 cents_db
    = Some (json (Credited "User credited successfully"
                    (literal "0.7999999999999999"))).
Proof.
  destruct (credit_user64_credits root_token (mkClaims 2 "admin@example.com" true)
              (mkCredit (Some 3%positive) (Some (literal "0.1")) None) 8 cents_db
              3%positive (literal "0.1") carol (literal "0.7999999999999999")
              eq_refl eq_refl eq_refl eq_refl eq_refl ltac:(vm_compute; reflexivity))
    as (_id & Hf & H).
  exists _id. split; [exact Hf|]. rewrite H. reflexivity.
Defined.

(** X15: a credit by an admin is refused without any change when the
    account id or the amount is absent, when the amount is zero or
    negative (400), and when no account has the id (404). *)
Theorem credit_user_refused a claims req now st :
  requireAdmin a = inr claims ->
  (cr_userId req = None \/ cr_amount req = None \/
   (exists amount, cr_amount req = Some amount /\ (amount <= 0)%Q) ->
   credit_user a req now st = (fail 400 "Invalid parameters", st)) /\
  (forall userId amount,
     cr_userId req = Some userId -> cr_amount req = Some amount ->
     (0 < amount)%Q -> users st !! userId = None ->
     credit_user a req now st = (fail 404 "User not found", st)).
Proof.
  intros Ha. split.
  - unfold credit_user. rewrite Ha.
    intros [H|[H|(amount & H & Hle)]].
    + rewrite H. reflexivity.
    + rewrite H. destruct (cr_userId req); reflexivity.
    + rewrite H. destruct (cr_userId req); [|reflexivity].
      rewrite (nonpositive_amount_fails _ Hle). reflexivity.
  - intros userId amount Hid Ham Hpos Hu.
    unfold credit_user. rewrite Ha, Hid, Ham.
    rewrite (positive_amount_passes _ Hpos), Hu. reflexivity.
Qed.

Lemma credit_user_refused_witness :
  credit_user root_token (mkCredit (Some 1%positive) (Some (-5)%Q) None) 8 example_db
  = (fail 400 "Invalid parameters", example_db) /\
  credit_user root_token (mkCredit (Some 7%positive) (Some 5%Q) None) 8 example_db
  = (fail 404 "User not found", example_db).
Proof.
  split.
  - apply (proj1 (credit_user_refused root_token
                    (mkClaims 2 "admin@example.com" true)
                    (mkCredit (Some 1%positive) (Some (-5)%Q) None) 8 example_db
                    eq_refl)).
    right. right. exists (-5)%Q. split; [reflexivity | discriminate].
  - apply (proj2 (credit_user_refused root_token
                    (mkClaims 2 "admin@example.com" true)
                    (mkCredit (Some 7%positive) (Some 5%Q) None) 8 example_db
                    eq_refl) 7%positive 5%Q); reflexivity.
Defined.

(** ** More on the wager *)

(** X16: a game-play request of a verified account without a bet, with a
    bet that is zero or negative, without guesses, or with a number of
    guesses other than three is answered with 400 "Invalid game
    parameters" before anything is read or written: the database, the
    settings document included, is unchanged. *)
Theorem play_invalid_parameters claims req r0 r1 r2 now st :
  pl_bet req = None \/ pl_guesses req = None \/
  (exists bet, pl_bet req = Some bet /\ (bet <= 0)%Q) \/
  (exists guesses, pl_guesses req = Some guesses /\ length guesses <> 3%nat) ->
  play (Bearer claims) req r0 r1 r2 now st
  = (fail 400 "Invalid game parameters", st).
Proof.
  unfold play. cbn [authenticateToken].
  intros [H|[H|[(bet & H & Hle)|(guesses & H & Hlen)]]]; rewrite H.
  - reflexivity.
  - destruct (pl_bet req); reflexivity.
  - destruct (pl_guesses req); [|reflexivity].
    rewrite (nonpositive_amount_fails _ Hle). reflexivity.
  - destruct (pl_bet req) as [bet|]; [|reflexivity].
    apply Nat.eqb_neq in Hlen. rewrite Hlen.
    rewrite orb_true_r. reflexivity.
Qed.

Lemma play_invalid_parameters_witness :
  play alice_token (mkPlay (Some 10%Q) (Some [4%Q; 4%Q])) (45 # 100) (41 # 100)
       (93 # 100) 7 example_db
  = (fail 400 "Invalid game parameters", example_db).
Proof.
  apply (play_invalid_parameters (mkClaims 1 "alice@example.com" false)
           (mkPlay (Some 10%Q) (Some [4%Q; 4%Q]))).
  right. right. right. exists [4%Q; 4%Q]. split; [reflexivity | discriminate].
Defined.


(** A wager that passes every check is settled, as long as its amounts
    stay finite. *)
Lemma play64_settles claims user bet guesses r0 r1 r2 now st
    x0 x1 x2 payout profit newBalance :
  users st !! id claims = Some user ->
  length guesses = 3%nat ->
  (0 < bet)%Q ->
  (GameSettings.minBet (fst (load_settings now st)) <= bet)%Q ->
  (bet <= GameSettings.maxBet (fst (load_settings now st)))%Q ->
  (bet <= User.balance user)%Q ->
  mul64 r0 10 = Some x0 -> mul64 r1 10 = Some x1 -> mul64 r2 10 = Some x2 ->
  let ws := [Math_floor x0; Math_floor x1; Math_floor x2] in
  let matches := forEach_matches guesses ws 0 0 in
  mul64 bet (multiplier (fst (load_settings now st)) matches) = Some payout ->
  sub64 payout bet = Some profit ->
  add64 (User.balance user) profit = Some newBalance ->
  exists st',
    play64 (Bearer claims) (mkPlay (Some bet) (Some guesses)) r0 r1 r2 now st
    = Some (json (Played ws matches profit newBalance
                    (if Nat.ltb 0 matches then "You won!"
                     else "Better luck next time!")), st').
Proof.
  intros Hu Hlen Hpos Hmin Hmax Hbal H0 H1 H2 ws matches Hpay Hprofit Hnew.
  unfold play64. cbn [authenticateToken pl_bet pl_guesses].
  rewrite Hu.
  assert (Hv : negb (truthy_number (Some bet)) || Qle_bool bet 0
               || negb (Nat.eqb (length guesses) 3) = false).
  { rewrite (positive_amount_passes _ Hpos), Hlen. reflexivity. }
  rewrite Hv.
  destruct (load_settings now st) as [settings st1]. cbn [fst] in *.
  apply Qltb_ge in Hmin, Hmax, Hbal. rewrite Hmin, Hmax, Hbal. cbn [orb].
  unfold settle_wager64. rewrite H0, H1, H2.
  fold ws. fold matches.
  assert (Hb : (matches <= 3)%nat).
  { pose proof (forEach_matches_bound guesses ws 0 0) as Hbound.
    rewrite Hlen in Hbound. exact Hbound. }
  rewrite (winAmount64_multiplier _ _ _ Hb), Hpay, Hprofit, Hnew.
  eexists. reflexivity.
Qed.

Lemma load_settings_gamehistories now st :
  gamehistories (snd (load_settings now st)) = gamehistories st.
Proof. unfold load_settings. destruct (gamesettings st); reflexivity. Qed.

(** X17: a settled wager stores exactly one game record, under a new id,
    with the id of the player, the bet, the guesses, the drawn numbers,
    the match count and the profit of the answer, and with the balance
    before and the balance after, the second being the double nearest to
    the first plus the profit. *)
Theorem play64_game_record a req r0 r1 r2 now st ws matches profit newBalance message st' :
  play64 a req r0 r1 r2 now st
    = Some (json (Played ws matches profit newBalance message), st') ->
  exists claims user bet guesses _id,
    a = Bearer claims /\ users st !! id claims = Some user /\
    pl_bet req = Some bet /\ pl_guesses req = Some guesses /\
    gamehistories st !! _id = None /\
    gamehistories st'
    = <[_id := GameHistory.mk (id claims) bet guesses ws matches profit
                 (User.balance user) newBalance now]> (gamehistories st) /\
    add64 (User.balance user) profit = Some newBalance.
Proof.
  intros H.
  destruct (play64_settled _ _ _ _ _ _ _ _ _ H eq_refl)
    as (claims & user & bet & guesses & -> & Hu & Hb & Hg & _ & _ & _ & _ & _ & Hs).
  destruct (settle_wager64_inv _ _ _ _ _ _ _ _ _ _ _ _ _ _ _ _ Hs)
    as (x0 & x1 & x2 & payout & _ & _ & _ & _ & _ & _ & _ & Hn & _ & Hst).
  exists claims, user, bet, guesses, (new_id (gamehistories st)).
  repeat (split; [first [assumption | reflexivity | apply new_id_fresh]|]).
  split; [|exact Hn].
  rewrite Hst. destruct (Qltb 0 payout); simpl;
    rewrite load_settings_gamehistories; reflexivity.
Qed.

Lemma play64_game_record_witness :
  exists st',
    play64 alice_token (mkPlay (Some (literal "1.1")) (Some [4%Q; 1%Q; 9%Q]))
      (literal "0.45") (literal "0.13") (literal "0.93") 7 example_db
    = Some (json (Played [4; 1; 9] 3 (literal "108.90000000000002")
                    (literal "158.90000000000003") "You won!"), st') /\
    exists claims user bet guesses _id,
      alice_token = Bearer claims /\ users example_db !! id claims = Some user /\
      Some (literal "1.1") = Some bet /\ Some [4%Q; 1%Q; 9%Q] = Some guesses /\
      gamehistories example_db !! _id = None /\
      gamehistories st'
      = <[_id := GameHistory.mk (id claims) bet guesses [4; 1; 9] 3
                   (literal "108.90000000000002") (User.balance user)
                   (literal "158.90000000000003") 7]> (gamehistories example_db) /\
      add64 (User.balance user) (literal "108.90000000000002")
      = Some (literal "158.90000000000003").
Proof.
  eexists. split; [vm_compute; reflexivity|].
  apply (play64_game_record alice_token
           (mkPlay (Some (literal "1.1")) (Some [4%Q; 1%Q; 9%Q]))
           (literal "0.45") (literal "0.13") (literal "0.93") 7 example_db
           [4; 1; 9] 3 (literal "108.90000000000002")
           (literal "158.90000000000003") "You won!").
  vm_compute. reflexivity.
Defined.



(** X19: a settled wager without a match answers "Better luck next time!",
    with the opposite of the bet, rounded, as profit, and adds the bet
    entry to the ledger and no other; when the bet is a double, the profit
    is the opposite of the bet, and the new balance is the double nearest
    to the old balance minus the bet, and not negative. *)
Theorem play64_no_match a req r0 r1 r2 now st ws profit newBalance message st' :
  play64 a req r0 r1 r2 now st
    = Some (json (Played ws 0 profit newBalance message), st') ->
  exists claims user bet,
    a = Bearer claims /\ users st !! id claims = Some user /\
    pl_bet req = Some bet /\
    (bet <= User.balance user)%Q /\
    message = "Better luck next time!" /\
    Some profit = Qopp <$> round64 bet /\
    (round64 bet = Some bet ->
       profit = (- bet)%Q /\ sub64 (User.balance user) bet = Some newBalance /\
       (0 <= newBalance)%Q) /\
    users st' !! id claims = Some (User.set_balance user newBalance) /\
    (forall _id t, transactions st' !! _id = Some t ->
       transactions st !! _id = None ->
       t = Transaction.mk (id claims) Transaction.bet bet Transaction.completed
             None now (Some now) None).
Proof.
  intros H.
  destruct (play64_settled _ _ _ _ _ _ _ _ _ H eq_refl)
    as (claims & user & bet & guesses & -> & Hu & Hb & Hg & _ & _ & _ & _ & Hbal & Hs).
  destruct (settle_wager64_inv _ _ _ _ _ _ _ _ _ _ _ _ _ _ _ _ Hs)
    as (x0 & x1 & x2 & payout & _ & _ & _ & _ & _ & Hw & Hp & Hn & Hmsg & Hst).
  exists claims, user, bet.
  simpl in Hw. injection Hw as <-.
  assert (Hprofit : Some profit = Qopp <$> round64 bet).
  { rewrite <- Hp. unfold sub64. rewrite <- round64_opp.
    apply round64_Qeq. ring. }
  repeat (split; [first [assumption | reflexivity]|]).
  split; [|split].
  - intros Hd. rewrite Hd in Hprofit. injection Hprofit as ->.
    split; [reflexivity|]. split; [exact Hn|].
    exact (sub64_nonneg _ _ _ Hbal Hn).
  - rewrite Hst. simpl. apply lookup_insert_eq.
  - intros _id t Hl Hnone. rewrite Hst in Hl. simpl in Hl.
    rewrite load_settings_transactions in Hl.
    unfold create in Hl.
    apply lookup_insert_Some in Hl as [[_ <-]|[_ Hl]]; [reflexivity|].
    rewrite Hnone in Hl. discriminate.
Qed.

(** A bet of 1.3 lost on a balance of 50.1 leaves 48.800000000000004. *)
Lemma play64_no_match_witness :
  exists st',
    play64 alice_token (mkPlay (Some (literal "1.3")) (Some [0%Q; 0%Q; 0%Q]))
      (literal "0.45") (literal "0.13") (literal "0.93") 7 change_db
    = Some (json (Played [4; 1; 9] 0 (- literal "1.3")%Q
                    (literal "48.800000000000004") "Better luck next time!"), st') /\
    users st' !! 1%positive
    = Some (User.set_balance alice (literal "48.800000000000004")) /\
    sub64 (literal "50.1") (literal "1.3") = Some (literal "48.800000000000004").
Proof.
  eexists. split; [vm_compute; reflexivity|].
  destruct (play64_no_match alice_token
              (mkPlay (Some (literal "1.3")) (Some [0%Q; 0%Q; 0%Q]))
              (literal "0.45") (literal "0.13") (literal "0.93") 7 change_db
              [4; 1; 9] (- literal "1.3")%Q (literal "48.800000000000004")
              "Better luck next time!" _ ltac:(vm_compute; reflexivity))
    as (claims & user & bet & Ha & Hu & Hb & _ & _ & _ & Hd & Hst & _).
  injection Ha as <-. injection Hb as <-.
  change (users _ !! id _) with (Some (User.set_balance alice (literal "50.1"))) in Hu.
  injection Hu as <-.
  destruct (Hd ltac:(vm_compute; reflexivity)) as (_ & Hsub & _).
  split; [exact Hst | exact Hsub].
Defined.

(** X26: a settled wager adds to the ledger one completed entry of type
    bet with the bet as amount and, exactly when the payout is greater
    than 0, one completed entry of type win whose amount is the payout,
    the double nearest to bet * multiplier[matchCount]; nothing else in
    the ledger changes. *)
Theorem play64_ledger a req r0 r1 r2 now st
    winningNumbers matches profit newBalance message st' :
  play64 a req r0 r1 r2 now st
    = Some (json (Played winningNumbers matches profit newBalance message), st') ->
  exists claims bet payout betId,
    a = Bearer claims /\ pl_bet req = Some bet /\
    mul64 bet (multiplier (fst (load_settings now st)) matches) = Some payout /\
    transactions st !! betId = None /\
    let betEntry :=
      Transaction.mk (id claims) Transaction.bet bet Transaction.completed
        None now (Some now) None in
    (~ (0 < payout)%Q ->
       transactions st' = <[betId := betEntry]> (transactions st)) /\
    ((0 < payout)%Q ->
       exists winId,
         winId <> betId /\ transactions st !! winId = None /\
         transactions st'
         = <[winId := Transaction.mk (id claims) Transaction.win payout
                        Transaction.completed None now (Some now) None]>
             (<[betId := betEntry]> (transactions st))).
Proof.
  intros H.
  destruct (play64_settled _ _ _ _ _ _ _ _ _ H eq_refl)
    as (claims & user & bet & guesses & -> & Hu & Hb & Hg & Hlen & _ & _ & _ & _ & Hs).
  destruct (settle_wager64_inv _ _ _ _ _ _ _ _ _ _ _ _ _ _ _ _ Hs)
    as (x0 & x1 & x2 & payout & _ & _ & _ & Hws & Hm & Hw & _ & _ & _ & Hst).
  exists claims, bet, payout, (new_id (transactions st)).
  pose proof (forEach_matches_bound guesses winningNumbers 0 0) as Hbound.
  rewrite <- Hm, Hlen in Hbound.
  rewrite winAmount64_multiplier in Hw by exact Hbound.
  split; [reflexivity|]. split; [assumption|]. split; [assumption|].
  split; [apply new_id_fresh|].
  intros betEntry. cbv zeta in Hst.
  destruct (Qltb 0 payout) eqn:Hpos; subst st'; simpl;
    rewrite load_settings_transactions; split.
  - intros Hn. exfalso. apply Hn. apply Qltb_lt in Hpos. exact Hpos.
  - intros _. exists (new_id (create betEntry (transactions st))).
    split; [|split; [|reflexivity]].
    + intros E. pose proof (new_id_fresh (create betEntry (transactions st))) as Hf.
      rewrite E in Hf. unfold create in Hf. rewrite lookup_insert_eq in Hf.
      discriminate.
    + destruct (transactions st !! new_id (create betEntry (transactions st)))
        as [x|] eqn:Hx; [|reflexivity].
      apply (lookup_create_old betEntry) in Hx.
      rewrite new_id_fresh in Hx. discriminate.
  - intros _. reflexivity.
  - intros Hp. exfalso. apply Qltb_ge in Hpos. exact (Qlt_not_le _ _ Hp Hpos).
Qed.

(** The win entry of a bet of 1.1 at the multiplier 100 holds
    110.00000000000001. *)
Lemma play64_ledger_witness :
  exists st',
    play64 alice_token (mkPlay (Some (literal "1.1")) (Some [4%Q; 1%Q; 9%Q]))
      (literal "0.45") (literal "0.13") (literal "0.93") 7 example_db
    = Some (json (Played [4; 1; 9] 3 (literal "108.90000000000002")
                    (literal "158.90000000000003") "You won!"), st') /\
    exists betId winId,
      winId <> betId /\
      transactions st'
      = <[winId := Transaction.mk 1 Transaction.win (literal "110.00000000000001")
                     Transaction.completed None 7 (Some 7) None]>
          (<[betId := Transaction.mk 1 Transaction.bet (literal "1.1")
                        Transaction.completed None 7 (Some 7) None]>
             (transactions example_db)).
Proof.
  eexists. split; [vm_compute; reflexivity|].
  destruct (play64_ledger alice_token
              (mkPlay (Some (literal "1.1")) (Some [4%Q; 1%Q; 9%Q]))
              (literal "0.45") (literal "0.13") (literal "0.93") 7 example_db
              [4; 1; 9] 3 (literal "108.90000000000002")
              (literal "158.90000000000003") "You won!" _
              ltac:(vm_compute; reflexivity))
    as (claims & bet & payout & betId & Ha & Hb & Hpay & _ & _ & Hwin).
  injection Ha as <-. injection Hb as <-.
  assert (Hp : payout = literal "110.00000000000001").
  { vm_compute in Hpay. injection Hpay as <-. vm_compute. reflexivity. }
  subst payout.
  destruct (Hwin ltac:(vm_compute; reflexivity)) as (winId & Hne & _ & Ht).
  exists betId, winId. split; [exact Hne | exact Ht].
Defined.

(** ** The game settings *)

(** X20: reading the game settings stores the defaults of the schema
    (house fee 10, bets from 1 to 1000, multipliers 100, 10 and 2) when no
    settings document exists and changes nothing otherwise; accounts,
    ledger and game records are never touched, and a second read returns
    the same settings and changes nothing. *)
Theorem get_settings_stable now now2 st :
  let r := get_settings now st in
  get_settings now2 (snd r) = (fst r, snd r) /\
  users (snd r) = users st /\ transactions (snd r) = transactions st /\
  gamehistories (snd r) = gamehistories st /\
  (gamesettings st <> None -> snd r = st) /\
  (gamesettings st = None ->
     fst r = Settings (GameSettings.mk 10%Q 1000%Q 1%Q 100%Q 10%Q 2%Q now None) /\
     gamesettings (snd r) = Some (GameSettings.fresh now)).
Proof.
  cbn zeta. unfold get_settings, load_settings.
  destruct (gamesettings st) as [s|] eqn:E; simpl.
  - rewrite E. split; [reflexivity|]. split; [reflexivity|].
    split; [reflexivity|]. split; [reflexivity|]. split; [reflexivity|].
    discriminate.
  - split; [reflexivity|]. split; [reflexivity|].
    split; [reflexivity|]. split; [reflexivity|]. split; [|split; reflexivity].
    intros Hn. contradiction.
Qed.

(** X21: after an admin has updated the game settings with every field and
    all three multipliers in the body, the settings that the next request
    reads are exactly the supplied values, and the next wager is checked
    against the new bounds: a bet below the new minimum or above the new
    maximum is refused with them in the error. *)
Theorem update_settings_round_trip a claims req now st
    houseFee maxBet minBet three two one :
  requireAdmin a = inr claims ->
  gs_houseFee req = Some houseFee -> gs_maxBet req = Some maxBet ->
  gs_minBet req = Some minBet ->
  gs_payoutMultipliers req
    = Some (GameSettings.mkmult (Some three) (Some two) (Some one)) ->
  let st' := snd (update_settings a req now st) in
  (forall now2,
     load_settings now2 st'
     = (GameSettings.mk houseFee maxBet minBet three two one now (Some (id claims)),
        st')) /\
  (forall player bet guesses r0 r1 r2 now2,
     (0 < bet)%Q -> length guesses = 3%nat ->
     (bet < minBet)%Q \/ (maxBet < bet)%Q ->
     play (Bearer player) (mkPlay (Some bet) (Some guesses)) r0 r1 r2 now2 st'
     = (mkResponse 400 (FailureBetRange minBet maxBet), st')).
Proof.
  intros Ha Hh HM Hm Hpm st'.
  assert (Hload : forall now2,
     load_settings now2 st'
     = (GameSettings.mk houseFee maxBet minBet three two one now (Some (id claims)),
        st')).
  { intros now2. subst st'. unfold update_settings. rewrite Ha. cbn [snd].
    unfold load_settings, assign_settings. rewrite Hh, HM, Hm, Hpm. reflexivity. }
  split; [exact Hload|].
  intros player bet guesses r0 r1 r2 now2 Hpos Hlen Hout.
  unfold play. cbn [authenticateToken pl_bet pl_guesses].
  rewrite (positive_amount_passes _ Hpos), Hlen. cbn [Nat.eqb negb orb].
  rewrite (Hload now2). cbn [GameSettings.minBet GameSettings.maxBet].
  assert (Hr : Qltb bet minBet || Qltb maxBet bet = true).
  { apply orb_true_iff. destruct Hout as [H|H]; [left | right];
      apply Qltb_lt; exact H. }
  rewrite Hr. reflexivity.
Qed.

Lemma update_settings_round_trip_witness :
  play alice_token (mkPlay (Some 3%Q) (Some [1%Q; 2%Q; 3%Q])) (1 # 2) (1 # 2) (1 # 2) 12
    (snd (update_settings root_token
            (mkSettings (Some 5%Q) (Some 200%Q) (Some 5%Q)
               (Some (GameSettings.mkmult (Some 50%Q) (Some 5%Q) (Some 1%Q))))
            9 example_db))
  = (mkResponse 400 (FailureBetRange 5%Q 200%Q),
     snd (update_settings root_token
            (mkSettings (Some 5%Q) (Some 200%Q) (Some 5%Q)
               (Some (GameSettings.mkmult (Some 50%Q) (Some 5%Q) (Some 1%Q))))
            9 example_db)).
Proof.
  destruct (update_settings_round_trip root_token
              (mkClaims 2 "admin@example.com" true)
              (mkSettings (Some 5%Q) (Some 200%Q) (Some 5%Q)
                 (Some (GameSettings.mkmult (Some 50%Q) (Some 5%Q) (Some 1%Q))))
              9 example_db 5%Q 200%Q 5%Q 50%Q 5%Q 1%Q
              eq_refl eq_refl eq_refl eq_refl eq_refl) as (_ & Hplay).
  apply (Hplay (mkClaims 1 "alice@example.com" false) 3%Q [1%Q; 2%Q; 3%Q]);
    [reflexivity | reflexivity | left; reflexivity].
Defined.

(** ** Sorted listings *)

Lemma insert_by_In {A : Type} (key : A -> Z) (d x : A) (l : list A) :
  In x (insert_by key d l) <-> x = d \/ In x l.
Proof.
  induction l as [|y l IH]; simpl.
  - intuition congruence.
  - destruct (key y <=? key d); simpl.
    + intuition congruence.
    + rewrite IH. intuition congruence.
Qed.

Lemma sort_desc_In {A : Type} (key : A -> Z) (x : A) (l : list A) :
  In x (sort_desc key l) <-> In x l.
Proof.
  unfold sort_desc. induction l as [|y l IH]; simpl; [reflexivity|].
  rewrite insert_by_In, IH. intuition congruence.
Qed.

Lemma insert_by_length {A : Type} (key : A -> Z) (d : A) (l : list A) :
  length (insert_by key d l) = S (length l).
Proof.
  induction l as [|y l IH]; simpl; [reflexivity|].
  destruct (key y <=? key d); simpl; [reflexivity | rewrite IH; reflexivity].
Qed.

Lemma sort_desc_length {A : Type} (key : A -> Z) (l : list A) :
  length (sort_desc key l) = length l.
Proof.
  unfold sort_desc. induction l as [|y l IH]; simpl; [reflexivity|].
  rewrite insert_by_length, IH. reflexivity.
Qed.

Lemma insert_by_sorted {A : Type} (key : A -> Z) (d : A) (l : list A) :
  StronglySorted (fun x y => key y <= key x) l ->
  StronglySorted (fun x y => key y <= key x) (insert_by key d l).
Proof.
  induction l as [|y l IH]; intros Hs; simpl.
  - constructor; constructor.
  - apply StronglySorted_inv in Hs as [Hs Hall].
    destruct (key y <=? key d) eqn:E.
    + apply Z.leb_le in E. constructor.
      * constructor; assumption.
      * constructor; [exact E|].
        rewrite List.Forall_forall in Hall |- *. intros z Hz.
        specialize (Hall z Hz). lia.
    + apply Z.leb_gt in E. constructor; [apply IH; exact Hs|].
      rewrite List.Forall_forall in Hall |- *. intros z Hz.
      apply insert_by_In in Hz as [->|Hz]; [lia | apply Hall; exact Hz].
Qed.

Lemma sort_desc_sorted {A : Type} (key : A -> Z) (l : list A) :
  StronglySorted (fun x y => key y <= key x) (sort_desc key l).
Proof.
  unfold sort_desc. induction l as [|y l IH]; simpl; [constructor|].
  apply insert_by_sorted. exact IH.
Qed.

Lemma sort_createdAt_desc_sort_desc (l : list User.doc) :
  sort_createdAt_desc l = sort_desc User.d_createdAt l.
Proof.
  unfold sort_createdAt_desc, sort_desc.
  induction l as [|y l IH]; simpl; [reflexivity|]. rewrite IH.
  generalize (foldr (insert_by User.d_createdAt) [] l). intros s.
  induction s as [|x s IHs]; simpl; [reflexivity|].
  rewrite IHs. reflexivity.
Qed.

Lemma is_withdrawal_iff (t : Transaction.t) :
  is_withdrawal t = true <-> Transaction.type t = Transaction.withdrawal.
Proof.
  unfold is_withdrawal. destruct (Transaction.type t); split; congruence.
Qed.

Lemma find_withdrawals_of_In userId (m : gmap positive Transaction.t) i t :
  In (i, t) (find_withdrawals_of userId m) <->
  m !! i = Some t /\ Transaction.userId t = userId /\
  Transaction.type t = Transaction.withdrawal.
Proof.
  unfold find_withdrawals_of. rewrite sort_desc_In, filter_In. cbn [snd].
  rewrite andb_true_iff, Pos.eqb_eq, is_withdrawal_iff.
  rewrite <- list_elem_of_In, elem_of_map_to_list. tauto.
Qed.

(** X22: the listing of its withdrawals that a verified account gets
    holds exactly the ledger entries of type withdrawal that belong to
    this account, whatever their status, and no entry of another account;
    it is ordered from the newest to the oldest. *)
Theorem my_withdrawals_listing claims st :
  exists listed,
    my_withdrawals (Bearer claims) st = MyWithdrawals listed /\
    (forall i t,
       In (i, t) listed <->
       transactions st !! i = Some t /\ Transaction.userId t = id claims /\
       Transaction.type t = Transaction.withdrawal) /\
    StronglySorted
      (fun x y => Transaction.createdAt (snd y) <= Transaction.createdAt (snd x))
      listed.
Proof.
  exists (find_withdrawals_of (id claims) (transactions st)).
  split; [reflexivity|]. split.
  - intros i t. apply find_withdrawals_of_In.
  - unfold find_withdrawals_of.
    apply (sort_desc_sorted (fun p => Transaction.createdAt (snd p))).
Qed.

(** X23: a withdrawal request that was accepted shows up in the listing
    of the withdrawals of the account, as a pending entry with the
    requested amount that was not there before. *)
Theorem request_withdrawal_listed a amount now st :
  status (fst (request_withdrawal a amount now st)) = 200%nat ->
  exists claims i t,
    a = Bearer claims /\
    my_withdrawals a (snd (request_withdrawal a amount now st))
    = MyWithdrawals
        (find_withdrawals_of (id claims)
           (transactions (snd (request_withdrawal a amount now st)))) /\
    In (i, t)
       (find_withdrawals_of (id claims)
          (transactions (snd (request_withdrawal a amount now st)))) /\
    ~ In (i, t) (find_withdrawals_of (id claims) (transactions st)) /\
    Transaction.status t = Transaction.pending /\
    Some (Transaction.amount t) = amount.
Proof.
  intros Hok.
  destruct (request_withdrawal_ok a amount now st Hok)
    as (claims & user & q & -> & -> & Hu & Hpos & Hle).
  rewrite (request_withdrawal_positive claims user q now st Hu Hpos).
  apply Qltb_ge in Hle. rewrite Hle. cbn [snd].
  eexists claims, (new_id (transactions st)), _.
  split; [reflexivity|]. split; [reflexivity|]. split; [|split].
  - apply find_withdrawals_of_In. simpl. rewrite lookup_insert_eq.
    split; [reflexivity|]. split; reflexivity.
  - intros Hin. apply find_withdrawals_of_In in Hin as [Hl _].
    rewrite new_id_fresh in Hl. discriminate.
  - split; reflexivity.
Qed.

Lemma request_withdrawal_listed_witness :
  exists claims i t,
    alice_token = Bearer claims /\
    In (i, t)
       (find_withdrawals_of (id claims)
          (transactions (snd (request_withdrawal alice_token (Some 20%Q) 3 example_db)))) /\
    Transaction.status t = Transaction.pending /\
    Some (Transaction.amount t) = Some 20%Q.
Proof.
  destruct (request_withdrawal_listed alice_token (Some 20%Q) 3 example_db eq_refl)
    as (claims & i & t & Ha & _ & Hin & _ & Hs & Hamt).
  exists claims, i, t. repeat split; assumption.
Defined.

Lemma find_history_sorted_In userId (m : gmap positive GameHistory.t) i h :
  In (i, h)
     (sort_desc (fun p => GameHistory.createdAt (snd p))
        (List.filter (fun p => Pos.eqb (GameHistory.userId (snd p)) userId)
           (map_to_list m))) <->
  m !! i = Some h /\ GameHistory.userId h = userId.
Proof.
  rewrite sort_desc_In, filter_In. cbn [snd]. rewrite Pos.eqb_eq.
  rewrite <- list_elem_of_In, elem_of_map_to_list. tauto.
Qed.

Lemma StronglySorted_app_le {A : Type} (R : A -> A -> Prop) (l1 l2 : list A) :
  StronglySorted R (l1 ++ l2) ->
  StronglySorted R l1 /\ forall x y, In x l1 -> In y l2 -> R x y.
Proof.
  induction l1 as [|a l1 IH]; simpl; intros Hs.
  - split; [constructor | intros x y []].
  - apply StronglySorted_inv in Hs as [Hs Hall].
    destruct (IH Hs) as [Hs1 Hcross]. split.
    + constructor; [exact Hs1|].
      rewrite List.Forall_forall in Hall |- *. intros z Hz.
      apply Hall. apply in_or_app. left. exact Hz.
    + intros x y [<-|Hx] Hy.
      * rewrite List.Forall_forall in Hall. apply Hall.
        apply in_or_app. right. exact Hy.
      * apply Hcross; assumption.
Qed.

(** X24: the game history that a verified account gets holds at most 50
    records, all of them its own, ordered from the newest to the oldest;
    a record of the account that is left out is not newer than any record
    listed, and nothing is left out when the account has at most 50
    records. *)
Theorem game_history_listing claims st :
  exists listed,
    game_history (Bearer claims) st = History listed /\
    (length listed <= 50)%nat /\
    (forall i h, In (i, h) listed ->
       gamehistories st !! i = Some h /\ GameHistory.userId h = id claims) /\
    StronglySorted
      (fun x y => GameHistory.createdAt (snd y) <= GameHistory.createdAt (snd x))
      listed /\
    (forall i h,
       gamehistories st !! i = Some h -> GameHistory.userId h = id claims ->
       ~ In (i, h) listed ->
       length listed = 50%nat /\
       forall j h', In (j, h') listed ->
         GameHistory.createdAt h <= GameHistory.createdAt h').
Proof.
  exists (find_history_of (id claims) (gamehistories st)).
  split; [reflexivity|]. unfold find_history_of.
  set (key := fun p : positive * GameHistory.t => GameHistory.createdAt (snd p)).
  set (all := sort_desc key
                (List.filter
                   (fun p => Pos.eqb (GameHistory.userId (snd p)) (id claims))
                   (map_to_list (gamehistories st)))).
  assert (Hsorted : StronglySorted (fun x y => key y <= key x) all)
    by apply sort_desc_sorted.
  rewrite <- (firstn_skipn 50 all) in Hsorted.
  apply StronglySorted_app_le in Hsorted as [Hs1 Hcross].
  split; [apply firstn_le_length|]. split; [|split; [exact Hs1|]].
  - intros i h Hin.
    assert (Hall : In (i, h) all).
    { rewrite <- (firstn_skipn 50 all). apply in_or_app. left. exact Hin. }
    exact (proj1 (find_history_sorted_In _ _ _ _) Hall).
  - intros i h Hl Hown Hout.
    assert (Hall : In (i, h) all)
      by exact (proj2 (find_history_sorted_In _ _ _ _) (conj Hl Hown)).
    rewrite <- (firstn_skipn 50 all) in Hall.
    apply in_app_or in Hall as [Hin|Hin]; [contradiction|].
    split.
    + apply firstn_length_le.
      destruct (Nat.le_gt_cases 50 (length all)) as [Hge|Hlt]; [exact Hge|].
      rewrite skipn_all2 in Hin by lia. destruct Hin.
    + intros j h' Hj. exact (Hcross (j, h') (i, h) Hj Hin).
Qed.

Lemma filter_snd_length {A B : Type} (f : B -> bool) (l : list (A * B)) :
  length (List.filter (fun p => f (snd p)) l)
  = length (List.filter f (map snd l)).
Proof.
  induction l as [|x l IH]; simpl; [reflexivity|].
  destruct (f (snd x)); simpl; rewrite IH; reflexivity.
Qed.

(** X25: the listing of users for an admin is ordered from the newest
    account to the oldest, and it has one document per account that is not
    an admin: its length is the [totalUsers] of the dashboard. *)
Theorem find_users_sorted_counted st :
  StronglySorted (fun x y => User.d_createdAt y <= User.d_createdAt x)
                 (find_users (users st)) /\
  length (find_users (users st)) = totalUsers (compute_stats st).
Proof.
  unfold find_users. rewrite sort_createdAt_desc_sort_desc. split.
  - apply sort_desc_sorted.
  - rewrite sort_desc_length, length_map. cbn [compute_stats totalUsers].
    unfold countDocuments.
    apply (filter_snd_length (fun u => negb (User.isAdmin u))).
Qed.

(** ** The dashboard *)

Lemma count_filter_perm {A : Type} (f : A -> bool) (l l' : list (positive * A)) :
  Permutation l l' ->
  length (List.filter f (map snd l)) = length (List.filter f (map snd l')).
Proof.
  induction 1 as [|x l l' _ IH|x y l|l l' l'' _ IH1 _ IH2]; simpl.
  - reflexivity.
  - destruct (f (snd x)); simpl; rewrite IH; reflexivity.
  - destruct (f (snd x)), (f (snd y)); reflexivity.
  - rewrite IH1. exact IH2.
Qed.

Lemma countDocuments_insert {A : Type} (f : A -> bool) (m : gmap positive A) i x :
  m !! i = None ->
  countDocuments f (<[i := x]> m)
  = ((if f x then 1 else 0) + countDocuments f m)%nat.
Proof.
  intros H. unfold countDocuments.
  rewrite (count_filter_perm f _ _ (map_to_list_insert m i x H)). simpl.
  destruct (f x); reflexivity.
Qed.

(** Replacing the document under [i]. *)
Lemma countDocuments_replace {A : Type} (f : A -> bool) (m : gmap positive A) i x y :
  m !! i = Some x ->
  (countDocuments f (<[i := y]> m) + (if f x then 1 else 0)
   = countDocuments f m + (if f y then 1 else 0))%nat.
Proof.
  intros H.
  rewrite <- (insert_delete_id m i x H) at 2.
  rewrite <- (insert_delete_eq m i y).
  rewrite !countDocuments_insert by apply lookup_delete_eq. lia.
Qed.

(** X27: on the dashboard the count of pending withdrawals goes up by one
    with every accepted withdrawal request and down by one with every
    accepted approve or reject of a pending withdrawal. *)
Theorem pending_withdrawals_count a claims tid now st t :
  requireAdmin a = inr claims ->
  transactions st !! tid = Some t ->
  Transaction.status t = Transaction.pending ->
  Transaction.type t = Transaction.withdrawal ->
  (forall reason,
     S (pendingWithdrawals
          (compute_stats (snd (reject_withdrawal a (Some tid) reason now st))))
     = pendingWithdrawals (compute_stats st)) /\
  (forall user resp st',
     users st !! Transaction.userId t = Some user ->
     (Transaction.amount t <= User.balance user)%Q ->
     approve_withdrawal64 a (Some tid) now st = Some (resp, st') ->
     S (pendingWithdrawals (compute_stats st'))
     = pendingWithdrawals (compute_stats st)) /\
  (forall player amount now2,
     status (fst (request_withdrawal player amount now2 st)) = 200%nat ->
     pendingWithdrawals
       (compute_stats (snd (request_withdrawal player amount now2 st)))
     = S (pendingWithdrawals (compute_stats st))).
Proof.
  intros Ha Ht Hp Hty.
  assert (Hold : tx_is Transaction.withdrawal (Some Transaction.pending) t = true)
    by (unfold tx_is; rewrite Hty, Hp; reflexivity).
  assert (Hflags : forall s ref at_ by_,
            tx_is Transaction.withdrawal (Some Transaction.pending)
              (Transaction.mk (Transaction.userId t) (Transaction.type t)
                 (Transaction.amount t) s ref (Transaction.createdAt t) at_ by_)
            = match s with Transaction.pending => true | _ => false end).
  { intros s ref at_ by_. unfold tx_is. cbn [Transaction.type Transaction.status].
    rewrite Hty. destruct s; reflexivity. }
  split; [|split].
  - intros reason.
    assert (Hst : transactions (snd (reject_withdrawal a (Some tid) reason now st))
                  = <[tid := Transaction.mk (Transaction.userId t) (Transaction.type t)
                               (Transaction.amount t) Transaction.rejected
                               (Some (Transaction.Text
                                        (if truthy_string reason
                                         then default EmptyString reason
                                         else "Rejected by admin")))
                               (Transaction.createdAt t) (Some now)
                               (Some (id claims))]> (transactions st)).
    { unfold reject_withdrawal. rewrite Ha. cbn [findById]. rewrite Ht, Hp.
      reflexivity. }
    cbn [compute_stats pendingWithdrawals]. rewrite Hst.
    match type of Hst with
    | _ = <[_ := ?y]> _ =>
        pose proof (countDocuments_replace
                      (tx_is Transaction.withdrawal (Some Transaction.pending))
                      (transactions st) tid t y Ht) as Hc
    end.
    rewrite Hold, Hflags in Hc. lia.
  - intros user resp st' Hu Hle Happ.
    rewrite (approve_withdrawal64_admin a claims tid now st t user Ha Ht Hp Hu)
      in Happ.
    apply Qltb_ge in Hle. rewrite Hle in Happ.
    destruct (sub64 _ _) as [balance|]; [|discriminate].
    injection Happ as _ <-.
    cbn [compute_stats pendingWithdrawals transactions].
    pose proof (countDocuments_replace
                  (tx_is Transaction.withdrawal (Some Transaction.pending))
                  (transactions st) tid t
                  (Transaction.mk (Transaction.userId t) (Transaction.type t)
                     (Transaction.amount t) Transaction.approved
                     (Transaction.reference t) (Transaction.createdAt t)
                     (Some now) (Some (id claims))) Ht) as Hc.
    rewrite Hold, Hflags in Hc. lia.
  - intros player amount now2 Hok.
    destruct (request_withdrawal_ok player amount now2 st Hok)
      as (pc & user & q & -> & -> & Hu & Hpos & Hle).
    rewrite (request_withdrawal_positive pc user q now2 st Hu Hpos).
    apply Qltb_ge in Hle. rewrite Hle.
    cbn [snd compute_stats pendingWithdrawals].
    change (transactions (set_transactions st ?m)) with m.
    cbn [transactions set_transactions].
    rewrite (countDocuments_insert _ _ _ _ (new_id_fresh (transactions st))).
    reflexivity.
Qed.

Lemma pending_withdrawals_count_witness :
  exists st',
    approve_withdrawal64 root_token (Some 5%positive) 9 withdrawal_db
    = Some (json (Message "Withdrawal approved successfully"), st') /\
    S (pendingWithdrawals (compute_stats st'))
    = pendingWithdrawals (compute_stats withdrawal_db).
Proof.
  eexists. split; [vm_compute; reflexivity|].
  destruct (pending_withdrawals_count root_token
              (mkClaims 2 "admin@example.com" true) 5%positive 9 withdrawal_db
              pending_withdrawal eq_refl eq_refl eq_refl eq_refl)
    as (_ & Happrove & _).
  apply (Happrove alice (json (Message "Withdrawal approved successfully")));
    [reflexivity | discriminate | vm_compute; reflexivity].
Defined.

(** ** SMS to all users *)

(** X28: an SMS to all users by an admin goes to the phones of exactly the
    accounts that are not admins, one request per account; it is refused
    with 400 when the message is absent or empty and when there is no such
    account; otherwise one log entry is added, with these phones, the
    message, the id of the admin and the result of the bulk sending, and
    its status is [sent] however many of the requests failed. *)
Theorem send_sms_all_recipients post n a claims message now st smslogs :
  requireAdmin a = inr claims ->
  let recipients :=
    List.filter (fun u => negb (User.isAdmin u)) (map snd (map_to_list (users st))) in
  let phones := map User.phone recipients in
  (forall phone,
     In phone phones <->
     exists i u, users st !! i = Some u /\ User.isAdmin u = false /\
                 User.phone u = phone) /\
  length phones = totalUsers (compute_stats st) /\
  (truthy_string message = false ->
     send_sms_all post n a message now st smslogs
     = (Refused (fail 400 "Message is required"), smslogs)) /\
  (truthy_string message = true -> phones = [] ->
     send_sms_all post n a message now st smslogs
     = (Refused (fail 400 "No users to send SMS to"), smslogs)) /\
  (truthy_string message = true -> phones <> [] ->
     exists _id,
       smslogs !! _id = None /\
       send_sms_all post n a message now st smslogs
       = (SmsSentAll (length phones)
            (sendBulkSMS post n phones (default EmptyString message)),
          <[_id := mkSMSLog phones (default EmptyString message) sent (id claims)
                     (sendBulkSMS post n phones (default EmptyString message))
                     now]> smslogs)).
Proof.
  intros Ha recipients phones.
  split; [|split; [|split; [|split]]].
  - intros phone. unfold phones, recipients. rewrite in_map_iff. split.
    + intros (u & Hp & Hin). apply filter_In in Hin as [Hin Hadm].
      apply in_map_iff in Hin as ([i u'] & Hu & Hin). simpl in Hu. subst u'.
      apply list_elem_of_In, elem_of_map_to_list in Hin.
      apply negb_true_iff in Hadm. eauto.
    + intros (i & u & Hl & Hadm & Hp). exists u. split; [exact Hp|].
      apply filter_In. split; [|rewrite Hadm; reflexivity].
      apply in_map_iff. exists (i, u). split; [reflexivity|].
      apply list_elem_of_In, elem_of_map_to_list. exact Hl.
  - unfold phones, recipients. rewrite length_map. reflexivity.
  - intros Hm. unfold send_sms_all. rewrite Ha, Hm. reflexivity.
  - intros Hm He. unfold send_sms_all. rewrite Ha, Hm. cbn [negb].
    fold recipients. fold phones. rewrite He. reflexivity.
  - intros Hm Hne. exists (new_id smslogs). split; [apply new_id_fresh|].
    unfold send_sms_all. rewrite Ha, Hm. cbn [negb].
    fold recipients. fold phones.
    destruct phones as [|p ps]; [contradiction|]. reflexivity.
Qed.

Lemma send_sms_all_recipients_witness :
  exists _id,
    (∅ : gmap positive SMSLog) !! _id = None /\
    send_sms_all example_post 0 root_token (Some "Bonus weekend") 13 example_db ∅
    = (SmsSentAll 1 (sendBulkSMS example_post 0 ["0244000000"] "Bonus weekend"),
       <[_id := mkSMSLog ["0244000000"] "Bonus weekend" sent 2
                  (sendBulkSMS example_post 0 ["0244000000"] "Bonus weekend") 13]>
         ∅).
Proof.
  destruct (send_sms_all_recipients example_post 0 root_token
              (mkClaims 2 "admin@example.com" true) (Some "Bonus weekend") 13
              example_db ∅ eq_refl) as (_ & _ & _ & _ & Hsent).
  destruct (Hsent eq_refl ltac:(vm_compute; discriminate)) as (_id & Hf & H).
  exists _id. split; [exact Hf|]. exact H.
Defined.

(** ** What no request does *)

Lemma set_balance_same (u : User.t) : User.set_balance u (User.balance u) = u.
Proof. destruct u. reflexivity. Qed.

Lemma accounts_kept_same (m : gmap positive User.t) i u :
  m !! i = Some u -> exists b, m !! i = Some (User.set_balance u b).
Proof. intros H. exists (User.balance u). rewrite set_balance_same. exact H. Qed.

Lemma accounts_kept_balance (m : gmap positive User.t) j v b i u :
  m !! j = Some v -> m !! i = Some u ->
  exists b', <[j := User.set_balance v b]> m !! i = Some (User.set_balance u b').
Proof.
  intros Hj Hi. destruct (decide (j = i)) as [->|Hne].
  - rewrite lookup_insert_eq. rewrite Hj in Hi. injection Hi as <-. eauto.
  - rewrite lookup_insert_ne by exact Hne. apply accounts_kept_same. exact Hi.
Qed.

Lemma accounts_kept_new (m : gmap positive User.t) v i u :
  m !! i = Some u ->
  exists b', <[new_id m := v]> m !! i = Some (User.set_balance u b').
Proof.
  intros Hi. rewrite lookup_insert_ne.
  - apply accounts_kept_same. exact Hi.
  - intros E. rewrite <- E, new_id_fresh in Hi. discriminate.
Qed.

Lemma created_entry (m : gmap positive Transaction.t) d tid t' :
  written_entry d ->
  create d m !! tid = Some t' -> m !! tid = None -> written_entry t'.
Proof.
  intros Hd Hl Hn. unfold create in Hl.
  apply lookup_insert_Some in Hl as [[_ <-]|[_ Hl]]; [exact Hd|].
  rewrite Hn in Hl. discriminate.
Qed.

Lemma replaced_entry (m : gmap positive Transaction.t) j t d tid t' :
  m !! j = Some t ->
  <[j := d]> m !! tid = Some t' -> m !! tid = None -> False.
Proof.
  intros Hj Hl Hn.
  apply lookup_insert_Some in Hl as [[-> _]|[_ Hl]]; congruence.
Qed.

Lemma findById_Some {A : Type} (i : option positive) (m : gmap positive A) j x :
  findById i m = Some (j, x) -> m !! j = Some x.
Proof.
  unfold findById. destruct i as [k|]; [|discriminate].
  destruct (m !! k) eqn:E; [|discriminate]. congruence.
Qed.

(** The requests of [handle64] keep every account, up to its balance, and
    add to the ledger entries of the four kinds only. *)
Lemma handle64_frame r now st resp st' :
  handle64 r now st = Some (resp, st') ->
  (forall i u, users st !! i = Some u ->
     exists b, users st' !! i = Some (User.set_balance u b)) /\
  (forall tid t', transactions st' !! tid = Some t' ->
     transactions st !! tid = None -> written_entry t').
Proof.
  intros Hh. destruct r; simpl in Hh.
  - handled Hh. unfold signup.
    destruct (_ || _ || _); simpl; [split; [apply accounts_kept_same | congruence]|].
    destruct (findOne_email _ _); simpl;
      [split; [apply accounts_kept_same | congruence]|].
    split; [intros i u; apply accounts_kept_new | congruence].
  - unfold webhook64 in Hh.
    destruct (bool_decide (wh_status req = Some "completed")).
    + destruct (wh_metadata req) as [user_id|];
        [|simplify_eq; split; [apply accounts_kept_same | congruence]].
      destruct (findById user_id (users st)) as [[j v]|] eqn:Hf;
        [|simplify_eq; split; [apply accounts_kept_same | congruence]].
      apply findById_Some in Hf.
      destruct (parseFloat64 (wh_amount req)); try discriminate.
      destruct (add64 _ _); simplify_eq. simpl.
      split; [intros i u; apply accounts_kept_balance; exact Hf | congruence].
    + destruct (bool_decide _); simplify_eq;
        (split; [apply accounts_kept_same | congruence]).
  - handled Hh. unfold request_withdrawal.
    destruct (authenticateToken a); simpl;
      [split; [apply accounts_kept_same | congruence]|].
    destruct amount as [amount|]; simpl;
      [|split; [apply accounts_kept_same | congruence]].
    destruct (_ || _); simpl; [split; [apply accounts_kept_same | congruence]|].
    destruct (users st !! _) as [user|]; simpl;
      [|split; [apply accounts_kept_same | congruence]].
    destruct (Qltb _ _); simpl; [split; [apply accounts_kept_same | congruence]|].
    split; [apply accounts_kept_same|].
    intros tid t'. apply (created_entry (transactions st)).
    left. split; reflexivity.
  - destruct (play64_cases a req random0 random1 random2 now st)
      as [[Hne Heq]|(claims & user & bet & guesses & _ & Hu & _ & _ & Heq)];
      rewrite Heq in Hh.
    + handled Hh.
      destruct (play_error_or_settled a req random0 random1 random2 now st)
        as [(_ & Hu & Ht)|Hs]; [|contradiction].
      rewrite Hu, Ht. split; [apply accounts_kept_same | congruence].
    + destruct (settle_wager64_played _ _ _ _ _ _ _ _ _ _ _ _ Hh)
        as (ws & m & p & nb & msg & ->).
      destruct (settle_wager64_inv _ _ _ _ _ _ _ _ _ _ _ _ _ _ _ _ Hh)
        as (x0 & x1 & x2 & w & _ & _ & _ & _ & _ & _ & _ & _ & _ & Hst).
      cbv zeta in Hst.
      assert (Hbet : forall tid t,
                create (Transaction.mk (id claims) Transaction.bet bet
                          Transaction.completed None now (Some now) None)
                       (transactions st) !! tid = Some t ->
                transactions st !! tid = None -> written_entry t).
      { intros tid t Ht Hn. refine (created_entry _ _ _ _ _ Ht Hn).
        right. split; [reflexivity | left; reflexivity]. }
      split.
      * intros i u Hi. rewrite Hst.
        destruct (Qltb 0 w); simpl; rewrite load_settings_users;
          apply accounts_kept_balance; assumption.
      * intros tid t' Hl Hn. rewrite Hst in Hl.
        destruct (Qltb 0 w); simpl in Hl; rewrite load_settings_transactions in Hl;
          [|exact (Hbet _ _ Hl Hn)].
        unfold create at 1 in Hl.
        apply lookup_insert_Some in Hl as [[_ <-]|[_ Hl]].
        -- right. split; [reflexivity | right; left; reflexivity].
        -- exact (Hbet _ _ Hl Hn).
  - handled Hh. unfold admin_users.
    destruct (requireAdmin a); simpl; (split; [apply accounts_kept_same | congruence]).
  - unfold credit_user64 in Hh.
    destruct (requireAdmin a);
      [simplify_eq; split; [apply accounts_kept_same | congruence]|].
    destruct (cr_userId req) as [userId|];
      [|simplify_eq; split; [apply accounts_kept_same | congruence]].
    destruct (cr_amount req) as [amount|];
      [|simplify_eq; split; [apply accounts_kept_same | congruence]].
    destruct (_ || _); [simplify_eq; split; [apply accounts_kept_same | congruence]|].
    destruct (users st !! userId) as [user|] eqn:Hu;
      [|simplify_eq; split; [apply accounts_kept_same | congruence]].
    destruct (add64 _ _); simplify_eq. simpl.
    split; [intros i u; apply accounts_kept_balance; exact Hu|].
    intros tid t'. apply (created_entry (transactions st)).
    right. split; [reflexivity | right; right; reflexivity].
  - unfold approve_withdrawal64 in Hh.
    destruct (requireAdmin a);
      [simplify_eq; split; [apply accounts_kept_same | congruence]|].
    destruct (findById transactionId (transactions st)) as [[j t]|] eqn:Hf;
      [|simplify_eq; split; [apply accounts_kept_same | congruence]].
    apply findById_Some in Hf.
    destruct (negb _); [simplify_eq; split; [apply accounts_kept_same | congruence]|].
    destruct (users st !! Transaction.userId t) as [user|] eqn:Hu;
      [|simplify_eq; split; [apply accounts_kept_same | congruence]].
    destruct (Qltb _ _); [simplify_eq; split; [apply accounts_kept_same | congruence]|].
    destruct (sub64 _ _); simplify_eq. simpl.
    split; [intros i u; apply accounts_kept_balance; exact Hu|].
    intros tid t' Hl Hn. exfalso. exact (replaced_entry _ _ _ _ _ _ Hf Hl Hn).
  - handled Hh. unfold reject_withdrawal.
    destruct (requireAdmin a); simpl;
      [split; [apply accounts_kept_same | congruence]|].
    destruct (findById transactionId (transactions st)) as [[j t]|] eqn:Hf; simpl;
      [|split; [apply accounts_kept_same | congruence]].
    apply findById_Some in Hf.
    destruct (negb _); simpl; [split; [apply accounts_kept_same | congruence]|].
    split; [apply accounts_kept_same|].
    intros tid t' Hl Hn. exfalso. exact (replaced_entry _ _ _ _ _ _ Hf Hl Hn).
  - handled Hh. unfold update_settings.
    destruct (requireAdmin a); simpl; (split; [apply accounts_kept_same | congruence]).
Qed.

(** X29: whatever the request, the login and the reading of the game
    settings included, every account that exists stays, with its email,
    password hash, phone, admin flag and time of creation: a login changes
    nothing but [lastLogin], which it sets to the time of the request on
    the account that logs in; reading the settings changes no account;
    every other request changes nothing but balances.  And every ledger
    entry that a request adds is a pending withdrawal or a completed bet,
    win or credit: a deposit that the webhook credits leaves no entry in
    the ledger. *)
Theorem serve_frame r now st st' :
  serve r now st = Some st' ->
  (forall i u, users st !! i = Some u ->
     exists u',
       users st' !! i = Some u' /\
       match r with
       | PostLogin _ _ _ => u' = u \/ u' = set_lastLogin u now
       | GetGameSettings => u' = u
       | Handled _ => exists b, u' = User.set_balance u b
       end) /\
  (forall tid t', transactions st' !! tid = Some t' ->
     transactions st !! tid = None -> written_entry t').
Proof.
  intros Hs. destruct r as [cmp email password| |r]; simpl in Hs.
  - injection Hs as <-. unfold login.
    destruct (findOne_email email (users st)) as [[j v]|] eqn:Hf; simpl;
      [|split; [eauto | congruence]].
    destruct (negb _); simpl; [split; [eauto | congruence]|].
    split; [|congruence].
    intros i u Hi. destruct (decide (j = i)) as [->|Hne].
    + rewrite lookup_insert_eq.
      apply findOne_email_Some in Hf. destruct Hf as [Hv _].
      rewrite Hv in Hi. injection Hi as <-. eauto.
    + rewrite lookup_insert_ne by exact Hne. eauto.
  - injection Hs as <-. unfold get_settings.
    pose proof (load_settings_users now st) as Hu.
    pose proof (load_settings_transactions now st) as Ht.
    destruct (load_settings now st) as [settings st1]. simpl in *.
    rewrite Hu, Ht. split; [eauto | congruence].
  - destruct (handle64 r now st) as [[resp st1]|] eqn:Hh; [|discriminate].
    injection Hs as <-.
    destruct (handle64_frame r now st resp st1 Hh) as [Hu Ht].
    split; [|exact Ht].
    intros i u Hi. destruct (Hu i u Hi) as [b Hb]. eauto.
Qed.

(** A login of the first account at time 11 stamps it. *)
Lemma serve_frame_witness :
  exists st' u',
    serve (PostLogin example_compare "alice@example.com" "secret") 11 example_db
    = Some st' /\
    users st' !! 1%positive = Some u' /\
    (u' = alice \/ u' = set_lastLogin alice 11) /\
    User.lastLogin u' = Some 11.
Proof.
  destruct (serve_frame (PostLogin example_compare "alice@example.com" "secret")
              11 example_db _ eq_refl) as [Hu _].
  destruct (Hu 1%positive alice eq_refl) as (u' & Hl & Hor).
  eexists _, u'. split; [reflexivity|]. split; [exact Hl|]. split; [exact Hor|].
  vm_compute in Hl. injection Hl as <-. reflexivity.
Defined.





